(** * machines_monitoring: polling sessions, metric parsing and dashboard layout

    A shallow embedding of [machines_monitor/monitor.py] and
    [machines_monitor/dashboard.py], the properties of the design document
    checked against it, and further properties of the code.

    Conventions of the embedding.
    - A Python [str] is a Rocq [string], one [ascii] per character.
    - A Python [int] is a [Z]; [int(s)] and [str(n)] work on texts of any
      length (the limit of 4300 digits of newer interpreters is left out),
      and only ASCII digits are digits.
    - A Python [float] is an IEEE 754 binary64 number, a [spec_float] of
      the Standard Library with its operations at precision 53: reading a
      text, converting an int, dividing two ints and every operation on
      floats round to the nearest float, ties to even, and overflow as
      Python does, see [PyFloat].
    - A reading of the clock is a rational number of seconds.
    - Effects are explicit: the monitor runs in a small state-and-exception
      monad over a [World] that holds the answers of the operating system
      (clock readings, lines arriving on the channel) and the trace of what
      the code did (bytes sent, messages printed, events published). *)

From Stdlib Require Import ZArith QArith Lia Lqa Ascii String SpecFloat.
From stdpp Require Import base strings list gmap sorting pretty.

Open Scope string_scope.
Open Scope list_scope.
Open Scope Z_scope.

(** ** Python string operations *)

Module PyStr.

(** The line terminator. *)
Definition NL : string := String (ascii_of_nat 10) EmptyString.

(** [str.isspace] on one character: the white space among the first 256
    code points. *)
Definition is_space (c : ascii) : bool :=
  let n := nat_of_ascii c in
  ((9 <=? n)%nat && (n <=? 13)%nat) || ((28 <=? n)%nat && (n <=? 32)%nat)
  || (n =? 133)%nat || (n =? 160)%nat.

Definition is_digit (c : ascii) : bool :=
  let n := nat_of_ascii c in (48 <=? n)%nat && (n <=? 57)%nat.

Definition digit_val (c : ascii) : Z := Z.of_nat (nat_of_ascii c) - 48.

(** [s.lstrip()], [s.rstrip()], [s.strip()]. *)
Fixpoint lstrip (s : string) : string :=
  match s with
  | String c s' => if is_space c then lstrip s' else s
  | EmptyString => EmptyString
  end.

Fixpoint rstrip (s : string) : string :=
  match s with
  | String c s' =>
      match rstrip s' with
      | EmptyString => if is_space c then EmptyString else String c EmptyString
      | r => String c r
      end
  | EmptyString => EmptyString
  end.

Definition strip (s : string) : string := rstrip (lstrip s).

(** [sub in s]. *)
Fixpoint contains (sub s : string) : bool :=
  String.prefix sub s ||
  match s with
  | String _ s' => contains sub s'
  | EmptyString => false
  end.

(** [s.startswith(p)]. *)
Definition startswith (p s : string) : bool := String.prefix p s.

Fixpoint drop (n : nat) (s : string) : string :=
  match n, s with
  | S k, String _ s' => drop k s'
  | _, _ => s
  end.

Fixpoint take (n : nat) (s : string) : string :=
  match n, s with
  | S k, String c s' => String c (take k s')
  | _, _ => EmptyString
  end.

(** [s[:n]] for an arbitrary integer [n]: a negative bound counts from the
    end of the string. *)
Definition slice_to (n : Z) (s : string) : string :=
  if n <? 0 then take (Z.to_nat (Z.of_nat (String.length s) + n)) s
  else take (Z.to_nat n) s.

(** [s.split(sep)] for a non-empty separator: scan left to right, cut at
    every occurrence, never overlapping.  [skip] counts the characters of a
    separator still to be passed over. *)
Fixpoint split_go (sep : string) (skip : nat) (s : string) : list string :=
  match s with
  | EmptyString => [EmptyString]
  | String c s' =>
      match skip with
      | S k => split_go sep k s'
      | O =>
          if String.prefix sep s
          then EmptyString :: split_go sep (String.length sep - 1) s'
          else match split_go sep 0 s' with
               | h :: t => String c h :: t
               | [] => [String c EmptyString]
               end
      end
  end.

Definition split (sep s : string) : list string := split_go sep 0 s.

(** [sep.join(l)]. *)
Fixpoint join (sep : string) (l : list string) : string :=
  match l with
  | [] => EmptyString
  | [x] => x
  | x :: l' => x +:+ sep +:+ join sep l'
  end.

(** [s.split()]: cut at runs of whitespace, no empty pieces.  [cur] is the
    word being read, if any. *)
Fixpoint split_ws_go (cur : option string) (s : string) : list string :=
  match s with
  | EmptyString => match cur with Some w => [w] | None => [] end
  | String c s' =>
      if is_space c
      then match cur with
           | Some w => w :: split_ws_go None s'
           | None => split_ws_go None s'
           end
      else match split_ws_go (Some EmptyString) s' with
           | w :: t => String c w :: t
           | [] => [String c EmptyString]
           end
  end.

Definition split_ws (s : string) : list string := split_ws_go None s.

(** First word of a string that starts with a non-space character, and what
    follows it. *)
Fixpoint span_word (s : string) : string * string :=
  match s with
  | String c s' =>
      if is_space c then (EmptyString, s)
      else let '(w, r) := span_word s' in (String c w, r)
  | EmptyString => (EmptyString, EmptyString)
  end.

(** [s.split(maxsplit=n)]: at most [n] words are cut off; what remains after
    them, leading whitespace skipped and trailing whitespace kept, is the
    last piece. *)
Fixpoint split_ws_max (n : nat) (s : string) : list string :=
  match lstrip s with
  | EmptyString => []
  | r =>
      match n with
      | O => [r]
      | S n' => let '(w, rest) := span_word r in w :: split_ws_max n' rest
      end
  end.

(** [c * n]: a character repeated; nothing for a negative count. *)
Definition repeat_char (c : ascii) (n : Z) : string :=
  string_of_list_ascii (replicate (Z.to_nat n) c).

(** [s.ljust(n, fill)]. *)
Definition ljust (n : Z) (fill : ascii) (s : string) : string :=
  s +:+ repeat_char fill (n - Z.of_nat (String.length s)).

(** [len(s)]. *)
Definition len (s : string) : Z := Z.of_nat (String.length s).

End PyStr.

(** ** Exceptions and results *)

Inductive exn :=
  | NameError | AttributeError | ValueError | KeyError | IndexError
  | ZeroDivisionError | OverflowError | TypeError | OSError | CursesError.

(** What running a piece of code gives: a value, a raised exception, or no
    answer at all because the caller is blocked for ever on the outside
    world.  Pure code never blocks. *)
Inductive outcome (A : Type) :=
  | Ret (a : A)
  | Raise (e : exn)
  | Blocked.
Arguments Ret {A} a.
Arguments Raise {A} e.
Arguments Blocked {A}.

Definition obind {A B} (r : outcome A) (k : A -> outcome B) : outcome B :=
  match r with
  | Ret a => k a
  | Raise e => Raise e
  | Blocked => Blocked
  end.

(** [try: body  except: handler] with a handler that catches everything. *)
Definition try_except {A} (body : outcome A) (handler : exn -> outcome A)
  : outcome A :=
  match body with
  | Raise e => handler e
  | r => r
  end.

Declare Scope outcome_scope.
Delimit Scope outcome_scope with outcome.
Notation "x <- c ;; k" := (obind c (fun x => k))
  (at level 100, c at next level, right associativity) : outcome_scope.

(** ** Python floats *)

(** A float: zero, infinity, not-a-number, or a mantissa of at most 53 bits
    with its binary exponent, each but the third with a sign. *)
Abbreviation pyfloat := spec_float.

Module PyFloat.

Definition prec : Z := 53.
Definition emax : Z := 1024.

(** An int as a mantissa of any length with exponent 0, not yet rounded. *)
Definition raw (z : Z) : pyfloat :=
  match z with
  | Z0 => S754_zero false
  | Zpos p => S754_finite false p 0
  | Zneg p => S754_finite true p 0
  end.

(** The float nearest to [n / d], for [d] other than 0. *)
Definition quotient (n d : Z) : pyfloat := SFdiv prec emax (raw n) (raw d).

Definition is_inf (f : pyfloat) : bool :=
  match f with S754_infinity _ => true | _ => false end.

(** [0.0] and [100.0]. *)
Definition zero : pyfloat := S754_zero false.
Definition hundred : pyfloat := binary_normalize prec emax 100 0 false.

(** An int made a float, as [float(z)] and float arithmetic and formatting
    do with an int operand. *)
Definition of_int (z : Z) : outcome pyfloat :=
  let f := binary_normalize prec emax z 0 false in
  if is_inf f then Raise OverflowError else Ret f.

(** [x / y] on two ints. *)
Definition truediv (x y : Z) : outcome pyfloat :=
  if y =? 0 then Raise ZeroDivisionError
  else
    let f := quotient x y in
    if is_inf f then Raise OverflowError else Ret f.

(** [x * y] and [x / y] on two floats. *)
Definition mul (x y : pyfloat) : pyfloat := SFmul prec emax x y.

Definition div (x y : pyfloat) : outcome pyfloat :=
  match y with
  | S754_zero _ => Raise ZeroDivisionError
  | _ => Ret (SFdiv prec emax x y)
  end.

(** [int(x)]: towards zero. *)
Definition trunc (x : pyfloat) : outcome Z :=
  match x with
  | S754_zero _ => Ret 0
  | S754_infinity _ => Raise OverflowError
  | S754_nan => Raise ValueError
  | S754_finite s m e =>
      let a := if 0 <=? e then Z.pos m * 2 ^ e else Z.pos m / 2 ^ (- e) in
      Ret (if s then - a else a)
  end.

(** [round(x)]: to the nearest int, ties to the even one. *)
Definition round (x : pyfloat) : outcome Z :=
  match x with
  | S754_zero _ => Ret 0
  | S754_infinity _ => Raise OverflowError
  | S754_nan => Raise ValueError
  | S754_finite s m e =>
      let a :=
        if 0 <=? e then Z.pos m * 2 ^ e
        else
          let d := 2 ^ (- e) in
          let fl := Z.pos m / d in
          match 2 * (Z.pos m mod d) ?= d with
          | Lt => fl
          | Gt => fl + 1
          | Eq => if Z.even fl then fl else fl + 1
          end in
      Ret (if s then - a else a)
  end.

(** The float nearest to [m * 10^e], for [m] not negative: what [float]
    makes of a decimal numeral.  Too large a value gives infinity. *)
Definition of_decimal (m e : Z) : pyfloat :=
  if 0 <=? e then binary_normalize prec emax (m * 10 ^ e) 0 false
  else quotient m (10 ^ (- e)).

End PyFloat.

(** ** Python numbers read from text *)

(** The [power] entry of a device is a float on the GPU path and an int on
    the XPU path. *)
Inductive pynum :=
  | PInt (z : Z)
  | PFloat (f : pyfloat).

Module PyNum.
Import PyStr.

(** A run of decimal digits in which single underscores may separate digits
    (Python's [digitpart]).  Returns the value accumulated on top of [acc],
    the number of digits on top of [n], and the unread rest. *)
Fixpoint scan_digits (s : string) (acc : Z) (n : nat) : Z * nat * string :=
  match s with
  | String c s' =>
      if is_digit c then scan_digits s' (10 * acc + digit_val c) (S n)
      else if Ascii.eqb c "_" && (0 <? n)%nat then
        match s' with
        | String d _ => if is_digit d then scan_digits s' acc n else (acc, n, s)
        | EmptyString => (acc, n, s)
        end
      else (acc, n, s)
  | EmptyString => (acc, n, s)
  end.

(** An optional sign in front: [true] for minus. *)
Definition scan_sign (s : string) : bool * string :=
  match s with
  | String c s' =>
      if Ascii.eqb c "-" then (true, s')
      else if Ascii.eqb c "+" then (false, s')
      else (false, s)
  | EmptyString => (false, s)
  end.

Definition unsigned_int (s : string) : outcome Z :=
  match scan_digits s 0 0 with
  | (v, S _, EmptyString) => Ret v
  | _ => Raise ValueError
  end.

(** [int(s)] on a string. *)
Definition py_int (s : string) : outcome Z :=
  let '(neg, body) := scan_sign (strip s) in
  (v <- unsigned_int body ;; Ret (if neg then - v else v))%outcome.

Definition lower (c : ascii) : ascii :=
  let n := nat_of_ascii c in
  if (65 <=? n)%nat && (n <=? 90)%nat then ascii_of_nat (n + 32) else c.

Fixpoint lower_str (s : string) : string :=
  match s with
  | String c s' => String (lower c) (lower_str s')
  | EmptyString => EmptyString
  end.

(** [floatnumber]: digits with an optional fraction and an optional
    exponent, at least one digit before the exponent.  Returns the digits
    as an int and the power of ten that goes with them. *)
Definition float_number (s : string) : outcome (Z * Z) :=
  let '(ip, n1, r1) := scan_digits s 0 0 in
  let '(m, n2, r2) :=
    match r1 with
    | String c r =>
        if Ascii.eqb c "." then scan_digits r ip 0 else (ip, 0%nat, r1)
    | EmptyString => (ip, 0%nat, r1)
    end in
  if (n1 + n2 =? 0)%nat then Raise ValueError
  else
    match r2 with
    | EmptyString => Ret (m, - Z.of_nat n2)
    | String c r3 =>
        if Ascii.eqb (lower c) "e" then
          let '(eneg, r4) := scan_sign r3 in
          match scan_digits r4 0 0 with
          | (e, S _, EmptyString) =>
              Ret (m, (if eneg then - e else e) - Z.of_nat n2)
          | _ => Raise ValueError
          end
        else Raise ValueError
    end.

(** [float(s)] on a string. *)
Definition py_float (s : string) : outcome pyfloat :=
  let '(neg, body) := scan_sign (strip s) in
  let low := lower_str body in
  if String.eqb low "inf" || String.eqb low "infinity"
  then Ret (S754_infinity neg)
  else if String.eqb low "nan" then Ret S754_nan
  else (me <- float_number body ;;
        let f := PyFloat.of_decimal me.1 me.2 in
        Ret (if neg then SFopp f else f))%outcome.

End PyNum.

(** ** Data model *)

(** One entry of the configuration: the dict with keys ["host"],
    ["username"], ["type"] and the optional ["key"]. *)
Record machine_info := {
  m_host : string;
  m_username : string;
  m_type : string;
  m_key : option string
}.

(** A device record: the dict with keys ["id"], ["used"], ["total"],
    ["util"], ["temp"], ["power"], ["type"]. *)
Record device := {
  dev_id : Z;
  dev_used : Z;
  dev_total : Z;
  dev_util : Z;
  dev_temp : Z;
  dev_power : pynum;
  dev_type : string
}.

(** The dict with keys ["percent"], ["used_gb"], ["total_gb"]. *)
Record mem_info := {
  percent : pyfloat;
  used_gb : Z;
  total_gb : Z
}.

(** What one poll cycle publishes: the dict with keys ["cpu"], ["mem"],
    ["devices"], ["processes"], ["timestamp"]. *)
Record snapshot := {
  cpu : pyfloat;
  mem : mem_info;
  devices : list device;
  processes : list (list string);
  timestamp : Q
}.

(** ** Parsers of [MachineMonitor] (pure parts) *)

Module Parse.
Import PyStr PyNum.
Local Open Scope outcome_scope.

(** The body of the [try] in [parse_gpu]: unpack six fields, convert them. *)
Definition gpu_record (line : string) : outcome device :=
  match split ", " line with
  | [idx; used_mem; total_mem; util; temp; power] =>
      i <- py_int idx ;;
      u <- py_int used_mem ;;
      t <- py_int total_mem ;;
      ut <- py_int util ;;
      te <- py_int temp ;;
      p <- py_float power ;;
      Ret {| dev_id := i; dev_used := u; dev_total := t; dev_util := ut;
             dev_temp := te; dev_power := PFloat p; dev_type := "GPU" |}
  | _ => Raise ValueError
  end.

(** One turn of the [for] loop of [parse_gpu]. *)
Definition parse_gpu_step (gpus : list device) (line : string) : list device :=
  if String.eqb line "" || negb (contains ", " line) then gpus
  else match gpu_record line with
       | Ret d => gpus ++ [d]
       | _ => gpus
       end.

Definition parse_gpu (output : string) : list device :=
  fold_left parse_gpu_step (split NL output) [].

(** [parts[i]]; the callers check the length first. *)
Definition item (parts : list string) (i : nat) : outcome string :=
  match parts !! i with
  | Some x => Ret x
  | None => Raise IndexError
  end.

(** The body of the [try] in [parse_xpu]. *)
Definition xpu_record (parts : list string) : outcome device :=
  i <- (x <- item parts 2 ;; py_int x) ;;
  u <- (x <- item parts 17 ;; py_int x) ;;
  t <- (x <- item parts 18 ;; py_int x) ;;
  ut <- (x <- item parts 19 ;; py_int x) ;;
  te <- (x <- item parts 4 ;; py_int x) ;;
  p <- (x <- item parts 8 ;; py_int x) ;;
  Ret {| dev_id := i; dev_used := u; dev_total := t; dev_util := ut;
         dev_temp := te; dev_power := PInt p; dev_type := "XPU" |}.

(** One turn of the [for] loop of [parse_xpu]: the devices so far and the
    exceptions reported by [print] so far. *)
Definition parse_xpu_step (acc : list device * list exn) (line : string)
  : list device * list exn :=
  let parts := split_ws line in
  if (length parts <? 32)%nat then acc
  else match xpu_record parts with
       | Ret d => (acc.1 ++ [d], acc.2)
       | Raise e => (acc.1, acc.2 ++ [e])
       | Blocked => acc
       end.

Definition parse_xpu (output : string) : list device * list exn :=
  fold_left parse_xpu_step (split NL (strip output)) ([], []).

(** The conversion in [get_cpu_info], with its fallback. *)
Definition cpu_of_output (output : string) : pyfloat :=
  match py_float (strip output) with
  | Ret f => f
  | _ => PyFloat.zero
  end.

(** [total, used = map(int, fields)]. *)
Definition unpack2_int (fields : list string) : outcome (Z * Z) :=
  match fields with
  | [a; b] => x <- py_int a ;; y <- py_int b ;; Ret (x, y)
  | _ => Raise ValueError
  end.

(** [x / y] on two ints. *)
Definition truediv (x y : Z) : outcome pyfloat := PyFloat.truediv x y.

Definition GiB : Z := 1024 ^ 3.

Definition mem_fallback : mem_info :=
  {| percent := PyFloat.zero; used_gb := 0; total_gb := 0 |}.

(** The conversion in [get_mem_info], with its fallback. *)
Definition mem_of_output (output : string) : mem_info :=
  let body :=
    tu <- unpack2_int (split_ws (strip output)) ;;
    let '(total, used) := tu in
    r <- truediv used total ;;
    let percent := PyFloat.mul r PyFloat.hundred in
    ug <- (q <- truediv used GiB ;; PyFloat.round q) ;;
    tg <- (q <- truediv total GiB ;; PyFloat.round q) ;;
    Ret {| percent := percent; used_gb := ug; total_gb := tg |} in
  match body with
  | Ret m => m
  | _ => mem_fallback
  end.

(** One turn of the [for] loop of [get_processes]. *)
Definition processes_step (procs : list (list string)) (line : string)
  : list (list string) :=
  if negb (String.eqb (strip line) "") && negb (startswith "PID" line)
  then procs ++ [split_ws_max 4 line]
  else procs.

Definition processes_of_output (output : string) : list (list string) :=
  firstn 5 (fold_left processes_step (split NL output) []).

End Parse.

(** ** The outside world of one monitor *)

(** What one call of [readline] or [read] on a stream of the ssh process
    gives: a line of text (the empty string at end of file) or an exception. *)
Inductive read :=
  | RdLine (s : string)
  | RdRaise (e : exn).

(** The messages the monitor prints. *)
Inductive message :=
  | MsgSshFailed (err : string)
  | MsgCmdFailed (code : Z) (cmd : string)
  | MsgCmdException (e : exn)
  | MsgXpuFailed (e : exn).

(** What the monitor does to the outside, in order. *)
Inductive event :=
  | EvTerminate
  | EvSpawn (argv : list string)
  | EvSleep (secs : Z)
  | EvWrite (text : string)
  | EvFlush
  | EvPrint (m : message)
  | EvPut (host : string) (data : option snapshot).

(** The surroundings of one monitor thread: the names bound in the module
    it runs in, the answers of the operating system, each list in the order
    of the calls, and the trace of what the thread did.  A call that finds
    its list empty never returns. *)
Record World := {
  names : list string;
  clock : list Q;
  stdout : list read;
  stderr : list read;
  stdin : list (option exn);
  polls : list (option Z);
  trace : list event
}.

(** The attributes of a [MachineMonitor]; the queue it was given is the
    [EvPut] events of the trace. *)
Record MachineMonitor := {
  machine : machine_info;
  ssh : option nat;
  connected : bool;
  refresh_interval : Z
}.

Record State := {
  self : MachineMonitor;
  world : World
}.

(** Code with effects on a state of type [S]. *)
Definition Eff (S A : Type) : Type := S -> outcome A * S.

Definition ret {S A} (a : A) : Eff S A := fun st => (Ret a, st).
Definition raise {S A} (e : exn) : Eff S A := fun st => (Raise e, st).
Definition blocked {S A} : Eff S A := fun st => (Blocked, st).

Definition bind {S A B} (c : Eff S A) (k : A -> Eff S B) : Eff S B :=
  fun st =>
    match c st with
    | (Ret a, st') => k a st'
    | (Raise e, st') => (Raise e, st')
    | (Blocked, st') => (Blocked, st')
    end.

(** [try: body  except Exception as e: handler]. *)
Definition try_catch {S A} (body : Eff S A) (handler : exn -> Eff S A)
  : Eff S A :=
  fun st =>
    match body st with
    | (Raise e, st') => handler e st'
    | r => r
    end.

(** [try: body  except E: handler] for the exceptions [E] picked by
    [catches]. *)
Definition try_catch_if {S A} (catches : exn -> bool) (body : Eff S A)
    (handler : exn -> Eff S A) : Eff S A :=
  fun st =>
    match body st with
    | (Raise e, st') => if catches e then handler e st' else (Raise e, st')
    | r => r
    end.

(** Pure code inside effectful code. *)
Definition lift {S A} (r : outcome A) : Eff S A := fun st => (r, st).

Declare Scope eff_scope.
Delimit Scope eff_scope with eff.
Notation "x <- c ;; k" := (bind c (fun x => k))
  (at level 100, c at next level, right associativity) : eff_scope.
Notation "c ;;; k" := (bind c (fun _ => k))
  (at level 100, right associativity) : eff_scope.

(** The monitor's code runs on its object and its world. *)
Abbreviation M := (Eff State).

Module Prim.

(** The world with one of its parts replaced. *)
Definition set_clock (c : list Q) (w : World) : World :=
  {| names := names w; clock := c; stdout := stdout w; stderr := stderr w;
     stdin := stdin w; polls := polls w; trace := trace w |}.

Definition set_stdout (o : list read) (w : World) : World :=
  {| names := names w; clock := clock w; stdout := o; stderr := stderr w;
     stdin := stdin w; polls := polls w; trace := trace w |}.

Definition set_stderr (e : list read) (w : World) : World :=
  {| names := names w; clock := clock w; stdout := stdout w; stderr := e;
     stdin := stdin w; polls := polls w; trace := trace w |}.

Definition set_stdin (i : list (option exn)) (w : World) : World :=
  {| names := names w; clock := clock w; stdout := stdout w;
     stderr := stderr w; stdin := i; polls := polls w; trace := trace w |}.

Definition set_polls (p : list (option Z)) (w : World) : World :=
  {| names := names w; clock := clock w; stdout := stdout w;
     stderr := stderr w; stdin := stdin w; polls := p; trace := trace w |}.

Definition add_trace (ev : event) (w : World) : World :=
  {| names := names w; clock := clock w; stdout := stdout w;
     stderr := stderr w; stdin := stdin w; polls := polls w;
     trace := trace w ++ [ev] |}.

Definition in_world (f : World -> World) (st : State) : State :=
  {| self := self st; world := f (world st) |}.

Definition get_self : M MachineMonitor := fun st => (Ret (self st), st).
Definition get_world : M World := fun st => (Ret (world st), st).

Definition emit (ev : event) : M unit :=
  fun st => (Ret tt, in_world (add_trace ev) st).

(** [time.time()]. *)
Definition now : M Q :=
  fun st =>
    match clock (world st) with
    | t :: rest => (Ret t, in_world (set_clock rest) st)
    | [] => (Blocked, st)
    end.

Definition read_result (r : read) : outcome string :=
  match r with
  | RdLine s => Ret s
  | RdRaise e => Raise e
  end.

(** [self.ssh.stdout.readline()]. *)
Definition stdout_readline : M string :=
  fun st =>
    match stdout (world st) with
    | r :: rest => (read_result r, in_world (set_stdout rest) st)
    | [] => (Blocked, st)
    end.

(** [self.ssh.stderr.read()]. *)
Definition stderr_read : M string :=
  fun st =>
    match stderr (world st) with
    | r :: rest => (read_result r, in_world (set_stderr rest) st)
    | [] => (Blocked, st)
    end.

(** An operation on [self.ssh.stdin]: it goes through, recorded in the
    trace, or raises. *)
Definition stdin_op (ev : event) : M unit :=
  fun st =>
    match stdin (world st) with
    | None :: rest =>
        (Ret tt, in_world (fun w => add_trace ev (set_stdin rest w)) st)
    | Some e :: rest => (Raise e, in_world (set_stdin rest) st)
    | [] => (Blocked, st)
    end.

Definition stdin_write (text : string) : M unit := stdin_op (EvWrite text).
Definition stdin_flush : M unit := stdin_op EvFlush.

(** [self.ssh.poll()]: [None] while the process runs, its exit status
    afterwards. *)
Definition poll : M (option Z) :=
  fun st =>
    match polls (world st) with
    | r :: rest => (Ret r, in_world (set_polls rest) st)
    | [] => (Blocked, st)
    end.

Definition set_connected (b : bool) : M unit :=
  fun st =>
    let o := self st in
    (Ret tt,
     {| self := {| machine := machine o; ssh := ssh o; connected := b;
                   refresh_interval := refresh_interval o |};
        world := world st |}).

Definition set_ssh (h : option nat) : M unit :=
  fun st =>
    let o := self st in
    (Ret tt,
     {| self := {| machine := machine o; ssh := h; connected := connected o;
                   refresh_interval := refresh_interval o |};
        world := world st |}).

End Prim.

(** ** [MachineMonitor] *)

Module Monitor.
Import PyStr PyNum Parse Prim.
Local Open Scope eff_scope.

Definition Qltb (x y : Q) : bool := negb (Qle_bool y x).

(** The double quote character. *)
Definition DQ : string := String (ascii_of_nat 34) EmptyString.

(** The names bound at module level in [monitor.py] once it is imported:
    what its [import] lines bring in, and its class. *)
Definition module_globals : list string :=
  ["time"; "curses"; "argparse"; "threading"; "subprocess"; "Queue";
   "defaultdict"; "List"; "Dict"; "Tuple"; "Optional"; "Any";
   "MachineMonitor"].

(** Looking up a module-level name that is not a builtin. *)
Definition global (name : string) : M unit :=
  w <- get_world ;;
  if bool_decide (name ∈ names w) then ret tt else raise NameError.

Definition init_commands : list string :=
  ["export LANG=C"; "export LC_ALL=C"; "stty -echo"; "echo 'SHELL_READY'"].

Fixpoint send_all (cmds : list string) : M unit :=
  match cmds with
  | [] => ret tt
  | cmd :: rest =>
      stdin_write (cmd +:+ NL) ;;; stdin_flush ;;; send_all rest
  end.

(** The waiting loop of [_init_shell]; every turn reads the clock once, so
    [fuel] is taken one above the number of readings left. *)
Fixpoint wait_ready (fuel : nat) (start : Q) : M unit :=
  match fuel with
  | O => blocked
  | S fuel' =>
      t <- now ;;
      if Qltb (t - start) 3 then
        line <- stdout_readline ;;
        if contains "SHELL_READY" line then ret tt
        else wait_ready fuel' start
      else ret tt
  end.

Definition _init_shell : M unit :=
  send_all init_commands ;;;
  start <- now ;;
  w <- get_world ;;
  wait_ready (S (length (clock w))) start.

Definition ssh_command (m : machine_info) : list string :=
  let target := m_username m +:+ "@" +:+ m_host m in
  match m_key m with
  | None =>
      ["ssh"; "-T"; "-o"; "ConnectTimeout=5"; "-o"; "BatchMode=yes"; "-o";
       "StrictHostKeyChecking no"; target]
  | Some k => ["ssh"; "-i"; k; target]
  end.

(** [ssh_connect].  The arguments of [subprocess.Popen] are evaluated before
    the call: [stdout] and [stderr] are both [open(os.devnull, "w")], and the
    name [os] has to be looked up in the module.  Once the names are found,
    opening the null device and starting the process are taken to succeed. *)
Definition ssh_connect : M bool :=
  o <- get_self ;;
  match ssh o with
  | Some _ =>
      p <- poll ;;
      match p with
      | None => emit EvTerminate
      | Some _ => ret tt
      end
  | None => ret tt
  end ;;;
  let ssh_cmd := ssh_command (machine o) in
  global "subprocess" ;;;
  global "os" ;;;
  global "os" ;;;
  emit (EvSpawn ssh_cmd) ;;;
  set_ssh (Some 0%nat) ;;;
  emit (EvSleep 1) ;;;
  p <- poll ;;
  match p with
  | Some _ =>
      err <- stderr_read ;;
      emit (EvPrint (MsgSshFailed err)) ;;;
      set_connected false ;;;
      ret false
  | None =>
      _init_shell ;;;
      set_connected true ;;;
      ret true
  end.

(** The exit code carried by a sentinel line. *)
Definition sentinel_code (line : string) : Z :=
  let code_part := strip (List.last (split "_" line) EmptyString) in
  match py_int code_part with
  | Ret c => c
  | _ => -1
  end.

(** The reading loop of [get_remote_info]: the output lines so far, and at
    the end the exit code ([-1] when the time ran out).  Every turn reads the
    clock once, so [fuel] is taken one above the number of readings left. *)
Fixpoint read_loop (fuel : nat) (start_time : Q) (output : list string)
  : M (list string * Z) :=
  match fuel with
  | O => blocked
  | S fuel' =>
      t <- now ;;
      if Qltb (t - start_time) 10 then
        line <- stdout_readline ;;
        if String.eqb line "" then read_loop fuel' start_time output
        else if contains "CMD_FINISHED_" line then
          ret (output, sentinel_code line)
        else read_loop fuel' start_time (output ++ [strip line])
      else ret (output, -1)
  end.

Definition full_command (cmd : string) : string :=
  cmd +:+ " ; echo " +:+ DQ +:+ "CMD_FINISHED_$?" +:+ DQ +:+ NL.

(** The body of the [try] in [get_remote_info]: send the command, read up
    to the sentinel, judge the exit code. *)
Definition command_body (cmd : string) : M string :=
  stdin_write (full_command cmd) ;;;
  stdin_flush ;;;
  start_time <- now ;;
  w <- get_world ;;
  r <- read_loop (S (length (clock w))) start_time [] ;;
  let '(output, exit_code) := r in
  if negb (exit_code =? 0) then
    emit (EvPrint (MsgCmdFailed exit_code cmd)) ;;;
    ret ""
  else ret (join NL output).

(** The [except] clause of [get_remote_info]. *)
Definition command_failed (e : exn) : M string :=
  emit (EvPrint (MsgCmdException e)) ;;;
  set_connected false ;;;
  ret "".

Definition try_command (cmd : string) : M string :=
  try_catch (command_body cmd) command_failed.

Definition get_remote_info (cmd : string) : M string :=
  o <- get_self ;;
  ok <- (if connected o then ret true else ssh_connect) ;;
  if negb ok then ret "" else try_command cmd.

Definition cpu_cmd : string :=
  "top -bn1 | grep 'Cpu(s)' | awk '{print 100 - $8}' | paste -sd+ | bc".
Definition mem_cmd : string := "free -b | grep Mem | awk '{print $2,$3}'".
Definition gpu_cmd : string :=
  "nvidia-smi --query-gpu=index,memory.used,memory.total,utilization.gpu,temperature.gpu,power.draw --format=csv,noheader,nounits".
Definition xpu_cmd : string := "xpu-smi --machine-readable".
Definition ps_cmd : string :=
  "ps -eo pid,user,pcpu,pmem,comm --sort=-pcpu | head -n 5".

Definition get_cpu_info : M pyfloat :=
  output <- get_remote_info cpu_cmd ;;
  ret (cpu_of_output output).

Definition get_mem_info : M mem_info :=
  output <- get_remote_info mem_cmd ;;
  ret (mem_of_output output).

Definition get_gpu_info : M (list device) :=
  output <- get_remote_info gpu_cmd ;;
  ret (parse_gpu output).

Fixpoint print_all (errs : list exn) : M unit :=
  match errs with
  | [] => ret tt
  | e :: rest => emit (EvPrint (MsgXpuFailed e)) ;;; print_all rest
  end.

Definition get_xpu_info : M (list device) :=
  output <- get_remote_info xpu_cmd ;;
  let '(xpus, errs) := parse_xpu output in
  print_all errs ;;;
  ret xpus.

Definition get_processes : M (list (list string)) :=
  output <- get_remote_info ps_cmd ;;
  ret (processes_of_output output).

(** The dict display inside the [try] of [monitor]. *)
Definition collect : M snapshot :=
  c <- get_cpu_info ;;
  m <- get_mem_info ;;
  o <- get_self ;;
  d <- (if String.eqb (m_type (machine o)) "GPU" then get_gpu_info
        else get_xpu_info) ;;
  p <- get_processes ;;
  ts <- now ;;
  ret {| cpu := c; mem := m; devices := d; processes := p; timestamp := ts |}.

Definition queue_put (data : option snapshot) : M unit :=
  o <- get_self ;;
  emit (EvPut (m_host (machine o)) data).

(** One turn of the [while True] of [monitor], up to the [sleep]: [true]
    when the loop goes on, [false] after [break]. *)
Definition poll_cycle : M bool :=
  try_catch
    (data <- collect ;;
     queue_put (Some data) ;;;
     ret true)
    (fun _ =>
       queue_put None ;;;
       ret false).

(** How a bounded run of the endless loop ends. *)
Inductive loop_end :=
  | Stopped
  | StillPolling.

(** The [while True] of [monitor], run for at most [cycles] turns. *)
Fixpoint monitor_loop (cycles : nat) : M loop_end :=
  match cycles with
  | O => ret StillPolling
  | S n =>
      go <- poll_cycle ;;
      if go then
        o <- get_self ;;
        emit (EvSleep (refresh_interval o)) ;;;
        monitor_loop n
      else ret Stopped
  end.

Definition monitor (cycles : nat) : M loop_end :=
  ok <- ssh_connect ;;
  if negb ok then
    queue_put None ;;;
    ret Stopped
  else monitor_loop cycles.

(** [MachineMonitor(machine_info, result_queue, refresh_interval)]. *)
Definition init (m : machine_info) (interval : Z) : MachineMonitor :=
  {| machine := m; ssh := None; connected := false;
     refresh_interval := interval |}.

(** The events published on the queue, in order. *)
Definition published_of (tr : list event) : list (string * option snapshot) :=
  omap (fun ev => match ev with
                  | EvPut h d => Some (h, d)
                  | _ => None
                  end) tr.

Definition published (w : World) : list (string * option snapshot) :=
  published_of (trace w).

End Monitor.

(** ** [Dashboard] *)

Module Dash.
Import PyStr PyNum.
Local Open Scope eff_scope.

(** The colour names [dashboard.py] takes from [colors.py]. *)
Inductive Color := RED | GREEN | YELLOW | BLUE | MAGENTA | CYAN | WHITE.

(** The attribute of a write: the default [0] or a [curses.color_pair]. *)
Inductive attr :=
  | A_NORMAL
  | color_pair (c : Color).

(** The curses window: its size and what was written into it since it was
    last blanked, as (row, column, text, attribute). *)
Record Screen := {
  max_y : Z;
  max_x : Z;
  written : list (Z * Z * string * attr)
}.

(** What lies outside the embedding of text: the box and bar characters,
    which are not ASCII, the formatting of floats ([f"{x:W.Pf}"]) and the
    clock text of the status bar. *)
Record Texts := {
  ch_top_left : ascii;
  ch_horizontal : ascii;
  ch_top_right : ascii;
  ch_vertical : ascii;
  ch_bottom_left : ascii;
  ch_bottom_right : ascii;
  ch_block : ascii;
  fmt_fixed : nat -> nat -> pyfloat -> string;
  strftime : string
}.

Record Dashboard := {
  stdscr : Screen;
  machines : list machine_info;
  interval : Z;
  data : gmap string (option snapshot);
  running : bool;
  margin : Z;
  last_update : Q;
  last_win_size : Z * Z;
  min_col_width : Z;
  max_devices : Z
}.

Abbreviation D := (Eff Dashboard).

Definition set_stdscr (scr : Screen) : D unit :=
  fun d =>
    (Ret tt,
     {| stdscr := scr; machines := machines d; interval := interval d;
        data := data d; running := running d; margin := margin d;
        last_update := last_update d; last_win_size := last_win_size d;
        min_col_width := min_col_width d; max_devices := max_devices d |}).

Definition set_last_win_size (sz : Z * Z) : D unit :=
  fun d =>
    (Ret tt,
     {| stdscr := stdscr d; machines := machines d; interval := interval d;
        data := data d; running := running d; margin := margin d;
        last_update := last_update d; last_win_size := sz;
        min_col_width := min_col_width d; max_devices := max_devices d |}).

Definition set_data (m : gmap string (option snapshot)) (t : Q)
    : Dashboard -> Dashboard :=
  fun d =>
    {| stdscr := stdscr d; machines := machines d; interval := interval d;
       data := m; running := running d; margin := margin d;
       last_update := t; last_win_size := last_win_size d;
       min_col_width := min_col_width d; max_devices := max_devices d |}.

Definition get : D Dashboard := fun d => (Ret d, d).

(** [Dashboard(stdscr, machines, refresh_interval)]. *)
Definition init (scr : Screen) (ms : list machine_info) (refresh : Z)
  : Dashboard :=
  {| stdscr := scr; machines := ms; interval := refresh; data := ∅;
     running := true; margin := 2; last_update := 0;
     last_win_size := (0, 0); min_col_width := 55; max_devices := 8 |}.

(** [stdscr.getmaxyx()]. *)
Definition getmaxyx : D (Z * Z) :=
  d <- get ;; ret (max_y (stdscr d), max_x (stdscr d)).

(** [stdscr.erase()] and [stdscr.clear()]: both blank the window. *)
Definition erase : D unit :=
  d <- get ;;
  set_stdscr {| max_y := max_y (stdscr d); max_x := max_x (stdscr d);
                written := [] |}.

(** [stdscr.addstr(y, x, text, attr)], the contract of the curses library:
    a start outside the window is an error and changes nothing; otherwise the
    text is put down cell by cell, and running into the lower right corner
    is an error raised after the cells that fit were written. *)
Definition addstr (y x : Z) (text : string) (a : attr) : D unit :=
  d <- get ;;
  let scr := stdscr d in
  if (y <? 0) || (max_y scr <=? y) || (x <? 0) || (max_x scr <=? x)
  then raise CursesError
  else
    let room := (max_y scr - 1 - y) * max_x scr + (max_x scr - x) in
    set_stdscr {| max_y := max_y scr; max_x := max_x scr;
                  written := written scr ++
                             [(y, x, take (Z.to_nat room) text, a)] |} ;;;
    if room <=? len text then raise CursesError else ret tt.

Definition is_curses_error (e : exn) : bool :=
  match e with CursesError => true | _ => false end.

Definition safe_addstr (y x : Z) (text : string) (a : attr) : D unit :=
  sz <- getmaxyx ;;
  let '(max_y, max_x) := sz in
  if (max_y <=? y) || (max_x <=? x) then ret tt
  else
    let text := slice_to (max_x - x) text in
    try_catch_if is_curses_error (addstr y x text a) (fun _ => ret tt).

(** [a // b]. *)
Definition floordiv (a b : Z) : outcome Z :=
  if b =? 0 then Raise ZeroDivisionError else Ret (a / b).

(** [max(...)] over a sequence. *)
Definition py_max (l : list Z) : outcome Z :=
  match l with
  | [] => Raise ValueError
  | x :: rest => Ret (fold_left Z.max rest x)
  end.

Section Painting.
Variable tx : Texts.

Definition bar (fill width : Z) : string :=
  repeat_char (ch_block tx) fill +:+ repeat_char " " (width - fill).

(** The width of a bar: [int((width - 20) * share)], the share being the
    float literal [num / 10]. *)
Definition bar_width (width num : Z) : outcome Z :=
  (w <- PyFloat.of_int (width - 20) ;;
   PyFloat.trunc (PyFloat.mul w (PyFloat.quotient num 10)))%outcome.

(** What [draw_util_bar] works out before its first write: the two texts,
    the widths of the two bars and the fill of the memory bar. *)
Definition bar_figures (width mem_used mem_total util_value : Z)
  : outcome (string * string * Z * Z * Z) :=
  (let mem_used_gb := mem_used / 1024 in
   let mem_total_gb := mem_total / 1024 in
   let mem_str :=
     pretty mem_used_gb +:+ "G/" +:+ pretty mem_total_gb +:+ "G" in
   r <- Parse.truediv mem_used mem_total ;;
   let mem_percent := PyFloat.mul r PyFloat.hundred in
   u <- PyFloat.of_int util_value ;;
   let util_str := fmt_fixed tx 0 0 u +:+ "%" in
   mem_bar_width <- bar_width width 6 ;;
   util_bar_width <- bar_width width 4 ;;
   b <- PyFloat.of_int mem_bar_width ;;
   q <- PyFloat.div (PyFloat.mul b mem_percent) PyFloat.hundred ;;
   mem_fill <- PyFloat.trunc q ;;
   Ret (mem_str, util_str, mem_bar_width, util_bar_width, mem_fill))%outcome.

(** [int(util_bar_width * util_value / 100)], worked out after the first
    write. *)
Definition util_fill_of (util_bar_width util_value : Z) : outcome Z :=
  (q <- Parse.truediv (util_bar_width * util_value) 100 ;;
   PyFloat.trunc q)%outcome.

Definition draw_util_bar (row col width mem_used mem_total util_value : Z)
  : D unit :=
  f <- lift (bar_figures width mem_used mem_total util_value) ;;
  let '(mem_str, util_str, mem_bar_width, util_bar_width, mem_fill) := f in
  safe_addstr row col ("M[" +:+ bar mem_fill mem_bar_width +:+ "] " +:+ mem_str)
    (color_pair BLUE) ;;;
  util_fill <- lift (util_fill_of util_bar_width util_value) ;;
  safe_addstr row (col + mem_bar_width + len mem_str + 7)
    ("U[" +:+ bar util_fill util_bar_width +:+ "] " +:+ util_str)
    (color_pair MAGENTA).

(** The device loop of [draw_machine_block]: returns the height reached. *)
Fixpoint draw_devices (devs : list device) (start_row start_col width max_y
    height : Z) : D Z :=
  match devs with
  | [] => ret height
  | dev :: rest =>
      if max_y - 2 <=? start_row + height then ret height
      else
        let dev_header :=
          String (ch_vertical tx) " " +:+ dev_type dev +:+ pretty (dev_id dev)
          +:+ " " in
        safe_addstr (start_row + height) start_col (ljust 12 " " dev_header)
          A_NORMAL ;;;
        draw_util_bar (start_row + height) (start_col + 12) (width - 14)
          (dev_used dev) (dev_total dev) (dev_util dev) ;;;
        safe_addstr (start_row + height) (start_col + width - 2)
          (String (ch_vertical tx) "") A_NORMAL ;;;
        draw_devices rest start_row start_col width max_y (height + 1)
  end.

(** One item of the process line: [f"{p[4][:6]}:{float(p[2]):.1f}%"]. *)
Definition proc_item (p : list string) : outcome string :=
  (name <- Parse.item p 4 ;;
   pc <- Parse.item p 2 ;;
   f <- py_float pc ;;
   Ret (take 6 name +:+ ":" +:+ fmt_fixed tx 0 1 f +:+ "%"))%outcome.

Fixpoint proc_items (procs : list (list string)) : outcome (list string) :=
  match procs with
  | [] => Ret []
  | p :: rest =>
      (x <- proc_item p ;; xs <- proc_items rest ;; Ret (x :: xs))%outcome
  end.

(** The second line of a block: the CPU figure, a float, and the two memory
    figures, ints shown with a float format. *)
Definition cpu_mem_text (info : snapshot) : outcome string :=
  (let mem_info := mem info in
   ug <- PyFloat.of_int (used_gb mem_info) ;;
   tg <- PyFloat.of_int (total_gb mem_info) ;;
   Ret (String (ch_vertical tx) " CPU:" +:+ fmt_fixed tx 5 1 (cpu info)
        +:+ "% " +:+ "MEM:" +:+ fmt_fixed tx 3 0 ug +:+ "/"
        +:+ fmt_fixed tx 3 0 tg +:+ "G "))%outcome.

(** The part of [draw_machine_block] after its guard, for a host that has a
    snapshot. *)
Definition draw_block_body (start_row start_col width : Z) (host : string)
    (info : snapshot) : D Z :=
  sz <- getmaxyx ;;
  let '(max_y, max_x) := sz in
  let title :=
    ljust (width - 2) (ch_horizontal tx)
      (String (ch_top_left tx) (String (ch_horizontal tx) " ") +:+ host +:+
       String " " (String (ch_horizontal tx) ""))
    +:+ String (ch_top_right tx) "" in
  safe_addstr start_row start_col title (color_pair CYAN) ;;;
  let height := 1 in
  cpu_mem_line <- lift (cpu_mem_text info) ;;
  safe_addstr (start_row + height) start_col
    (ljust (width - 2) " " cpu_mem_line +:+ String (ch_vertical tx) "")
    (color_pair CYAN) ;;;
  let height := height + 1 in
  height <- draw_devices (firstn 8 (devices info)) start_row start_col width
              max_y height ;;
  height <-
    (if negb (bool_decide (processes info = [])) &&
        (start_row + height <? max_y - 2)
     then
       let procs := firstn 3 (processes info) in
       items <- lift (proc_items procs) ;;
       let proc_str := join " " items in
       safe_addstr (start_row + height) start_col
         (String (ch_vertical tx) " " +:+ ljust (width - 4) " " proc_str +:+
          String (ch_vertical tx) "") A_NORMAL ;;;
       ret (height + 1)
     else ret height) ;;
  safe_addstr (start_row + height) start_col
    (String (ch_bottom_left tx) "" +:+
     repeat_char (ch_horizontal tx) (width - 2) +:+
     String (ch_bottom_right tx) "") (color_pair CYAN) ;;;
  ret (height + 1).

(** [draw_machine_block]: nothing and height [0] for a host without data. *)
Definition draw_machine_block (start_row start_col width : Z) (host : string)
    (info : option snapshot) : D Z :=
  match info with
  | None => ret 0
  | Some i => draw_block_body start_row start_col width host i
  end.

(** The layout parameters of [update_display]: minimum column width, column
    count and column width. *)
Definition layout (max_x margin : Z) (machines : list machine_info)
  : outcome (Z * Z * Z) :=
  (longest <- py_max (map (fun m => len (m_host m)) machines) ;;
   let ip_length := longest + 6 in
   let min_col_width := Z.max ip_length 60 in
   q <- floordiv (max_x - margin) (min_col_width + margin) ;;
   let cols := Z.max 1 q in
   w <- floordiv (max_x - margin * (cols + 1)) cols ;;
   let col_width := Z.min min_col_width w in
   Ret (min_col_width, cols, col_width))%outcome.

(** The drawing position and the count of blocks drawn. *)
Record cursor := {
  current_row : Z;
  current_col : Z;
  drawn_machines : Z
}.

(** How one turn of a [for] loop ends: on to the next item, or [break]. *)
Inductive flow := Next | Break.

Definition title_text : string := " Cluster Monitor (Press Q to exit) ".

(** One turn of the loop over the hosts in [update_display]. *)
Definition display_step (max_y max_x cols col_width : Z) (host : string)
    (c : cursor) : D (flow * cursor) :=
  d <- get ;;
  if Z.of_nat (length (machines d)) <=? drawn_machines c then ret (Break, c)
  else
    match data d !! host with
    | Some (Some info) =>
        let device_lines :=
          Z.min (Z.of_nat (length (devices info))) (max_devices d) in
        let proc_lines :=
          if bool_decide (processes info = []) then 0 else 1 in
        let block_height := 3 + device_lines + proc_lines in
        let wrap := max_x - margin d <? current_col c + col_width in
        let row := if wrap then current_row c + block_height + margin d
                   else current_row c in
        let col := if wrap then margin d else current_col c in
        let here := {| current_row := row; current_col := col;
                       drawn_machines := drawn_machines c |} in
        if max_y - 2 <? row + block_height then ret (Break, here)
        else
          height <- draw_machine_block row col col_width host (Some info) ;;
          let drawn := drawn_machines c + 1 in
          r <- lift (if cols =? 0 then Raise ZeroDivisionError
                     else Ret (drawn mod cols)) ;;
          if r =? 0 then
            ret (Next, {| current_row := row + height + margin d;
                          current_col := margin d;
                          drawn_machines := drawn |})
          else
            ret (Next, {| current_row := row;
                          current_col := col + col_width + margin d;
                          drawn_machines := drawn |})
    | _ => ret (Next, c)
    end.

Fixpoint display_loop (max_y max_x cols col_width : Z) (hosts : list string)
    (c : cursor) : D cursor :=
  match hosts with
  | [] => ret c
  | host :: rest =>
      r <- display_step max_y max_x cols col_width host c ;;
      match r with
      | (Next, c') => display_loop max_y max_x cols col_width rest c'
      | (Break, c') => ret c'
      end
  end.

(** [sorted(self.data.keys())]: strings are ordered character by character. *)
Definition sorted_hosts (m : gmap string (option snapshot)) : list string :=
  merge_sort String.le (map fst (map_to_list m)).

Definition status_text (drawn total : Z) : string :=
  " Machines: " +:+ pretty drawn +:+ "/" +:+ pretty total +:+ " | Update: "
  +:+ strftime tx +:+ " ".

Definition update_display : D unit :=
  erase ;;;
  sz <- getmaxyx ;;
  let '(max_y, max_x) := sz in
  d <- get ;;
  (if bool_decide (sz = last_win_size d) then ret tt
   else erase ;;; set_last_win_size sz) ;;;
  safe_addstr 0 ((max_x - len title_text) / 2) title_text (color_pair CYAN) ;;;
  d <- get ;;
  l <- lift (layout max_x (margin d) (machines d)) ;;
  let '(_, cols, col_width) := l in
  c <- display_loop max_y max_x cols col_width (sorted_hosts (data d))
         {| current_row := 1; current_col := margin d; drawn_machines := 0 |} ;;
  (if 1 <? max_y then
     let status :=
       status_text (drawn_machines c) (Z.of_nat (length (machines d))) in
     safe_addstr (max_y - 1) 0 (slice_to (max_x - 1) status) (color_pair CYAN)
   else ret tt).

(** One turn of the inner loop of [run]: an event taken from the queue at
    time [t] goes into the store. *)
Definition absorb (d : Dashboard) (ev : string * option snapshot * Q)
  : Dashboard :=
  let '(host, snap, t) := ev in
  set_data (<[host := snap]> (data d)) t d.

(** The inner loop of [run] over the events waiting in the queue. *)
Definition drain (events : list (string * option snapshot * Q))
    (d : Dashboard) : Dashboard :=
  fold_left absorb events d.

Definition set_running (b : bool) : D unit :=
  fun d =>
    (Ret tt,
     {| stdscr := stdscr d; machines := machines d; interval := interval d;
        data := data d; running := b; margin := margin d;
        last_update := last_update d; last_win_size := last_win_size d;
        min_col_width := min_col_width d; max_devices := max_devices d |}).

(** One turn of the main loop of [run]: the events found in the queue, the
    clock reading and the key pressed, if any. *)
Definition run_step (events : list (string * option snapshot * Q))
    (current_time : Q) (key : option ascii) : D unit :=
  (fun d => (Ret tt, drain events d)) ;;;
  d <- get ;;
  let has_update := negb (bool_decide (events = [])) in
  (if has_update
      || Qle_bool (inject_Z (interval d)) (current_time - last_update d)
   then update_display ;;;
        (fun d => (Ret tt, set_data (data d) current_time d))
   else ret tt) ;;;
  match key with
  | Some k => if Ascii.eqb k "q" then set_running false else ret tt
  | None => ret tt
  end.

(** The main loop of [run] over the turns given, each with the events it
    finds in the queue, its clock reading and the key pressed, if any: the
    loop goes on while [self.running] holds. *)
Fixpoint run_loop
    (turns : list (list (string * option snapshot * Q) * Q * option ascii))
  : D unit :=
  match turns with
  | [] => ret tt
  | (events, current_time, key) :: rest =>
      d <- get ;;
      if running d then run_step events current_time key ;;; run_loop rest
      else ret tt
  end.

End Painting.

End Dash.

(** ** Words for the statements about the parsers *)

Module ParseSpec.
Import PyStr PyNum Parse.

(** No occurrence of [sep] starts inside [f] when [f] is followed by [tail]. *)
Fixpoint no_cut (sep f tail : string) : Prop :=
  match f with
  | EmptyString => True
  | String _ f' => String.prefix sep (f +:+ tail) = false /\ no_cut sep f' tail
  end.

(** A piece may stand between two cuts. *)
Definition piece (sep f : string) : Prop :=
  no_cut sep f "" /\ forall rest, no_cut sep f (sep +:+ rest).

Fixpoint str_forall (P : ascii -> bool) (s : string) : bool :=
  match s with
  | EmptyString => true
  | String c s' => P c && str_forall P s'
  end.

Fixpoint digits_text (ds : list N) : string :=
  match ds with
  | [] => EmptyString
  | d :: rest => String (pretty_N_char d) (digits_text rest)
  end.


(** The text [whole.frac], as [nvidia-smi] prints a reading. *)
Definition decimal_text (whole : N) (frac : list N) : string :=
  pretty whole +:+ "." +:+ digits_text frac.


Definition plain_char (c : ascii) : bool :=
  is_digit c || Ascii.eqb c "-" || Ascii.eqb c ".".

Definition gpu_fields (i u t ut te : Z) (w : N) (frac : list N) : list string :=
  [pretty i; pretty u; pretty t; pretty ut; pretty te; decimal_text w frac].

(** A line of the GPU query for the given readings. *)
Definition gpu_line (i u t ut te : Z) (w : N) (frac : list N) : string :=
  join ", " (gpu_fields i u t ut te w frac).


(** A line free of line terminators, a field free of the field separator. *)
Definition one_line (l : string) : Prop := contains NL l = false.

(** A text without white space. *)
Definition solid (s : string) : Prop :=
  str_forall (fun c => negb (is_space c)) s = true.

(** A word: a non-empty text without white space. *)
Definition word (s : string) : Prop := s <> "" /\ solid s.

(** A line with the 32 columns [parse_xpu] asks for. *)
Definition long_line (l : string) : bool :=
  negb (length (split_ws l) <? 32)%nat.

(** The record [parse_xpu] makes of an XPU. *)
Definition xpu_device (i u t ut te p : Z) : device :=
  {| dev_id := i; dev_used := u; dev_total := t; dev_util := ut;
     dev_temp := te; dev_power := PInt p; dev_type := "XPU" |}.

(** A record of the XPU path: the type says so and the power is an int. *)
Definition xpu_shaped (d : device) : Prop :=
  dev_type d = "XPU" /\ exists p, dev_power d = PInt p.

(** Thirty-two columns that hold their own position. *)
Definition numbered_columns : list string :=
  List.map (fun k => pretty (Z.of_nat k)) (seq 0 32).

(** The number of whole GiB nearest to a number of bytes, as
    [round(bytes / 1024**3)] gives it. *)
Definition whole_gib (bytes : Z) : outcome Z :=
  (q <- truediv bytes GiB ;; PyFloat.round q)%outcome.

(** A row of the process table: between one and five fields, none empty. *)
Definition process_row (p : list string) : Prop :=
  (1 <= length p <= 5)%nat /\ Forall (fun f => f <> "") p.

(** The last column of [ps]: a name that may hold blanks inside, on one line
    and with no white space in front. *)
Definition command_name (comm : string) : Prop :=
  comm <> "" /\ lstrip comm = comm /\ one_line comm.

(** The line [ps] prints for a process. *)
Definition ps_line (pid : N) (user pcpu pmem comm : string) : string :=
  join " " [pretty pid; user; pcpu; pmem] +:+ " " +:+ comm.

End ParseSpec.

(** ** Words for the statements about the monitor *)

Module MonitorSpec.
Import PyStr PyNum Parse Prim Monitor.

Definition SENTINEL : string := "CMD_FINISHED_".

(** The state after the code has used up part of the world: the clock
    readings, the lines on the channel and the answers of the pipe that are
    left, and the trace so far. *)
Definition with_io (st : State) (c : list Q) (o : list read)
    (i : list (option exn)) (tr : list event) : State :=
  {| self := self st;
     world := {| names := names (world st); clock := c; stdout := o;
                 stderr := stderr (world st); stdin := i;
                 polls := polls (world st); trace := tr |} |}.

(** A clock reading taken less than [limit] seconds after [start]. *)
Definition in_time (start : Q) (limit : Q) (t : Q) : Prop :=
  Qltb (t - start) limit = true.

(** A line that does not end the reading loop: end of file, or text without
    the sentinel. *)
Definition output_line (l : string) : Prop :=
  l = "" \/ contains SENTINEL l = false.

(** The output lines the loop keeps. *)
Definition kept (pre : list string) : list string :=
  map strip (List.filter (fun l => negb (String.eqb l "")) pre).

(** The text after the last underscore of a sentinel line, where the exit
    code is looked for. *)
Definition code_text (line : string) : string :=
  strip (List.last (split "_" line) EmptyString).

Definition sample_host : machine_info :=
  {| m_host := "10.0.0.1"; m_username := "ops"; m_type := "GPU";
     m_key := None |}.

(** A world for the module as it is written, with the given clock readings,
    channel lines and poll answers, where [writes] operations on the pipe go
    through. *)
Definition sample_world (c : list Q) (o : list read) (writes : nat)
    (p : list (option Z)) : World :=
  {| names := module_globals; clock := c; stdout := o; stderr := [];
     stdin := replicate writes None; polls := p; trace := [] |}.

(** A session that is connected. *)
Definition connected_session (m : machine_info) (w : World) : State :=
  {| self := {| machine := m; ssh := Some 0%nat; connected := true;
                refresh_interval := 2 |};
     world := w |}.

Definition line (s : string) : read := RdLine (s +:+ NL).

(** A command that ends with exit code 2 after two lines of output. *)
Definition failing_session : State :=
  connected_session sample_host
    (sample_world [0; 1; 2; 3]%Q
       [line "partial"; line "output"; line "CMD_FINISHED_2"] 2 []).

(** A command whose sentinel is still missing after eleven seconds; it
    arrives later, with one more line. *)
Definition slow_session : State :=
  connected_session sample_host
    (sample_world [0; 1; 2; 11; 12; 13; 14]%Q
       [line "slow"; line "output"; line "late"; line "CMD_FINISHED_0"] 4 []).

(** The state in which the call on [slow_session] ends. *)
Definition after_timeout : State :=
  with_io slow_session [12; 13; 14]%Q [line "late"; line "CMD_FINISHED_0"]
    [None; None]
    [EvWrite (full_command "cmd"); EvFlush; EvPrint (MsgCmdFailed (-1) "cmd")].

(** The module namespace as [monitor.py] sets it up. *)
Definition as_written (w : World) : Prop := names w = module_globals.

(** The same world with more names bound in the module. *)
Definition with_names (extra : list string) (w : World) : World :=
  {| names := extra ++ names w; clock := clock w; stdout := stdout w;
     stderr := stderr w; stdin := stdin w; polls := polls w;
     trace := trace w |}.

(** An unreachable host: the ssh process has exited with status 255 by the
    time [ssh_connect] polls it, and has left a message on its stderr. *)
Definition unreachable_world : World :=
  {| names := module_globals; clock := []; stdout := [];
     stderr := [RdLine "ssh: connect to host 10.0.0.1 port 22: timed out"];
     stdin := []; polls := [Some 255]; trace := [] |}.

(** Code that puts nothing on the queue and leaves the configuration of the
    monitor alone. *)
Definition silent {A} (c : M A) : Prop :=
  forall st,
    published (world (c st).2) = published (world st)
    /\ machine (self (c st).2) = machine (self st)
    /\ refresh_interval (self (c st).2) = refresh_interval (self st).

(** The state after [self.queue.put((host, data))]. *)
Definition after_put (st : State) (data : option snapshot) : State :=
  (emit (EvPut (m_host (machine (self st))) data) st).2.

(** The state after [time.sleep(self.refresh_interval)]. *)
Definition after_sleep (st : State) : State :=
  (emit (EvSleep (refresh_interval (self st))) st).2.

(** An event that carries a snapshot. *)
Definition with_data (ev : string * option snapshot) : Prop := ev.2 <> None.

(** Code out of which an exception comes only from a call of [ssh_connect]. *)
Definition guarded {A} (c : M A) : Prop :=
  forall st e st',
    c st = (Raise e, st') -> exists st0, ssh_connect st0 = (Raise e, st').

(** The lines a healthy GPU host sends back in one poll cycle. *)
Definition healthy_cycle : list read :=
  [line "12.5"; line "CMD_FINISHED_0";
   line "16000000000 8000000000"; line "CMD_FINISHED_0";
   line "0, 1024, 8192, 50, 60, 120.5"; line "CMD_FINISHED_0";
   line "1 root 0.5 0.1 systemd"; line "CMD_FINISHED_0"].

Definition healthy_snapshot (ts : Q) : snapshot :=
  {| cpu := PyFloat.quotient 25 2;
     mem := {| percent := PyFloat.quotient 50 1; used_gb := 7;
               total_gb := 15 |};
     devices := [{| dev_id := 0; dev_used := 1024; dev_total := 8192;
                    dev_util := 50; dev_temp := 60;
                    dev_power := PFloat (PyFloat.quotient 241 2);
                    dev_type := "GPU" |}];
     processes := [["1"; "root"; "0.5"; "0.1"; "systemd"]];
     timestamp := ts |}.

Definition ticks : list Q :=
  [0; 1; 2; 3; 4; 5; 6; 7; 8; 9; 10; 11; 12; 13; 14; 15; 16; 17; 18; 19;
   20; 21; 22; 23; 24; 25; 26]%Q.

(** A host that answers one cycle and then drops the connection: the first
    write of the second cycle fails, and the old ssh process has exited. *)
Definition dropped_session : State :=
  connected_session sample_host
    {| names := module_globals; clock := ticks; stdout := healthy_cycle;
       stderr := []; stdin := replicate 8 None ++ [Some OSError];
       polls := [Some 255]; trace := [] |}.

(** A host on which every command of the second cycle ends with exit code 1. *)
Definition failing_cycle : list read :=
  [line "CMD_FINISHED_1"; line "CMD_FINISHED_1"; line "CMD_FINISHED_1";
   line "CMD_FINISHED_1"].

Definition degraded_session : State :=
  connected_session sample_host
    (sample_world ticks (healthy_cycle ++ failing_cycle) 16 []).

(** A host that answers one cycle and then sends nothing more. *)
Definition silent_session : State :=
  connected_session sample_host (sample_world ticks healthy_cycle 16 []).

(** A host that answers one cycle and then, in the second one, lets the
    clock pass the ten seconds of every command before its first line. *)
Definition stalling_session : State :=
  connected_session sample_host
    (sample_world
       [0; 1; 2; 3; 4; 5; 6; 7; 8; 9; 10; 11; 12;
        20; 31; 40; 51; 60; 71; 80; 91; 100]%Q
       healthy_cycle 16 []).

Definition fallback_snapshot (ts : Q) : snapshot :=
  {| cpu := PyFloat.zero; mem := mem_fallback; devices := [];
     processes := [];
     timestamp := ts |}.

(** The command that asks for the devices of a machine. *)
Definition device_cmd (m : machine_info) : string :=
  if String.eqb (m_type m) "GPU" then gpu_cmd else xpu_cmd.

(** The state after the messages that [parse_xpu] prints for the output of
    the device command; the GPU path prints none. *)
Definition after_device_messages (m : machine_info) (output : string)
    (st : State) : State :=
  if String.eqb (m_type m) "GPU" then st
  else (print_all (parse_xpu output).2 st).2.

(** The snapshot the parsers make of the four outputs. *)
Definition snapshot_of_outputs (m : machine_info) (o1 o2 o3 o4 : string)
    (ts : Q) : snapshot :=
  {| cpu := cpu_of_output o1;
     mem := mem_of_output o2;
     devices := if String.eqb (m_type m) "GPU" then parse_gpu o3
                else (parse_xpu o3).1;
     processes := processes_of_output o4;
     timestamp := ts |}.

(** What the remote shell prints for one command: the output lines, then the
    sentinel line. *)
Record reply := {
  reply_lines : list string;
  reply_sentinel : string
}.

Definition reply_reads (r : reply) : list read :=
  map RdLine (reply_lines r) ++ [RdLine (reply_sentinel r)].

Definition well_formed_reply (r : reply) : Prop :=
  Forall output_line (reply_lines r)
  /\ contains SENTINEL (reply_sentinel r) = true.

(** What [get_remote_info] makes of a reply. *)
Definition reply_output (r : reply) : string :=
  if sentinel_code (reply_sentinel r) =? 0
  then join NL (kept (reply_lines r))
  else "".

(** The clock readings a reply uses up: one at the start and one for each
    line read. *)
Definition reply_ticks (r : reply) : nat := 2 + length (reply_lines r).

Definition replies_ticks (rs : list reply) : nat :=
  list_sum (map reply_ticks rs).

(** A clock reading in the ten seconds that start at [base]. *)
Definition within (base t : Q) : Prop := (base <= t)%Q /\ (t < base + 10)%Q.

(** The readings [c] of the clock let every reply of [rs] be read in time,
    and [rest] is what is left of them: the reading at the start of a
    command is followed by one reading for each line of its reply, the
    sentinel included, each less than ten seconds after that start. *)
Fixpoint in_step (rs : list reply) (c rest : list Q) : Prop :=
  match rs with
  | [] => c = rest
  | r :: rs' =>
      exists t0 ts t c',
        c = t0 :: ts ++ t :: c'
        /\ length ts = length (reply_lines r)
        /\ Forall (in_time t0 10) ts
        /\ in_time t0 10 t
        /\ in_step rs' c' rest
  end.

(** A connected session whose world answers the next commands with the
    replies [rs], the first unread line of the channel being the first line
    of the first reply, each reply read within the ten seconds of its
    command, with [spare] readings of the clock left afterwards. *)
Definition serves (st : State) (rs : list reply) (spare : nat) : Prop :=
  connected (self st) = true
  /\ (exists ins, stdin (world st) = replicate (2 * length rs) None ++ ins)
  /\ (exists rest, stdout (world st) = flat_map reply_reads rs ++ rest)
  /\ (exists rest, in_step rs (clock (world st)) rest
                   /\ (spare <= length rest)%nat).

(** The snapshot that the replies to the four commands determine, up to the
    time stamp. *)
Definition snapshot_from (m : machine_info) (r_cpu r_mem r_dev r_ps : reply)
    (ts : Q) : snapshot :=
  {| cpu := cpu_of_output (reply_output r_cpu);
     mem := mem_of_output (reply_output r_mem);
     devices := if String.eqb (m_type m) "GPU"
                then parse_gpu (reply_output r_dev)
                else (parse_xpu (reply_output r_dev)).1;
     processes := processes_of_output (reply_output r_ps);
     timestamp := ts |}.

Definition reply_of (text : string) : reply :=
  {| reply_lines := [text +:+ NL]; reply_sentinel := "CMD_FINISHED_0" +:+ NL |}.

Definition healthy_replies : list reply :=
  [reply_of "12.5"; reply_of "16000000000 8000000000";
   reply_of "0, 1024, 8192, 50, 60, 120.5"; reply_of "1 root 0.5 0.1 systemd"].

(** Thirteen clock readings a quarter of a second apart, from [base] on. *)
Definition quick_ticks (base : Q) : list Q :=
  map (fun k => Qred (base + inject_Z (Z.of_nat k) / 4)) (seq 0 13).

(** Thirteen clock readings three seconds apart, from 100 on: a cycle of
    more than half a minute in which every reply is read six seconds after
    its command. *)
Definition slow_ticks : list Q :=
  [100; 103; 106; 109; 112; 115; 118; 121; 124; 127; 130; 133; 136]%Q.

(** Two sessions of the same host that receive the same lines, one quickly
    at time 0 and one slowly a hundred seconds later. *)
Definition first_run : State :=
  connected_session sample_host
    (sample_world (quick_ticks 0) healthy_cycle 8 []).

Definition second_run : State :=
  connected_session sample_host (sample_world slow_ticks healthy_cycle 8 []).

(** A session that receives the same lines again, but reads the clock
    eleven seconds after it has sent its first command, before any line. *)
Definition late_run : State :=
  connected_session sample_host
    (sample_world [0; 11; 12; 13; 14; 15; 16; 17; 18; 19; 20; 21]%Q
       healthy_cycle 8 []).

(** One session that receives the same lines twice, a hundred seconds
    apart. *)
Definition both_runs : State :=
  connected_session sample_host
    (sample_world (quick_ticks 0 ++ quick_ticks 100)
       (healthy_cycle ++ healthy_cycle) 16 []).

(** The line the remote shell prints for [echo "CMD_FINISHED_$?"]. *)
Definition sentinel_line (status : Z) : string :=
  SENTINEL +:+ pretty status +:+ NL.

(** A command that prints two lines, with blanks around them, and succeeds. *)
Definition succeeding_session : State :=
  connected_session sample_host
    (sample_world [0; 1; 2; 3]%Q
       [line "  first"; line "second  "; RdLine (sentinel_line 0)] 2 []).

(** The state in which [get_remote_info] ends when the write to the pipe
    raised [e]: the message is printed and the session marked as not
    connected. *)
Definition after_pipe_error (st : State) (e : exn) (ins : list (option exn))
  : State :=
  (set_connected false
     (with_io st (clock (world st)) (stdout (world st)) ins
        (trace (world st) ++ [EvPrint (MsgCmdException e)]))).2.

(** A connected session whose pipe is broken. *)
Definition broken_session : State :=
  connected_session sample_host
    {| names := module_globals; clock := [0; 1]%Q; stdout := [];
       stderr := []; stdin := [Some OSError]; polls := [Some 255];
       trace := [] |}.

(** What [_init_shell] sends: every command with its newline, flushed. *)
Definition init_writes : list event :=
  flat_map (fun cmd => [EvWrite (cmd +:+ NL); EvFlush]) init_commands.

(** A line that does not end the wait of [_init_shell]. *)
Definition not_ready (l : string) : Prop := contains "SHELL_READY" l = false.

(** How the wait of [_init_shell] ends at clock reading [t], the channel
    holding [o] and [o'] being what is left of it, with the result [r]:
    the three seconds are over and the wait ends with no read; or, [t] being
    in time, the next line has the marker and the wait ends, the read raises
    and so does the wait, or the channel has nothing to give and the wait
    is blocked in its read. *)
Definition wait_ends (start t : Q) (o o' : list read) (r : outcome unit)
  : Prop :=
  (Qltb (t - start) 3 = false /\ o' = o /\ r = Ret tt)
  \/ (in_time start 3 t
      /\ ((exists ready, o = RdLine ready :: o'
                         /\ contains "SHELL_READY" ready = true /\ r = Ret tt)
          \/ (exists e, o = RdRaise e :: o' /\ r = Raise e)
          \/ (o = [] /\ o' = [] /\ r = Blocked))).

(** A shell that prints a banner and then nothing for four seconds. *)
Definition mute_shell : State :=
  {| self := init sample_host 2;
     world := sample_world [0; 1; 4]%Q [line "Welcome"] 8 [] |}.

(** A shell that prints a banner and then nothing at all, the clock being
    read again after two seconds. *)
Definition silent_shell : State :=
  {| self := init sample_host 2;
     world := sample_world [0; 1; 2; 60]%Q [line "Welcome"] 8 [] |}.

(** A process started as [ssh_connect] starts it, with its output sent to
    the null device: it has no [stdout] to read from, and the first read
    raises. *)
Definition unreadable_shell : State :=
  {| self := init sample_host 2;
     world := sample_world [0; 1]%Q [RdRaise AttributeError] 8 [] |}.

(** A reply whose sentinel carries an exit code other than zero. *)
Definition failed_reply (r : reply) : Prop :=
  sentinel_code (reply_sentinel r) <> 0.

Definition failed_replies : list reply :=
  replicate 4 {| reply_lines := ["No such file" +:+ NL];
                 reply_sentinel := sentinel_line 127 |}.

Definition failing_host : State :=
  connected_session sample_host
    (sample_world (quick_ticks 0) (flat_map reply_reads failed_replies) 8 []).

End MonitorSpec.

(** ** Words for the statements about the dashboard *)

Module DashSpec.
Import PyNum Dash.
Import MonitorSpec.

(** The position lies in the window. *)
Definition in_window (scr : Screen) (y x : Z) : bool :=
  (0 <=? y) && (y <? max_y scr) && (0 <=? x) && (x <? max_x scr).

(** The dashboard with other contents of the window. *)
Definition with_written (d : Dashboard) (w : list (Z * Z * string * attr))
  : Dashboard :=
  {| stdscr := {| max_y := max_y (stdscr d); max_x := max_x (stdscr d);
                  written := w |};
     machines := machines d; interval := interval d; data := data d;
     running := running d; margin := margin d; last_update := last_update d;
     last_win_size := last_win_size d; min_col_width := min_col_width d;
     max_devices := max_devices d |}.

(** Code of the dashboard that leaves the store and the host list alone. *)
Definition steady {A} (c : D A) : Prop :=
  forall d, data (c d).2 = data d /\ machines (c d).2 = machines d.

(** The padding added to the longest host name and the baseline width. *)
Definition host_padding : Z := 6.
Definition baseline_width : Z := 60.

(** The length of the longest host identifier. *)
Definition longest_host (ms : list machine_info) : Z :=
  foldr Z.max 0 (map (fun m => PyStr.len (m_host m)) ms).

(** The layout of the design document. *)
Definition spec_min_col_width (ms : list machine_info) : Z :=
  Z.max (longest_host ms + host_padding) baseline_width.

Definition spec_columns (terminal_width margin : Z) (ms : list machine_info)
  : Z :=
  Z.max 1 ((terminal_width - margin) / (spec_min_col_width ms + margin)).

(** [q] is the floor of [a / b]. *)
Definition is_floor (a b q : Z) : Prop :=
  (0 < b -> b * q <= a < b * (q + 1))
  /\ (b < 0 -> b * (q + 1) < a <= b * q).

(** The entry of [host] after the events, starting from [start]: each event
    of the host replaces it. *)
Definition entry_after (host : string)
    (events : list (string * option snapshot * Q))
    (start : option (option snapshot)) : option (option snapshot) :=
  fold_left (fun acc ev => if String.eqb ev.1.1 host then Some ev.1.2 else acc)
            events start.

(** Stand-ins for the texts that lie outside the embedding: ASCII characters
    for the box and the bar, and a float format that shows no digits. *)
Definition plain_texts : Texts :=
  {| ch_top_left := "+"; ch_horizontal := "-"; ch_top_right := "+";
     ch_vertical := "|"; ch_bottom_left := "+"; ch_bottom_right := "+";
     ch_block := "#"; fmt_fixed := fun _ _ _ => "?";
     strftime := "12:00:00" |}.

(** A dashboard for the sample host on a terminal of 40 rows and 130
    columns, after one good snapshot of the host was drained. *)
Definition healthy_board : Dashboard :=
  drain [("10.0.0.1", Some (healthy_snapshot 12), 12%Q)]
    (init {| max_y := 40; max_x := 130; written := [] |} [sample_host] 2).

(** The same dashboard after the absent event of a failed cycle. *)
Definition blanked_board : Dashboard :=
  drain [("10.0.0.1", None, 15%Q)] healthy_board.




(** The height [update_display] reserves for the block of a snapshot: the
    two borders, the line of CPU and memory, a line for each of the first
    eight devices and a line for the processes, if there are any. *)
Definition block_height (info : snapshot) : Z :=
  3 + Z.min (Z.of_nat (length (devices info))) 8
  + (if bool_decide (processes info = []) then 0 else 1).




(** A write that lies inside a window of [my] rows and [mx] columns, from
    its first to its last character. *)
Definition fits (my mx : Z) (w : Z * Z * string * attr) : Prop :=
  let '(y, x, text, _) := w in
  0 <= y < my /\ 0 <= x < mx /\ x + PyStr.len text <= mx.

(** A dashboard all of whose writes lie inside its window. *)
Definition clipped (d : Dashboard) : Prop :=
  Forall (fits (max_y (stdscr d)) (max_x (stdscr d))) (written (stdscr d)).

(** Code that keeps the size of the window, the [running] flag, the
    interval and the margin, and adds no write outside the window. *)
Definition orderly {A} (c : D A) : Prop :=
  forall d,
    max_y (stdscr (c d).2) = max_y (stdscr d)
    /\ max_x (stdscr (c d).2) = max_x (stdscr d)
    /\ running (c d).2 = running d
    /\ (clipped d -> clipped (c d).2).

(** The last turn of the key: does it ask to quit? *)
Definition quits (key : option ascii) : bool :=
  match key with
  | Some k => Ascii.eqb k "q"
  | None => false
  end.

(** The host has a snapshot in the store. *)
Definition has_snapshot (d : Dashboard) (host : string) : bool :=
  match data d !! host with
  | Some (Some _) => true
  | _ => false
  end.

End DashSpec.

(** * The parsers *)

Module ParseFacts.
Import PyStr PyNum Parse ParseSpec.

(** *** Cutting and joining *)

Lemma sapp_nil (t : string) : "" +:+ t = t.
Proof. reflexivity. Qed.

Lemma sapp_cons c (s t : string) : String c s +:+ t = String c (s +:+ t).
Proof. reflexivity. Qed.

Lemma sapp_nil_r (s : string) : s +:+ "" = s.
Proof. induction s as [|c s IH]; [reflexivity|]. rewrite sapp_cons, IH. reflexivity. Qed.

Lemma sapp_assoc (a b c : string) : (a +:+ b) +:+ c = a +:+ (b +:+ c).
Proof.
  induction a as [|x a IH]; [reflexivity|]. rewrite !sapp_cons, IH. reflexivity.
Qed.

Lemma prefix_app (u rest : string) : String.prefix u (u +:+ rest) = true.
Proof.
  induction u as [|x u IH]; [destruct rest; reflexivity|].
  rewrite sapp_cons. cbn [String.prefix].
  destruct (Ascii.ascii_dec x x); [apply IH|congruence].
Qed.

Lemma split_go_skip sep u rest :
  split_go sep (String.length u) (u +:+ rest) = split_go sep 0 rest.
Proof.
  induction u as [|c u IH]; [reflexivity|].
  rewrite sapp_cons. exact IH.
Qed.

Lemma split_go_nonempty sep k s : split_go sep k s <> [].
Proof.
  revert k; induction s as [|c s IH]; intros k; cbn [split_go].
  - intros H; discriminate H.
  - destruct k; [|apply IH].
    destruct (String.prefix sep (String c s)).
    + intros H; discriminate H.
    + destruct (split_go sep 0 s) eqn:E; intros H; discriminate H.
Qed.

Lemma split_go_last sep f :
  no_cut sep f "" -> split_go sep 0 f = [f].
Proof.
  induction f as [|c f IH]; [reflexivity|].
  intros [Hp Hn]. rewrite sapp_nil_r in Hp. cbn [split_go]. rewrite Hp.
  rewrite (IH Hn). reflexivity.
Qed.

Lemma split_go_field sep f rest :
  sep <> "" ->
  no_cut sep f (sep +:+ rest) ->
  split_go sep 0 (f +:+ sep +:+ rest) = f :: split_go sep 0 rest.
Proof.
  intros Hsep. induction f as [|c f IH]; intros Hn.
  - rewrite sapp_nil. destruct sep as [|a sep']; [congruence|].
    rewrite sapp_cons. cbn [split_go]. rewrite <- sapp_cons.
    rewrite prefix_app. f_equal.
    replace (String.length (String a sep') - 1)%nat with (String.length sep')
      by (simpl; lia).
    apply split_go_skip.
  - destruct Hn as [Hp Hn]. rewrite sapp_cons in *.
    cbn [split_go]. rewrite Hp. rewrite (IH Hn). reflexivity.
Qed.


Lemma contains_cons sub c s :
  contains sub (String c s) = false ->
  String.prefix sub (String c s) = false /\ contains sub s = false.
Proof.
  cbn [contains]. intros H. apply orb_false_iff in H. exact H.
Qed.


(** A string without the one-character separator is a piece for it. *)
Lemma piece_one a f :
  contains (String a "") f = false -> piece (String a "") f.
Proof.
  induction f as [|c f IH]; intros Hc.
  - split; [exact I|intros; exact I].
  - apply contains_cons in Hc as [Hp Hc]. specialize (IH Hc) as [IH1 IH2].
    assert (Hhead : forall tail,
      String.prefix (String a "") (String c f +:+ tail) = false).
    { intros tail. rewrite sapp_cons. cbn [String.prefix] in Hp |- *.
      destruct (Ascii.ascii_dec a c); [|reflexivity].
      destruct f; discriminate Hp. }
    split.
    + split; [apply Hhead|exact IH1].
    + intros rest. split; [apply Hhead|apply IH2].
Qed.

(** *** Decimal numerals *)

Lemma pretty_N_char_digit d :
  (d < 10)%N ->
  is_digit (pretty_N_char d) = true /\ digit_val (pretty_N_char d) = Z.of_N d.
Proof.
  intros Hd.
  assert (d = 0 \/ d = 1 \/ d = 2 \/ d = 3 \/ d = 4 \/ d = 5 \/ d = 6 \/ d = 7
          \/ d = 8 \/ d = 9)%N as Hcases by lia.
  repeat (destruct Hcases as [-> | Hcases]; [split; reflexivity|]).
  subst; split; reflexivity.
Qed.

(** Reading the digits that [pretty] put in front of [s]. *)
Lemma scan_pretty_go x s acc n :
  exists k : nat,
    scan_digits (pretty_N_go x s) acc n
    = scan_digits s (acc * 10 ^ Z.of_nat k + Z.of_N x) (n + k)
    /\ ((0 < x)%N -> (0 < k)%nat).
Proof.
  revert s acc n. induction (N.lt_wf_0 x) as [x _ IH]; intros s acc n.
  destruct (N.eq_dec x 0%N) as [->|Hx].
  - exists 0%nat. rewrite pretty_N_go_0. split; [|lia].
    f_equal; simpl; lia.
  - rewrite pretty_N_go_step by lia.
    destruct (IH (x `div` 10)%N) with
      (s := String (pretty_N_char (x `mod` 10)) s) (acc := acc) (n := n)
      as [k [Hk _]].
    { apply N.div_lt; lia. }
    exists (S k). rewrite Hk. split; [|lia].
    destruct (pretty_N_char_digit (x `mod` 10)%N) as [Hd Hv].
    { apply N.mod_lt; lia. }
    cbn [scan_digits]. rewrite Hd, Hv. f_equal; [|lia].
    rewrite Nat2Z.inj_succ, Z.pow_succ_r by lia.
    rewrite N2Z.inj_div, N2Z.inj_mod in *.
    change (Z.of_N 10) with 10.
    pose proof (Z.div_mod (Z.of_N x) 10 ltac:(lia)) as Hz.
    set (q := Z.of_N x `div` 10) in *. set (r := Z.of_N x `mod` 10) in *.
    rewrite Hz. ring.
Qed.

Lemma pretty_N_go_app x s : pretty_N_go x s = pretty_N_go x "" +:+ s.
Proof.
  revert s. induction (N.lt_wf_0 x) as [x _ IH]; intros s.
  destruct (N.eq_dec x 0%N) as [->|Hx].
  - rewrite !pretty_N_go_0. reflexivity.
  - rewrite (pretty_N_go_step x s), (pretty_N_go_step x "") by lia.
    assert (Hlt : (x `div` 10 < x)%N) by (apply N.div_lt; lia).
    rewrite (IH _ Hlt (String (pretty_N_char (x `mod` 10)) s)).
    rewrite (IH _ Hlt (String (pretty_N_char (x `mod` 10)) "")).
    rewrite sapp_assoc. reflexivity.
Qed.

(** A decimal numeral in front of [s] is read back as its value. *)
Lemma scan_pretty_N (x : N) s acc n :
  exists k : nat,
    scan_digits (pretty x +:+ s) acc n
    = scan_digits s (acc * 10 ^ Z.of_nat k + Z.of_N x) (n + k)
    /\ (0 < k)%nat.
Proof.
  unfold pretty, pretty_N. destruct (decide (x = 0%N)) as [->|Hx].
  - exists 1%nat. split; [|lia]. rewrite sapp_cons, sapp_nil.
    cbn [scan_digits]. change (is_digit "0") with true. cbv iota.
    f_equal; [|lia]. change (digit_val "0") with 0. simpl. lia.
  - rewrite <- pretty_N_go_app.
    destruct (scan_pretty_go x s acc n) as [k [Hk Hpos]].
    exists k. split; [exact Hk|apply Hpos; lia].
Qed.

Lemma str_forall_app P a b :
  str_forall P (a +:+ b) = str_forall P a && str_forall P b.
Proof.
  induction a as [|c a IH]; [reflexivity|].
  rewrite sapp_cons. cbn [str_forall]. rewrite IH, andb_assoc. reflexivity.
Qed.

Lemma str_forall_impl (P Q : ascii -> bool) s :
  (forall c, P c = true -> Q c = true) ->
  str_forall P s = true -> str_forall Q s = true.
Proof.
  intros HPQ. induction s as [|c s IH]; [reflexivity|].
  cbn [str_forall]. rewrite !andb_true_iff. intros [? ?]. auto.
Qed.

Lemma pretty_N_go_digits x s :
  str_forall is_digit s = true -> str_forall is_digit (pretty_N_go x s) = true.
Proof.
  revert s. induction (N.lt_wf_0 x) as [x _ IH]; intros s Hs.
  destruct (N.eq_dec x 0%N) as [->|Hx].
  - rewrite pretty_N_go_0. exact Hs.
  - rewrite pretty_N_go_step by lia. apply IH; [apply N.div_lt; lia|].
    cbn [str_forall]. rewrite Hs, andb_true_r.
    apply pretty_N_char_digit, N.mod_lt. lia.
Qed.

Lemma pretty_N_digits (x : N) :
  str_forall is_digit (pretty x) = true /\ pretty x <> "".
Proof.
  unfold pretty, pretty_N. destruct (decide (x = 0%N)) as [->|Hx].
  - split; [reflexivity|intros H; discriminate H].
  - split; [apply pretty_N_go_digits; reflexivity|].
    rewrite pretty_N_go_step by lia. rewrite pretty_N_go_app.
    destruct (pretty_N_go (x `div` 10) ""); intros H; discriminate H.
Qed.

Lemma digit_not_space c : is_digit c = true -> is_space c = false.
Proof.
  unfold is_digit, is_space. intros H.
  apply andb_true_iff in H as [H1 H2].
  apply Nat.leb_le in H1, H2.
  repeat (apply orb_false_iff; split).
  - apply andb_false_iff. right. apply Nat.leb_gt. lia.
  - apply andb_false_iff. right. apply Nat.leb_gt. lia.
  - apply Nat.eqb_neq. lia.
  - apply Nat.eqb_neq. lia.
Qed.

Lemma digit_not_sign c :
  is_digit c = true -> Ascii.eqb c "-" = false /\ Ascii.eqb c "+" = false.
Proof.
  intros H. split.
  - destruct (Ascii.eqb_spec c "-") as [->|]; [discriminate H|reflexivity].
  - destruct (Ascii.eqb_spec c "+") as [->|]; [discriminate H|reflexivity].
Qed.

Lemma rstrip_id s :
  str_forall (fun c => negb (is_space c)) s = true -> rstrip s = s.
Proof.
  induction s as [|c s IH]; [reflexivity|].
  cbn [str_forall rstrip]. intros H. apply andb_true_iff in H as [Hc Hs].
  rewrite (IH Hs). destruct s; [|reflexivity].
  apply negb_true_iff in Hc. rewrite Hc. reflexivity.
Qed.

Lemma strip_id s :
  str_forall (fun c => negb (is_space c)) s = true -> strip s = s.
Proof.
  intros H. unfold strip.
  assert (lstrip s = s) as ->.
  { destruct s as [|c s]; [reflexivity|].
    cbn [str_forall] in H. apply andb_true_iff in H as [Hc _].
    apply negb_true_iff in Hc. cbn [lstrip]. rewrite Hc. reflexivity. }
  apply rstrip_id, H.
Qed.

Lemma unsigned_int_pretty (x : N) : unsigned_int (pretty x) = Ret (Z.of_N x).
Proof.
  unfold unsigned_int.
  destruct (scan_pretty_N x "" 0 0) as [k [Hk Hpos]].
  rewrite sapp_nil_r in Hk. rewrite Hk. cbn [scan_digits].
  destruct k; [lia|]. simpl. reflexivity.
Qed.

Lemma scan_sign_digits s :
  s <> "" -> str_forall is_digit s = true -> scan_sign s = (false, s).
Proof.
  destruct s as [|c s]; [congruence|]. intros _ H.
  cbn [str_forall] in H. apply andb_true_iff in H as [Hc _].
  destruct (digit_not_sign c Hc) as [H1 H2].
  unfold scan_sign. rewrite H1, H2. reflexivity.
Qed.

(** [int(str(z)) == z]. *)
Lemma py_int_pretty (z : Z) : py_int (pretty z) = Ret z.
Proof.
  assert (Hnat : forall x : N,
    py_int (pretty x) = Ret (Z.of_N x)).
  { intros x. unfold py_int.
    destruct (pretty_N_digits x) as [Hd Hne].
    rewrite strip_id.
    2:{ eapply str_forall_impl; [|exact Hd].
        intros c Hc. rewrite (digit_not_space c Hc). reflexivity. }
    rewrite (scan_sign_digits _ Hne Hd).
    rewrite unsigned_int_pretty. reflexivity. }
  destruct z as [|p|p].
  - reflexivity.
  - apply (Hnat (Npos p)).
  - unfold pretty, pretty_Z. fold (pretty (A := positive)).
    unfold py_int.
    destruct (pretty_N_digits (Npos p)) as [Hd Hne].
    change (pretty p) with (pretty (Npos p)).
    rewrite strip_id.
    2:{ rewrite sapp_cons, sapp_nil. cbn [str_forall].
        apply andb_true_iff; split; [reflexivity|].
        eapply str_forall_impl; [|exact Hd].
        intros c Hc. rewrite (digit_not_space c Hc). reflexivity. }
    rewrite sapp_cons, sapp_nil. unfold scan_sign.
    change (Ascii.eqb "-" "-") with true. cbv iota.
    rewrite unsigned_int_pretty. reflexivity.
Qed.

(** *** Decimal fractions *)



Lemma digit_plain c : is_digit c = true -> plain_char c = true.
Proof. unfold plain_char. intros ->. reflexivity. Qed.

Lemma plain_not_space c : plain_char c = true -> negb (is_space c) = true.
Proof.
  unfold plain_char. rewrite !orb_true_iff. intros [[H|H]|H].
  - rewrite (digit_not_space c H). reflexivity.
  - apply Ascii.eqb_eq in H. subst. reflexivity.
  - apply Ascii.eqb_eq in H. subst. reflexivity.
Qed.




(** *** [parse_gpu] *)






Lemma contains_prefix sub s : String.prefix sub s = true -> contains sub s = true.
Proof. intros H. destruct s; cbn [contains]; rewrite H; reflexivity. Qed.


Lemma contains_absent a rest s :
  str_forall (fun c => negb (Ascii.eqb c a)) s = true ->
  contains (String a rest) s = false.
Proof.
  induction s as [|c s IH]; [reflexivity|].
  cbn [str_forall contains String.prefix]. intros H.
  apply andb_true_iff in H as [Hc Hs]. rewrite (IH Hs), orb_false_r.
  destruct (Ascii.ascii_dec a c) as [->|]; [|reflexivity].
  rewrite Ascii.eqb_refl in Hc. discriminate Hc.
Qed.


Lemma pretty_Z_plain (z : Z) : str_forall plain_char (pretty z) = true.
Proof.
  assert (Hn : forall x : N, str_forall plain_char (pretty x) = true).
  { intros x. eapply str_forall_impl; [apply digit_plain|].
    apply pretty_N_digits. }
  destruct z as [|p|p]; [reflexivity|apply (Hn (Npos p))|].
  unfold pretty, pretty_Z. rewrite sapp_cons, sapp_nil. cbn [str_forall].
  apply andb_true_iff; split; [reflexivity|apply (Hn (Npos p))].
Qed.














(** The line and the record of the design document's scenario. *)
Example gpu_line_scenario :
  gpu_line 0 1024 8192 50 60 120 [5%N] = "0, 1024, 8192, 50, 60, 120.5"
  /\ parse_gpu "0, 1024, 8192, 50, 60, 120.5"
     = [{| dev_id := 0; dev_used := 1024; dev_total := 8192; dev_util := 50;
           dev_temp := 60; dev_power := PFloat (PyFloat.quotient 241 2);
           dev_type := "GPU" |}].
Proof. split; vm_compute; reflexivity. Qed.

(** *** Words between white space *)

Lemma split_ws_go_cur cur c s :
  is_space c = false ->
  split_ws_go cur (String c s) = split_ws_go (Some "") (String c s).
Proof. intros H. cbn [split_ws_go]. rewrite H. reflexivity. Qed.

Lemma split_ws_go_solid s :
  solid s -> split_ws_go (Some "") s = [s].
Proof.
  unfold solid. induction s as [|c s IH]; [reflexivity|].
  cbn [str_forall]. intros H. apply andb_true_iff in H as [Hc Hs].
  apply negb_true_iff in Hc. cbn [split_ws_go]. rewrite Hc.
  rewrite (IH Hs). reflexivity.
Qed.

Lemma split_ws_go_solid_then s sp rest :
  solid s -> is_space sp = true ->
  split_ws_go (Some "") (s +:+ String sp rest)
  = s :: split_ws_go None rest.
Proof.
  unfold solid. intros Hs Hsp. induction s as [|c s IH].
  - rewrite sapp_nil. cbn [split_ws_go]. rewrite Hsp. reflexivity.
  - cbn [str_forall] in Hs. apply andb_true_iff in Hs as [Hc Hs].
    apply negb_true_iff in Hc. rewrite sapp_cons. cbn [split_ws_go].
    rewrite Hc, (IH Hs). reflexivity.
Qed.

Lemma word_head w :
  word w -> exists c s, w = String c s /\ is_space c = false.
Proof.
  intros [Hne Hs]. destruct w as [|c s]; [congruence|].
  exists c, s. split; [reflexivity|].
  unfold solid in Hs. cbn [str_forall] in Hs.
  apply andb_true_iff in Hs as [Hc _]. apply negb_true_iff, Hc.
Qed.

(** [" ".join(words).split() == words]. *)
Lemma split_ws_join ws :
  Forall word ws -> split_ws (join " " ws) = ws.
Proof.
  unfold split_ws. induction 1 as [|w ws Hw Hws IH]; [reflexivity|].
  destruct (word_head w Hw) as (c & s & -> & Hc).
  destruct ws as [|v ws].
  - cbn [join]. rewrite split_ws_go_cur by exact Hc.
    apply split_ws_go_solid, Hw.
  - change (join " " (String c s :: v :: ws))
      with (String c s +:+ " " +:+ join " " (v :: ws)).
    rewrite sapp_cons, split_ws_go_cur by exact Hc.
    rewrite <- sapp_cons.
    change (" " +:+ join " " (v :: ws)) with (String " " (join " " (v :: ws))).
    rewrite split_ws_go_solid_then; [|apply Hw|reflexivity].
    rewrite IH. reflexivity.
Qed.

Lemma lstrip_head c s : is_space c = false -> lstrip (String c s) = String c s.
Proof. intros H. cbn [lstrip]. rewrite H. reflexivity. Qed.

Lemma rstrip_nonempty c s : is_space c = false -> rstrip (String c s) <> "".
Proof.
  intros H. cbn [rstrip]. rewrite H.
  destruct (rstrip s); intros E; discriminate E.
Qed.

(** White space after a word is stripped, the word stays. *)
Lemma rstrip_app_word s w : word w -> rstrip (s +:+ w) = s +:+ w.
Proof.
  intros Hw. induction s as [|c s IH].
  - rewrite sapp_nil. apply rstrip_id, Hw.
  - rewrite sapp_cons. cbn [rstrip]. rewrite IH.
    destruct (s +:+ w) eqn:E; [|reflexivity].
    exfalso. destruct Hw as [Hne _]. destruct s; [|discriminate E].
    rewrite sapp_nil in E. congruence.
Qed.

Lemma join_words_end w ws :
  Forall word (w :: ws) -> exists s v, join " " (w :: ws) = s +:+ v /\ word v.
Proof.
  revert w. induction ws as [|u ws IH]; intros w H.
  - exists "", w. inversion H; subst. split; [reflexivity|assumption].
  - inversion H as [|? ? Hw Hrest]; subst.
    destruct (IH u Hrest) as (s & v & E & Hv).
    exists (w +:+ " " +:+ s), v. split; [|exact Hv].
    change (join " " (w :: u :: ws)) with (w +:+ " " +:+ join " " (u :: ws)).
    rewrite E, !sapp_assoc. reflexivity.
Qed.

(** A line of words has no white space at its ends. *)
Lemma strip_join_words ws :
  Forall word ws -> strip (join " " ws) = join " " ws.
Proof.
  intros H. destruct ws as [|w ws]; [reflexivity|].
  unfold strip.
  assert (lstrip (join " " (w :: ws)) = join " " (w :: ws)) as ->.
  { inversion H as [|? ? Hw _]; subst.
    destruct (word_head w Hw) as (c & s & -> & Hc).
    destruct ws as [|v ws]; [apply lstrip_head, Hc|].
    change (join " " (String c s :: v :: ws))
      with (String c s +:+ " " +:+ join " " (v :: ws)).
    rewrite sapp_cons. apply lstrip_head, Hc. }
  destruct (join_words_end w ws H) as (s & v & -> & Hv).
  apply rstrip_app_word, Hv.
Qed.

Lemma str_forall_join P ws :
  P " "%char = true ->
  Forall (fun w => str_forall P w = true) ws ->
  str_forall P (join " " ws) = true.
Proof.
  intros Hsp. induction 1 as [|w ws Hw _ IH]; [reflexivity|].
  destruct ws as [|v ws]; [exact Hw|].
  change (join " " (w :: v :: ws)) with (w +:+ " " +:+ join " " (v :: ws)).
  rewrite !str_forall_app, Hw, IH. cbn [str_forall]. rewrite Hsp. reflexivity.
Qed.

Lemma solid_one_line w : solid w -> one_line w.
Proof.
  intros H. apply contains_absent. eapply str_forall_impl; [|exact H].
  intros c Hc. destruct (Ascii.eqb_spec c (ascii_of_nat 10)) as [->|];
    [discriminate Hc|reflexivity].
Qed.

Lemma join_words_one_line ws : Forall word ws -> one_line (join " " ws).
Proof.
  intros H. apply contains_absent. apply str_forall_join; [reflexivity|].
  eapply Forall_impl; [exact H|]. intros w [_ Hw].
  eapply str_forall_impl; [|exact Hw].
  intros c Hc. destruct (Ascii.eqb_spec c (ascii_of_nat 10)) as [->|];
    [discriminate Hc|reflexivity].
Qed.

Lemma split_one_line l : one_line l -> split NL l = [l].
Proof. intros H. apply split_go_last, piece_one, H. Qed.

Lemma pretty_Z_word (z : Z) : word (pretty z).
Proof.
  split.
  - intros E. pose proof (py_int_pretty z) as H. rewrite E in H.
    discriminate H.
  - eapply str_forall_impl; [apply plain_not_space|apply pretty_Z_plain].
Qed.

(** *** [parse_xpu] *)

Lemma py_int_outcome s :
  (exists z, py_int s = Ret z) \/ py_int s = Raise ValueError.
Proof.
  unfold py_int. destruct (scan_sign (strip s)) as [neg body].
  unfold unsigned_int.
  destruct (scan_digits body 0 0) as [[v n] r].
  destruct n as [|n]; [right; reflexivity|].
  destruct r; [left; eexists; reflexivity|right; reflexivity].
Qed.

Lemma item_in_range parts i :
  (i < length parts)%nat -> exists x, item parts i = Ret x.
Proof.
  intros H. unfold item.
  destruct (lookup_lt_is_Some_2 parts i H) as [x ->]. exists x. reflexivity.
Qed.

Lemma xpu_record_outcome parts :
  (32 <= length parts)%nat ->
  (exists d, xpu_record parts = Ret d /\ xpu_shaped d)
  \/ xpu_record parts = Raise ValueError.
Proof.
  intros H. unfold xpu_record.
  destruct (item_in_range parts 2 ltac:(lia)) as [x2 ->].
  destruct (item_in_range parts 17 ltac:(lia)) as [x17 ->].
  destruct (item_in_range parts 18 ltac:(lia)) as [x18 ->].
  destruct (item_in_range parts 19 ltac:(lia)) as [x19 ->].
  destruct (item_in_range parts 4 ltac:(lia)) as [x4 ->].
  destruct (item_in_range parts 8 ltac:(lia)) as [x8 ->].
  cbn [obind].
  destruct (py_int_outcome x2) as [[? ->]| ->]; [|right; reflexivity].
  destruct (py_int_outcome x17) as [[? ->]| ->]; [|right; reflexivity].
  destruct (py_int_outcome x18) as [[? ->]| ->]; [|right; reflexivity].
  destruct (py_int_outcome x19) as [[? ->]| ->]; [|right; reflexivity].
  destruct (py_int_outcome x4) as [[? ->]| ->]; [|right; reflexivity].
  destruct (py_int_outcome x8) as [[? ->]| ->]; [|right; reflexivity].
  left. eexists. split; [reflexivity|]. split; [reflexivity|].
  eexists. reflexivity.
Qed.

Lemma parse_xpu_step_cases acc l :
  (long_line l = false /\ parse_xpu_step acc l = acc)
  \/ (long_line l = true
      /\ ((exists d, xpu_shaped d
                      /\ parse_xpu_step acc l = (acc.1 ++ [d], acc.2))
          \/ parse_xpu_step acc l = (acc.1, acc.2 ++ [ValueError]))).
Proof.
  unfold long_line, parse_xpu_step.
  destruct (length (split_ws l) <? 32)%nat eqn:E.
  - left. split; reflexivity.
  - right. split; [reflexivity|]. apply Nat.ltb_ge in E.
    destruct (xpu_record_outcome _ E) as [(d & -> & Hsh)| ->].
    + left. exists d. split; [exact Hsh|reflexivity].
    + right. reflexivity.
Qed.

Lemma parse_xpu_fold lines : forall acc,
  let r := fold_left parse_xpu_step lines acc in
  (length r.1 + length r.2
   = length acc.1 + length acc.2 + length (List.filter long_line lines))%nat
  /\ (Forall xpu_shaped acc.1 -> Forall xpu_shaped r.1)
  /\ (Forall (fun e => e = ValueError) acc.2 ->
      Forall (fun e => e = ValueError) r.2).
Proof.
  induction lines as [|l lines IH]; intros acc.
  - cbn. split; [lia|]. split; intros H; exact H.
  - cbn [fold_left List.filter]. cbv zeta.
    destruct (IH (parse_xpu_step acc l)) as (Hn & Hd & He).
    destruct (parse_xpu_step_cases acc l)
      as [[Hl Hs]|[Hl [(d & Hsh & Hs)|Hs]]];
      rewrite Hl; rewrite Hs in Hn, Hd, He |- *;
      cbn [fst snd length] in Hn, Hd, He |- *.
    + split; [exact Hn|]. split; assumption.
    + rewrite length_app in Hn. cbn [length] in Hn.
      split; [lia|]. split; [|exact He].
      intros H. apply Hd. apply Forall_app. split; [exact H|].
      constructor; [exact Hsh|constructor].
    + rewrite length_app in Hn. cbn [length] in Hn.
      split; [lia|]. split; [exact Hd|].
      intros H. apply He. apply Forall_app. split; [exact H|].
      constructor; [reflexivity|constructor].
Qed.

(** X1: Every line of at least 32 columns ends up either as a device record or
    as a printed message, never both and never dropped; shorter lines leave no
    trace. The records carry the type XPU and an int for the power, and the
    only exception reported is the [ValueError] of [int]. *)
Theorem parse_xpu_accounts_for_long_lines (output : string) :
  let r := parse_xpu output in
  (length r.1 + length r.2
   = length (List.filter long_line (split NL (strip output))))%nat
  /\ Forall xpu_shaped r.1
  /\ Forall (fun e => e = ValueError) r.2.
Proof.
  unfold parse_xpu.
  destruct (parse_xpu_fold (split NL (strip output)) ([], []))
    as (Hn & Hd & He).
  cbn [fst snd length] in Hn, Hd, He. cbv zeta.
  split; [exact Hn|]. split; [apply Hd|apply He]; constructor.
Qed.

(** X2: A line of [xpu-smi --machine-readable]: at least 32 columns, of which
    six are read, each by its position. *)
Theorem parse_xpu_reads_columns fs i u t ut te p :
  Forall word fs ->
  (32 <= length fs)%nat ->
  fs !! 2%nat = Some (pretty i) ->
  fs !! 17%nat = Some (pretty u) ->
  fs !! 18%nat = Some (pretty t) ->
  fs !! 19%nat = Some (pretty ut) ->
  fs !! 4%nat = Some (pretty te) ->
  fs !! 8%nat = Some (pretty p) ->
  parse_xpu (join " " fs) = ([xpu_device i u t ut te p], []).
Proof.
  intros Hw Hlen H2 H17 H18 H19 H4 H8.
  unfold parse_xpu. rewrite (strip_join_words fs Hw).
  rewrite (split_one_line _ (join_words_one_line fs Hw)).
  cbn [fold_left]. unfold parse_xpu_step.
  rewrite (split_ws_join fs Hw).
  apply Nat.ltb_ge in Hlen. rewrite Hlen.
  unfold xpu_record, item. rewrite H2, H17, H18, H19, H4, H8.
  cbn [obind]. rewrite !py_int_pretty. reflexivity.
Qed.

Lemma parse_xpu_reads_columns_witness :
  parse_xpu (join " " numbered_columns) = ([xpu_device 2 17 18 19 4 8], []).
Proof.
  apply (parse_xpu_reads_columns numbered_columns 2 17 18 19 4 8).
  - apply List.Forall_map, Forall_forall. intros k _. apply pretty_Z_word.
  - vm_compute. lia.
  - reflexivity.
  - reflexivity.
  - reflexivity.
  - reflexivity.
  - reflexivity.
  - reflexivity.
Defined.

(** A column that is not a number: no record, one message. *)
Example parse_xpu_bad_column :
  parse_xpu (join " " (<[4%nat := "N/A"]> numbered_columns))
  = ([], [ValueError]).
Proof. vm_compute. reflexivity. Qed.

(** *** [get_mem_info] *)

(** X3: What [get_mem_info] makes of the two numbers of [free -b]: the
    first is the total and the second the amount in use.  The share is the
    float quotient of the two times 100, and both amounts are rounded to
    whole GiB.  When one of the three cannot be worked out (a total of zero
    makes the division fail, a quotient beyond the range of the floats
    overflows) the fallback of zeros is returned, and so it is for every
    total of zero. *)
Theorem mem_of_output_reads_totals (total used : Z) :
  mem_of_output (pretty total +:+ " " +:+ pretty used)
  = match truediv used total, whole_gib used, whole_gib total with
    | Ret r, Ret ug, Ret tg =>
        {| percent := PyFloat.mul r PyFloat.hundred;
           used_gb := ug; total_gb := tg |}
    | _, _, _ => mem_fallback
    end
  /\ (total = 0 ->
      mem_of_output (pretty total +:+ " " +:+ pretty used) = mem_fallback).
Proof.
  assert (Hw : Forall word [pretty total; pretty used]).
  { repeat constructor; apply pretty_Z_word. }
  assert (E : mem_of_output (pretty total +:+ " " +:+ pretty used)
              = match truediv used total, whole_gib used, whole_gib total with
                | Ret r, Ret ug, Ret tg =>
                    {| percent := PyFloat.mul r PyFloat.hundred;
                       used_gb := ug; total_gb := tg |}
                | _, _, _ => mem_fallback
                end).
  { unfold mem_of_output.
    change (pretty total +:+ " " +:+ pretty used)
      with (join " " [pretty total; pretty used]).
    rewrite (strip_join_words _ Hw), (split_ws_join _ Hw).
    unfold unpack2_int. rewrite !py_int_pretty. cbn [obind].
    fold (whole_gib used). fold (whole_gib total).
    destruct (truediv used total) as [r|e|]; cbn [obind]; [|reflexivity..].
    destruct (whole_gib used) as [ug|e|]; cbn [obind];
      [|destruct (whole_gib total); reflexivity..].
    destruct (whole_gib total) as [tg|e|]; reflexivity. }
  split; [exact E|].
  intros ->. rewrite E. reflexivity.
Qed.

(** One byte in use out of three is 33.33333333333333 per cent, the float
    nearest to the product of the float nearest to a third and 100; 1.5 GiB
    and 2.5 GiB both show as 2; an amount beyond the range of the floats,
    and an output that is not two numbers, give the fallback. *)
Example mem_of_output_figures :
  percent (mem_of_output "3 1") = PyFloat.of_decimal 3333333333333333 (-14)
  /\ used_gb (mem_of_output "8589934592 1610612736") = 2
  /\ used_gb (mem_of_output "8589934592 2684354560") = 2
  /\ mem_of_output (pretty (10 ^ 400) +:+ " 1") = mem_fallback
  /\ mem_of_output "" = mem_fallback
  /\ mem_of_output "Mem: 1 2" = mem_fallback.
Proof. vm_compute. repeat split; reflexivity. Qed.

(** *** [get_processes] *)

Lemma lstrip_cases s :
  lstrip s = "" \/ exists c r, lstrip s = String c r /\ is_space c = false.
Proof.
  induction s as [|c s IH]; [left; reflexivity|].
  cbn [lstrip]. destruct (is_space c) eqn:E; [exact IH|].
  right. exists c, s. split; [reflexivity|exact E].
Qed.

Lemma span_word_head c r :
  is_space c = false ->
  exists w rest, span_word (String c r) = (String c w, rest).
Proof.
  intros H. cbn [span_word]. rewrite H.
  destruct (span_word r) as [w rest]. exists w, rest. reflexivity.
Qed.

Lemma split_ws_max_shape n : forall s,
  (length (split_ws_max n s) <= S n)%nat
  /\ Forall (fun f => f <> "") (split_ws_max n s)
  /\ (lstrip s <> "" -> split_ws_max n s <> []).
Proof.
  induction n as [|n IH]; intros s; cbn [split_ws_max];
    destruct (lstrip_cases s) as [->|(c & r & -> & Hc)].
  - split; [cbn; lia|]. split; [constructor|congruence].
  - split; [cbn; lia|]. split; [|intros _ H; discriminate H].
    constructor; [intros H; discriminate H|constructor].
  - split; [cbn; lia|]. split; [constructor|congruence].
  - destruct (span_word_head c r Hc) as (w & rest & ->).
    destruct (IH rest) as (Hlen & Hall & _).
    split; [cbn [length]; lia|]. split; [|intros _ H; discriminate H].
    constructor; [intros H; discriminate H|exact Hall].
Qed.

Lemma processes_step_rows acc l :
  Forall process_row acc -> Forall process_row (processes_step acc l).
Proof.
  intros H. unfold processes_step.
  destruct (negb (String.eqb (strip l) "")) eqn:E; cbn [andb]; [|exact H].
  destruct (negb (startswith "PID" l)); [|exact H].
  apply Forall_app. split; [exact H|]. constructor; [|constructor].
  destruct (split_ws_max_shape 4 l) as (Hlen & Hall & Hne).
  split; [|exact Hall]. split; [|exact Hlen].
  assert (Hl : lstrip l <> "").
  { intros Hl. unfold strip in E. rewrite Hl in E. discriminate E. }
  specialize (Hne Hl). destruct (split_ws_max 4 l); [congruence|cbn; lia].
Qed.

Lemma processes_fold_rows lines : forall acc,
  Forall process_row acc ->
  Forall process_row (fold_left processes_step lines acc).
Proof.
  induction lines as [|l lines IH]; intros acc H; [exact H|].
  cbn [fold_left]. apply IH, processes_step_rows, H.
Qed.

(** X4: Whatever the remote shell printed, [get_processes] hands on at most
    five rows, and every row has between one and five fields, none of them
    empty: a row may be shorter than the five columns asked of [ps]. *)
Theorem processes_of_output_rows (output : string) :
  (length (processes_of_output output) <= 5)%nat
  /\ Forall process_row (processes_of_output output).
Proof.
  unfold processes_of_output. split.
  - rewrite length_firstn. lia.
  - apply Forall_take, processes_fold_rows. constructor.
Qed.

Lemma one_line_app a b : one_line a -> one_line b -> one_line (a +:+ b).
Proof.
  unfold one_line. intros Ha Hb. induction a as [|c a IH]; [exact Hb|].
  rewrite sapp_cons. apply contains_cons in Ha as [Hp Ha].
  cbn [contains]. rewrite (IH Ha), orb_false_r.
  cbn [String.prefix] in Hp |- *. unfold NL in *.
  destruct (Ascii.ascii_dec (ascii_of_nat 10) c); [|reflexivity].
  destruct a; discriminate Hp.
Qed.

Lemma span_word_solid w sp rest :
  solid w -> is_space sp = true ->
  span_word (w +:+ String sp rest) = (w, String sp rest).
Proof.
  unfold solid. intros Hw Hsp. induction w as [|c w IH].
  - rewrite sapp_nil. cbn [span_word]. rewrite Hsp. reflexivity.
  - cbn [str_forall] in Hw. apply andb_true_iff in Hw as [Hc Hw].
    apply negb_true_iff in Hc. rewrite sapp_cons. cbn [span_word].
    rewrite Hc, (IH Hw). reflexivity.
Qed.

Lemma split_ws_max_blank n rest :
  split_ws_max n (String " " rest) = split_ws_max n rest.
Proof. destruct n; reflexivity. Qed.

Lemma split_ws_max_word n w rest :
  word w ->
  split_ws_max (S n) (w +:+ String " " rest) = w :: split_ws_max n rest.
Proof.
  intros Hw. destruct (word_head w Hw) as (c & s & E & Hc).
  cbn [split_ws_max].
  assert (lstrip (w +:+ String " " rest) = w +:+ String " " rest) as ->.
  { rewrite E, sapp_cons. apply lstrip_head, Hc. }
  destruct (w +:+ String " " rest) eqn:E2.
  { rewrite E, sapp_cons in E2. discriminate E2. }
  rewrite <- E2.
  rewrite span_word_solid; [|apply Hw|reflexivity].
  rewrite split_ws_max_blank. reflexivity.
Qed.

Lemma split_ws_max_last comm :
  comm <> "" -> lstrip comm = comm -> split_ws_max 0 comm = [comm].
Proof.
  intros Hne Hl. cbn [split_ws_max]. rewrite Hl.
  destruct comm; [congruence|reflexivity].
Qed.

Lemma pretty_N_word (n : N) : word (pretty n).
Proof.
  destruct (pretty_N_digits n) as [Hd Hne]. split; [exact Hne|].
  eapply str_forall_impl; [|exact Hd].
  intros c Hc. rewrite (digit_not_space c Hc). reflexivity.
Qed.

Lemma pretty_N_not_header (n : N) rest :
  startswith "PID" (pretty n +:+ rest) = false.
Proof.
  destruct (pretty_N_digits n) as [Hd Hne].
  destruct (pretty n) as [|c s]; [congruence|].
  cbn [str_forall] in Hd. apply andb_true_iff in Hd as [Hc _].
  rewrite sapp_cons. unfold startswith. cbn [String.prefix].
  destruct (Ascii.ascii_dec "P" c) as [<-|]; [discriminate Hc|reflexivity].
Qed.

(** X5: A line of [ps] comes back as its five columns; the blanks inside the
    command name do not cut it. *)
Theorem processes_of_output_keeps_command pid user pcpu pmem comm :
  word user -> word pcpu -> word pmem -> command_name comm ->
  processes_of_output (ps_line pid user pcpu pmem comm)
  = [[pretty pid; user; pcpu; pmem; comm]].
Proof.
  intros Hu Hc Hm (Hne & Hl & Hone).
  assert (Hws : Forall word [pretty pid; user; pcpu; pmem]).
  { repeat constructor; solve [apply pretty_N_word | apply Hu | apply Hc
                              | apply Hm]. }
  unfold processes_of_output, ps_line.
  rewrite split_one_line.
  2:{ apply one_line_app; [apply join_words_one_line, Hws|].
      apply one_line_app; [reflexivity|exact Hone]. }
  cbn [fold_left]. unfold processes_step.
  assert (Hhead : startswith "PID"
            (join " " [pretty pid; user; pcpu; pmem] +:+ " " +:+ comm) = false).
  { cbn [join]. rewrite !sapp_assoc. apply pretty_N_not_header. }
  rewrite Hhead.
  assert (Hstrip :
    String.eqb
      (strip (join " " [pretty pid; user; pcpu; pmem] +:+ " " +:+ comm)) ""
    = false).
  { apply String.eqb_neq. unfold strip.
    destruct (word_head _ (pretty_N_word pid)) as (c & s & E & Hsp).
    cbn [join]. rewrite E, !sapp_cons.
    rewrite lstrip_head by exact Hsp. apply rstrip_nonempty, Hsp. }
  rewrite Hstrip. cbn [negb andb app].
  cbn [join]. rewrite !sapp_assoc.
  change (" " +:+ user +:+ " " +:+ pcpu +:+ " " +:+ pmem +:+ " " +:+ comm)
    with (String " " (user +:+ " " +:+ pcpu +:+ " " +:+ pmem +:+ " " +:+ comm)).
  rewrite split_ws_max_word by apply pretty_N_word.
  change (" " +:+ pcpu +:+ " " +:+ pmem +:+ " " +:+ comm)
    with (String " " (pcpu +:+ " " +:+ pmem +:+ " " +:+ comm)).
  rewrite split_ws_max_word by exact Hu.
  change (" " +:+ pmem +:+ " " +:+ comm)
    with (String " " (pmem +:+ " " +:+ comm)).
  rewrite split_ws_max_word by exact Hc.
  change (" " +:+ comm) with (String " " comm).
  rewrite split_ws_max_word by exact Hm.
  rewrite split_ws_max_last by assumption. reflexivity.
Qed.

Lemma processes_of_output_keeps_command_witness :
  processes_of_output (ps_line 4242 "root" "12.5" "0.3" "Web Content")
  = [["4242"; "root"; "12.5"; "0.3"; "Web Content"]].
Proof.
  apply (processes_of_output_keeps_command 4242 "root" "12.5" "0.3"
           "Web Content").
  - split; [intros H; discriminate H|reflexivity].
  - split; [intros H; discriminate H|reflexivity].
  - split; [intros H; discriminate H|reflexivity].
  - split; [intros H; discriminate H|]. split; reflexivity.
Defined.

(** The header is left out, and so are blank lines; a line of two words
    gives a row of two fields. *)
Example processes_of_output_short_row :
  processes_of_output ("PID USER %CPU %MEM COMMAND" +:+ NL +:+ NL +:+ "17 root")
  = [["17"; "root"]].
Proof. vm_compute. reflexivity. Qed.

(** *** The sentinel line *)

Lemma rstrip_word_newline w : word w -> rstrip (w +:+ NL) = w.
Proof.
  intros [Hne Hs]. unfold solid in Hs.
  induction w as [|c w IH]; [congruence|].
  cbn [str_forall] in Hs. apply andb_true_iff in Hs as [Hc Hs].
  apply negb_true_iff in Hc. rewrite sapp_cons. cbn [rstrip].
  destruct w as [|c2 w].
  - rewrite sapp_nil. change (rstrip NL) with "". rewrite Hc. reflexivity.
  - rewrite IH; [reflexivity|intros E; discriminate E|exact Hs].
Qed.

Lemma strip_word_newline w : word w -> strip (w +:+ NL) = w.
Proof.
  intros Hw. unfold strip.
  destruct (word_head w Hw) as (c & s & E & Hc).
  assert (lstrip (w +:+ NL) = w +:+ NL) as ->.
  { rewrite E, sapp_cons. apply lstrip_head, Hc. }
  apply rstrip_word_newline, Hw.
Qed.

(** The exit status that the remote [echo] puts after the sentinel is read
    back as it is. *)
Lemma sentinel_code_echo (status : Z) :
  Monitor.sentinel_code ("CMD_FINISHED_" +:+ pretty status +:+ NL) = status.
Proof.
  unfold Monitor.sentinel_code.
  assert (Hsplit : split "_" ("CMD_FINISHED_" +:+ pretty status +:+ NL)
                   = ["CMD"; "FINISHED"; pretty status +:+ NL]).
  { unfold split.
    change ("CMD_FINISHED_" +:+ pretty status +:+ NL)
      with ("CMD" +:+ "_" +:+ ("FINISHED" +:+ "_" +:+ (pretty status +:+ NL))).
    rewrite split_go_field;
      [|intros H; discriminate H
       |apply (piece_one "_" "CMD"); reflexivity].
    rewrite split_go_field;
      [|intros H; discriminate H
       |apply (piece_one "_" "FINISHED"); reflexivity].
    rewrite split_go_last; [reflexivity|].
    apply (piece_one "_"). apply contains_absent.
    rewrite str_forall_app. apply andb_true_iff. split; [|reflexivity].
    eapply str_forall_impl; [|apply pretty_Z_plain].
    intros c Hc. unfold plain_char in Hc.
    destruct (Ascii.eqb_spec c "_") as [->|]; [discriminate Hc|reflexivity]. }
  rewrite Hsplit. cbn [List.last].
  rewrite strip_word_newline by apply pretty_Z_word.
  rewrite py_int_pretty. reflexivity.
Qed.

Lemma sentinel_line_found (status : Z) :
  contains "CMD_FINISHED_" ("CMD_FINISHED_" +:+ pretty status +:+ NL) = true.
Proof. apply contains_prefix, prefix_app. Qed.

End ParseFacts.

(** * The monitor *)

Module MonitorFacts.
Import PyStr PyNum Parse Prim Monitor MonitorSpec.

Lemma read_loop_prefix start pre :
  forall ts output fuel st c2 o2,
    length ts = length pre ->
    Forall (in_time start 10) ts ->
    Forall output_line pre ->
    clock (world st) = ts ++ c2 ->
    stdout (world st) = map RdLine pre ++ o2 ->
    read_loop (length pre + fuel) start output st
    = read_loop fuel start (output ++ kept pre)
        (with_io st c2 o2 (stdin (world st)) (trace (world st))).
Proof.
  induction pre as [|l pre IH]; intros ts output fuel st c2 o2 Hlen Ht Hl Hc Ho.
  - destruct ts; [|discriminate Hlen]. simpl in *.
    unfold kept; simpl. rewrite app_nil_r.
    destruct st as [o [nm c so se si p tr]]; simpl in *; subst. reflexivity.
  - destruct ts as [|t ts]; [discriminate Hlen|].
    inversion Ht as [|? ? Ht1 Ht2]; subst.
    inversion Hl as [|? ? Hl1 Hl2]; subst.
    destruct st as [o [nm c so se si p tr]]; simpl in Hc, Ho; subst.
    change (length (l :: pre) + fuel)%nat with (S (length pre + fuel)).
    cbn [read_loop]. unfold bind at 1. unfold now at 1. cbn [world clock app].
    cbv iota. unfold in_time in Ht1. rewrite Ht1.
    unfold bind at 1. unfold stdout_readline at 1.
    unfold in_world at 1 2, set_clock, set_stdout.
    cbn [world stdout map app self read_result].
    destruct Hl1 as [->|Hns].
    + change (String.eqb "" "") with true. cbv iota.
      erewrite IH; [|injection Hlen; intros E; exact E|exact Ht2|exact Hl2
                    |reflexivity|reflexivity].
      reflexivity.
    + destruct (String.eqb_spec l "") as [->|Hne].
      * erewrite IH; [|injection Hlen; intros E; exact E|exact Ht2|exact Hl2
                      |reflexivity|reflexivity].
        reflexivity.
      * unfold SENTINEL in Hns. rewrite Hns.
        erewrite IH; [|injection Hlen; intros E; exact E|exact Ht2|exact Hl2
                      |reflexivity|reflexivity].
        unfold kept. cbn [List.filter].
        destruct (String.eqb_spec l "") as [E|_]; [exfalso; apply Hne, E|].
        cbn [negb map]. rewrite <- app_assoc. reflexivity.
Qed.

Ltac run_prims :=
  cbv beta iota zeta delta
    [bind ret raise stdin_write stdin_flush stdin_op now get_world get_self
     emit set_connected world self stdin clock trace stdout stderr polls names
     stdout_readline read_result with_io machine ssh connected
     refresh_interval in_world set_clock set_stdout set_stderr set_stdin
     set_polls add_trace].

Lemma read_loop_sentinel start fuel output st t c o sent :
  clock (world st) = t :: c ->
  in_time start 10 t ->
  stdout (world st) = RdLine sent :: o ->
  contains SENTINEL sent = true ->
  read_loop (S fuel) start output st
  = (Ret (output, sentinel_code sent),
     with_io st c o (stdin (world st)) (trace (world st))).
Proof.
  intros Hc Ht Ho Hs.
  destruct st as [ob [nm c0 so se si p tr]]; simpl in Hc, Ho; subst.
  cbn [read_loop]. run_prims. unfold in_time in Ht. rewrite Ht.
  destruct (String.eqb_spec sent "") as [->|_]; [discriminate Hs|].
  unfold SENTINEL in Hs. rewrite Hs. reflexivity.
Qed.

Lemma read_loop_timeout start fuel output st t c :
  clock (world st) = t :: c ->
  Qltb (t - start) 10 = false ->
  read_loop (S fuel) start output st
  = (Ret (output, -1),
     with_io st c (stdout (world st)) (stdin (world st)) (trace (world st))).
Proof.
  intros Hc Ht.
  destruct st as [ob [nm c0 so se si p tr]]; simpl in Hc; subst.
  cbn [read_loop]. run_prims. rewrite Ht. reflexivity.
Qed.

(** A command whose output and sentinel arrive in time. *)
Lemma command_body_sentinel cmd st t0 ts t crest pre sent rest ins :
  stdin (world st) = None :: None :: ins ->
  clock (world st) = t0 :: ts ++ t :: crest ->
  length ts = length pre ->
  Forall (in_time t0 10) ts -> in_time t0 10 t ->
  Forall output_line pre ->
  stdout (world st) = map RdLine pre ++ RdLine sent :: rest ->
  contains SENTINEL sent = true ->
  command_body cmd st
  = if sentinel_code sent =? 0
    then (Ret (join NL (kept pre)),
          with_io st crest rest ins
            (trace (world st) ++ [EvWrite (full_command cmd); EvFlush]))
    else (Ret "",
          with_io st crest rest ins
            (trace (world st) ++ [EvWrite (full_command cmd); EvFlush;
                                  EvPrint (MsgCmdFailed (sentinel_code sent) cmd)])).
Proof.
  intros Hin Hc Hlen Hts Ht Hpre Ho Hs.
  destruct st as [ob [nm c0 so se si p tr]]; simpl in Hin, Hc, Ho; subst.
  unfold command_body. run_prims.
  replace (S (length (ts ++ t :: crest)))
    with (length pre + S (S (length crest)))%nat
    by (rewrite length_app; simpl; lia).
  erewrite read_loop_prefix; [|exact Hlen|exact Hts|exact Hpre
                              |reflexivity|reflexivity].
  erewrite read_loop_sentinel; [|reflexivity|exact Ht|reflexivity|exact Hs].
  run_prims. cbn [app].
  destruct (sentinel_code sent =? 0); cbn [negb]; run_prims;
    rewrite <- !app_assoc; reflexivity.
Qed.

(** A command whose sentinel does not arrive within the ten seconds. *)
Lemma command_body_timeout cmd st t0 ts t crest pre rest ins :
  stdin (world st) = None :: None :: ins ->
  clock (world st) = t0 :: ts ++ t :: crest ->
  length ts = length pre ->
  Forall (in_time t0 10) ts -> Qltb (t - t0) 10 = false ->
  Forall output_line pre ->
  stdout (world st) = map RdLine pre ++ rest ->
  command_body cmd st
  = (Ret "",
     with_io st crest rest ins
       (trace (world st) ++ [EvWrite (full_command cmd); EvFlush;
                             EvPrint (MsgCmdFailed (-1) cmd)])).
Proof.
  intros Hin Hc Hlen Hts Ht Hpre Ho.
  destruct st as [ob [nm c0 so se si p tr]]; simpl in Hin, Hc, Ho; subst.
  unfold command_body. run_prims.
  replace (S (length (ts ++ t :: crest)))
    with (length pre + S (S (length crest)))%nat
    by (rewrite length_app; simpl; lia).
  erewrite read_loop_prefix; [|exact Hlen|exact Hts|exact Hpre
                              |reflexivity|reflexivity].
  erewrite read_loop_timeout; [|reflexivity|exact Ht].
  run_prims. cbn [app negb Z.eqb]. run_prims.
  rewrite <- !app_assoc. reflexivity.
Qed.

Lemma get_remote_info_connected cmd st :
  connected (self st) = true -> get_remote_info cmd st = try_command cmd st.
Proof.
  intros Hc. destruct st as [[m s c r] w]. simpl in Hc. subst c.
  unfold get_remote_info. run_prims. reflexivity.
Qed.

Lemma try_command_returns cmd st v st' :
  command_body cmd st = (Ret v, st') -> try_command cmd st = (Ret v, st').
Proof. intros H. unfold try_command, try_catch. rewrite H. reflexivity. Qed.

Lemma sentinel_code_nonzero sent :
  py_int (code_text sent) <> Ret 0 -> sentinel_code sent <> 0.
Proof.
  unfold sentinel_code, code_text. intros H.
  destruct (py_int _) as [c| |]; [|lia|lia].
  intros ->. apply H. reflexivity.
Qed.

(** C1: when the sentinel line of a command carries an exit code other than
    zero, a text that [int] rejects counting as [-1], [get_remote_info]
    prints the failure with that code and returns the empty string, whatever
    output lines were read before the sentinel. *)
Theorem get_remote_info_nonzero_exit_returns_nothing
    cmd st t0 ts t crest pre sent rest ins :
  connected (self st) = true ->
  stdin (world st) = None :: None :: ins ->
  clock (world st) = t0 :: ts ++ t :: crest ->
  length ts = length pre ->
  Forall (in_time t0 10) ts -> in_time t0 10 t ->
  Forall output_line pre ->
  stdout (world st) = map RdLine pre ++ RdLine sent :: rest ->
  contains SENTINEL sent = true ->
  py_int (code_text sent) <> Ret 0 ->
  get_remote_info cmd st
  = (Ret "",
     with_io st crest rest ins
       (trace (world st) ++
        [EvWrite (full_command cmd); EvFlush;
         EvPrint (MsgCmdFailed (sentinel_code sent) cmd)]))
  /\ sentinel_code sent <> 0
  /\ (forall e, py_int (code_text sent) = Raise e -> sentinel_code sent = -1).
Proof.
  intros Hconn Hin Hc Hlen Hts Ht Hpre Ho Hs Hcode.
  pose proof (sentinel_code_nonzero sent Hcode) as Hnz.
  split; [|split; [exact Hnz|]].
  - rewrite get_remote_info_connected by exact Hconn.
    pose proof (command_body_sentinel cmd st t0 ts t crest pre sent rest ins
                  Hin Hc Hlen Hts Ht Hpre Ho Hs) as Hbody.
    destruct (Z.eqb_spec (sentinel_code sent) 0) as [E|_]; [contradiction|].
    apply try_command_returns, Hbody.
  - intros e He. unfold sentinel_code. fold (code_text sent). rewrite He.
    reflexivity.
Qed.

Lemma get_remote_info_nonzero_exit_witness :
  get_remote_info "ls" failing_session
  = (Ret "",
     with_io failing_session [] [] []
       [EvWrite (full_command "ls"); EvFlush; EvPrint (MsgCmdFailed 2 "ls")]).
Proof.
  apply (get_remote_info_nonzero_exit_returns_nothing "ls" failing_session
           0%Q [1; 2]%Q 3%Q [] ["partial" +:+ NL; "output" +:+ NL]
           ("CMD_FINISHED_2" +:+ NL) [] []).
  - reflexivity.
  - reflexivity.
  - reflexivity.
  - reflexivity.
  - repeat constructor.
  - reflexivity.
  - repeat constructor; right; reflexivity.
  - reflexivity.
  - reflexivity.
  - vm_compute. intros H. discriminate H.
Defined.

(** An exit code that [int] cannot read counts as [-1]. *)
Example get_remote_info_unreadable_code :
  sentinel_code ("CMD_FINISHED_abc" +:+ NL) = -1
  /\ sentinel_code ("CMD_FINISHED_" +:+ NL) = -1
  /\ sentinel_code ("CMD_FINISHED_127" +:+ NL) = 127.
Proof. repeat split; reflexivity. Qed.

(** *** No sentinel within the ten seconds *)

(** The channel has nothing more to give while the time is not yet up: the
    read blocks. *)
Lemma read_loop_silent start fuel output st t c :
  clock (world st) = t :: c ->
  in_time start 10 t ->
  stdout (world st) = [] ->
  read_loop (S fuel) start output st
  = (Blocked, with_io st c [] (stdin (world st)) (trace (world st))).
Proof.
  intros Hc Ht Ho.
  destruct st as [ob [nm c0 so se si p tr]]; simpl in Hc, Ho; subst.
  cbn [read_loop]. run_prims. unfold in_time in Ht. rewrite Ht. reflexivity.
Qed.

(** A command whose channel falls silent before the ten seconds are over. *)
Lemma command_body_silent cmd st t0 ts t crest pre ins :
  stdin (world st) = None :: None :: ins ->
  clock (world st) = t0 :: ts ++ t :: crest ->
  length ts = length pre ->
  Forall (in_time t0 10) ts -> in_time t0 10 t ->
  Forall output_line pre ->
  stdout (world st) = map RdLine pre ->
  command_body cmd st
  = (Blocked,
     with_io st crest [] ins
       (trace (world st) ++ [EvWrite (full_command cmd); EvFlush])).
Proof.
  intros Hin Hc Hlen Hts Ht Hpre Ho.
  destruct st as [ob [nm c0 so se si p tr]]; simpl in Hin, Hc, Ho; subst.
  unfold command_body. run_prims.
  replace (S (length (ts ++ t :: crest)))
    with (length pre + S (S (length crest)))%nat
    by (rewrite length_app; simpl; lia).
  erewrite read_loop_prefix; [|exact Hlen|exact Hts|exact Hpre
                              |reflexivity|rewrite app_nil_r; reflexivity].
  erewrite read_loop_silent; [|reflexivity|exact Ht|reflexivity].
  run_prims. rewrite <- !app_assoc. reflexivity.
Qed.

Lemma try_command_blocks cmd st st' :
  command_body cmd st = (Blocked, st') -> try_command cmd st = (Blocked, st').
Proof. intros H. unfold try_command, try_catch. rewrite H. reflexivity. Qed.

(** C2, as amended: the ten seconds are looked at between two reads only.
    After the output lines [pre], each read in time, the call ends in one of
    two ways, and in neither is the session marked as not connected.  When
    the next reading of the clock is ten seconds or more after the start,
    [get_remote_info] prints a failure with code [-1] and returns the empty
    string; the session object is left as it was, so the next call goes
    straight to sending its command, with no reconnect.  When that reading is
    still in time and the channel has nothing more to give, the read blocks
    and the call never returns: nothing is printed and no time limit
    applies. *)
Theorem get_remote_info_timeout_stays_connected
    cmd st t0 ts t crest pre rest ins :
  connected (self st) = true ->
  stdin (world st) = None :: None :: ins ->
  clock (world st) = t0 :: ts ++ t :: crest ->
  length ts = length pre ->
  Forall (in_time t0 10) ts ->
  Forall output_line pre ->
  stdout (world st) = map RdLine pre ++ rest ->
  (Qltb (t - t0) 10 = false ->
     let st' := with_io st crest rest ins
                  (trace (world st) ++
                   [EvWrite (full_command cmd); EvFlush;
                    EvPrint (MsgCmdFailed (-1) cmd)]) in
     get_remote_info cmd st = (Ret "", st')
     /\ self st' = self st
     /\ connected (self st') = true
     /\ (forall next, get_remote_info next st' = try_command next st'))
  /\ (in_time t0 10 t -> rest = [] ->
       let st' := with_io st crest [] ins
                    (trace (world st) ++
                     [EvWrite (full_command cmd); EvFlush]) in
       get_remote_info cmd st = (Blocked, st')
       /\ connected (self st') = true).
Proof.
  intros Hconn Hin Hc Hlen Hts Hpre Ho. split.
  - intros Ht st'.
    split; [|split; [reflexivity|split; [exact Hconn|]]].
    + rewrite get_remote_info_connected by exact Hconn.
      apply try_command_returns.
      apply (command_body_timeout cmd st t0 ts t crest pre rest ins);
        assumption.
    + intros next. apply get_remote_info_connected. exact Hconn.
  - intros Ht -> st'. rewrite app_nil_r in Ho. split; [|exact Hconn].
    rewrite get_remote_info_connected by exact Hconn.
    apply try_command_blocks.
    apply (command_body_silent cmd st t0 ts t crest pre ins); assumption.
Qed.

Lemma get_remote_info_timeout_witness :
  (Qltb (11 - 0) 10 = false ->
     get_remote_info "cmd" slow_session = (Ret "", after_timeout)
     /\ self after_timeout = self slow_session
     /\ connected (self after_timeout) = true
     /\ (forall next,
           get_remote_info next after_timeout
           = try_command next after_timeout))
  /\ (in_time 0 10 11 -> [line "late"; line "CMD_FINISHED_0"] = [] ->
       get_remote_info "cmd" slow_session
       = (Blocked,
          with_io slow_session [12; 13; 14]%Q [] [None; None]
            (trace (world slow_session) ++
             [EvWrite (full_command "cmd"); EvFlush]))
       /\ connected
            (self (with_io slow_session [12; 13; 14]%Q [] [None; None]
                     (trace (world slow_session) ++
                      [EvWrite (full_command "cmd"); EvFlush]))) = true).
Proof.
  apply (get_remote_info_timeout_stays_connected "cmd" slow_session
           0%Q [1; 2]%Q 11%Q [12; 13; 14]%Q ["slow" +:+ NL; "output" +:+ NL]
           [line "late"; line "CMD_FINISHED_0"] [None; None]).
  - reflexivity.
  - reflexivity.
  - reflexivity.
  - reflexivity.
  - repeat constructor.
  - repeat constructor; right; reflexivity.
  - reflexivity.
Defined.

(** A channel that stays silent after one line: the call is blocked in its
    second read, has printed nothing, and never gets to take the reading of
    the clock that would show a minute. *)
Example get_remote_info_silent_channel :
  let st := connected_session sample_host
              (sample_world [0; 1; 2; 60]%Q [line "slow"] 2 []) in
  (get_remote_info "cmd" st).1 = Blocked
  /\ trace (world (get_remote_info "cmd" st).2)
     = [EvWrite (full_command "cmd"); EvFlush]
  /\ clock (world (get_remote_info "cmd" st).2) = [60%Q]
  /\ connected (self (get_remote_info "cmd" st).2) = true.
Proof. vm_compute. repeat split. Qed.

(** C2, as stated, fails: after a call that saw no sentinel within the ten
    seconds the session is still marked connected, and the next call sends
    its command at once (the first new event is the write; a reconnect would
    have ended in [ssh_connect]). *)
Lemma timeout_does_not_disconnect :
  get_remote_info "cmd" slow_session = (Ret "", after_timeout)
  /\ connected (self after_timeout) <> false
  /\ (get_remote_info "next" after_timeout).1 = Ret "late"
  /\ trace (world (get_remote_info "next" after_timeout).2)
     = trace (world after_timeout) ++ [EvWrite (full_command "next"); EvFlush].
Proof.
  vm_compute. repeat split. intros H. discriminate H.
Qed.

(** *** The first connection *)

(** In the module as written, [ssh_connect] never returns: the lookup of
    [os] stops it. *)
Lemma ssh_connect_never_returns st v st' :
  as_written (world st) -> ssh_connect st <> (Ret v, st').
Proof.
  destruct st as [[m s c r] [nm cl so se si p tr]].
  unfold as_written. cbn [world names]. intros ->.
  unfold ssh_connect, global. run_prims.
  destruct s as [h|].
  - unfold poll. run_prims. destruct p as [|[z|] p]; cbn.
    + intros H; discriminate H.
    + intros H; discriminate H.
    + intros H; discriminate H.
  - cbn. intros H; discriminate H.
Qed.

(** C4, on the code: in the module as written, [monitor] on a new
    [MachineMonitor] stops inside its first [ssh_connect] with [NameError],
    whatever the host does, and nothing is put on the queue.  The absent
    event that the design document asks for is never published. *)
Theorem monitor_first_connect_publishes_nothing m interval w cycles :
  as_written w ->
  monitor cycles {| self := init m interval; world := w |}
  = (Raise NameError, {| self := init m interval; world := w |})
  /\ published (world (monitor cycles
                         {| self := init m interval; world := w |}).2)
     = published w.
Proof.
  intros Hw.
  assert (E : monitor cycles {| self := init m interval; world := w |}
              = (Raise NameError, {| self := init m interval; world := w |})).
  { destruct w as [nm cl so se si p tr]. unfold as_written in Hw.
    cbn [names] in Hw. subst nm. reflexivity. }
  split; [exact E|]. rewrite E. reflexivity.
Qed.

Lemma monitor_first_connect_witness :
  monitor 3 {| self := init sample_host 2; world := unreachable_world |}
  = (Raise NameError,
     {| self := init sample_host 2; world := unreachable_world |})
  /\ published (world (monitor 3
                         {| self := init sample_host 2;
                            world := unreachable_world |}).2)
     = published unreachable_world.
Proof.
  apply (monitor_first_connect_publishes_nothing sample_host 2
           unreachable_world 3).
  reflexivity.
Defined.

(** What the code sets out to do: were [os] bound in the module, the failed
    first connection would publish one absent event and end the polling. *)
Lemma monitor_first_connect_with_os :
  let r := monitor 3 {| self := init sample_host 2;
                        world := with_names ["os"] unreachable_world |} in
  r.1 = Ret Stopped
  /\ published (world r.2) = [("10.0.0.1", None)].
Proof. vm_compute. split; reflexivity. Qed.

(** Even then, a [read] on the stderr of the process that raises (the
    process was started with its stderr sent to a file) leaves [monitor]
    with the exception and the queue empty. *)
Lemma monitor_first_connect_stderr_raises :
  let w := {| names := "os" :: module_globals; clock := []; stdout := [];
              stderr := [RdRaise AttributeError]; stdin := [];
              polls := [Some 255]; trace := [] |} in
  let r := monitor 3 {| self := init sample_host 2; world := w |} in
  r.1 = Raise AttributeError
  /\ published (world r.2) = [].
Proof. vm_compute. split; reflexivity. Qed.

(** *** The polling loop *)

Lemma silent_ret {A} (a : A) : silent (ret a).
Proof. intros st. repeat split. Qed.

Lemma silent_raise {A} e : silent (@raise State A e).
Proof. intros st. repeat split. Qed.

Lemma silent_blocked {A} : silent (@blocked State A).
Proof. intros st. repeat split. Qed.

Lemma silent_bind {A B} (c : M A) (k : A -> M B) :
  silent c -> (forall a, silent (k a)) -> silent (bind c k).
Proof.
  intros Hc Hk st. unfold bind. specialize (Hc st).
  destruct (c st) as [[a|e|] st1]; cbn [snd] in *; try exact Hc.
  destruct (Hk a st1) as (H1 & H2 & H3). destruct Hc as (G1 & G2 & G3).
  repeat split; congruence.
Qed.

Lemma silent_try_catch {A} (c : M A) (h : exn -> M A) :
  silent c -> (forall e, silent (h e)) -> silent (try_catch c h).
Proof.
  intros Hc Hh st. unfold try_catch. specialize (Hc st).
  destruct (c st) as [[a|e|] st1]; cbn [snd] in *; try exact Hc.
  destruct (Hh e st1) as (H1 & H2 & H3). destruct Hc as (G1 & G2 & G3).
  repeat split; congruence.
Qed.

Lemma silent_if {A} (b : bool) (c1 c2 : M A) :
  silent c1 -> silent c2 -> silent (if b then c1 else c2).
Proof. destruct b; auto. Qed.

Lemma published_app tr ev :
  published_of (tr ++ [ev])
  = published_of tr ++ match ev with EvPut h d => [(h, d)] | _ => [] end.
Proof.
  unfold published_of. rewrite omap_app. destruct ev; reflexivity.
Qed.

Ltac silent_prim :=
  let st := fresh "st" in
  intros st; destruct st as [[xm xs xc xr] [xn xcl xo xe xi xp xt]];
  cbv beta iota zeta delta
    [now stdout_readline stderr_read stdin_op stdin_write stdin_flush poll
     set_connected set_ssh get_self get_world emit world self names clock
     stdout stderr stdin polls trace machine refresh_interval published snd
     in_world set_clock set_stdout set_stderr set_stdin set_polls add_trace];
  repeat match goal with
         | |- context [match ?l with [] => _ | _ :: _ => _ end] => destruct l
         | |- context [match ?o with Some _ => _ | None => _ end] => destruct o
         end;
  rewrite ?published_app, ?app_nil_r; repeat split; reflexivity.

Lemma silent_now : silent now.
Proof. silent_prim. Qed.

Lemma silent_readline : silent stdout_readline.
Proof. silent_prim. Qed.

Lemma silent_stderr_read : silent stderr_read.
Proof. silent_prim. Qed.

Lemma silent_poll : silent poll.
Proof. silent_prim. Qed.

Lemma silent_get_self : silent get_self.
Proof. silent_prim. Qed.

Lemma silent_get_world : silent get_world.
Proof. silent_prim. Qed.

Lemma silent_set_connected b : silent (set_connected b).
Proof. silent_prim. Qed.

Lemma silent_set_ssh h : silent (set_ssh h).
Proof. silent_prim. Qed.

Lemma silent_write text : silent (stdin_write text).
Proof. silent_prim. Qed.

Lemma silent_flush : silent stdin_flush.
Proof. silent_prim. Qed.

Lemma silent_emit ev :
  (forall h d, ev <> EvPut h d) -> silent (emit ev).
Proof.
  intros Hev st. destruct st as [[xm xs xc xr] [xn xcl xo xe xi xp xt]].
  cbv beta iota zeta delta
    [emit world self trace machine refresh_interval published snd in_world
     add_trace].
  rewrite published_app. destruct ev; rewrite ?app_nil_r; repeat split.
  exfalso. eapply Hev. reflexivity.
Qed.

Create HintDb silent.
#[local] Hint Resolve silent_ret silent_raise silent_blocked silent_now
  silent_readline silent_stderr_read silent_poll silent_get_self
  silent_get_world silent_set_connected silent_set_ssh silent_write
  silent_flush : silent.

Ltac silent_step :=
  first
    [ apply silent_bind; [|intros ?]
    | apply silent_try_catch; [|intros ?]
    | apply silent_if
    | apply silent_emit; intros ? ? H; discriminate H
    | solve [auto with silent]
    | match goal with
      | |- silent (match ?x with _ => _ end) => destruct x
      | |- silent (let '(_, _) := ?x in _) => destruct x
      end ].

Lemma silent_global name : silent (global name).
Proof. unfold global. repeat silent_step. Qed.

Lemma silent_send_all cmds : silent (send_all cmds).
Proof. induction cmds; cbn [send_all]; repeat silent_step. Qed.

Lemma silent_wait_ready fuel start : silent (wait_ready fuel start).
Proof.
  induction fuel; cbn [wait_ready]; repeat silent_step.
Qed.

Lemma silent_read_loop fuel start output : silent (read_loop fuel start output).
Proof.
  revert output. induction fuel; intros output; cbn [read_loop];
    repeat silent_step.
Qed.

Lemma silent_print_all errs : silent (print_all errs).
Proof. induction errs; cbn [print_all]; repeat silent_step. Qed.

#[local] Hint Resolve silent_global silent_send_all silent_wait_ready
  silent_read_loop silent_print_all : silent.

Lemma silent_ssh_connect : silent ssh_connect.
Proof. unfold ssh_connect, _init_shell. repeat silent_step. Qed.

#[local] Hint Resolve silent_ssh_connect : silent.

Lemma silent_get_remote_info cmd : silent (get_remote_info cmd).
Proof.
  unfold get_remote_info, try_command, command_body, command_failed.
  repeat silent_step.
Qed.

#[local] Hint Resolve silent_get_remote_info : silent.

Lemma silent_collect : silent collect.
Proof.
  unfold collect, get_cpu_info, get_mem_info, get_gpu_info, get_xpu_info,
    get_processes.
  repeat silent_step.
Qed.

Lemma poll_cycle_cases st :
  (exists data st1, collect st = (Ret data, st1)
     /\ poll_cycle st = (Ret true, after_put st1 (Some data)))
  \/ (exists e st1, collect st = (Raise e, st1)
     /\ poll_cycle st = (Ret false, after_put st1 None))
  \/ (exists st1, collect st = (Blocked, st1)
     /\ poll_cycle st = (Blocked, st1)).
Proof.
  unfold poll_cycle, try_catch, bind, queue_put, get_self, ret.
  destruct (collect st) as [[data|e|] st1].
  - left. exists data, st1. split; [reflexivity|].
    destruct st1 as [[xm xs xc xr] [xn xcl xo xe xi xp xt]]. reflexivity.
  - right; left. exists e, st1. split; [reflexivity|].
    destruct st1 as [[xm xs xc xr] [xn xcl xo xe xi xp xt]]. reflexivity.
  - right; right. exists st1. split; reflexivity.
Qed.

Lemma published_after_put st data :
  published (world (after_put st data))
  = published (world st) ++ [(m_host (machine (self st)), data)]
  /\ machine (self (after_put st data)) = machine (self st)
  /\ refresh_interval (self (after_put st data)) = refresh_interval (self st).
Proof.
  destruct st as [[xm xs xc xr] [xn xcl xo xe xi xp xt]].
  unfold after_put, emit, published, in_world, add_trace.
  cbn [snd world trace self machine].
  rewrite published_app. repeat split.
Qed.

Lemma published_after_sleep st :
  published (world (after_sleep st)) = published (world st)
  /\ machine (self (after_sleep st)) = machine (self st).
Proof.
  destruct st as [[xm xs xc xr] [xn xcl xo xe xi xp xt]].
  unfold after_sleep, emit, published, in_world, add_trace.
  cbn [snd world trace self machine].
  rewrite published_app, app_nil_r. split; reflexivity.
Qed.

Lemma monitor_loop_step n st :
  monitor_loop (S n) st
  = match poll_cycle st with
    | (Ret true, st') => monitor_loop n (after_sleep st')
    | (Ret false, st') => (Ret Stopped, st')
    | (Raise e, st') => (Raise e, st')
    | (Blocked, st') => (Blocked, st')
    end.
Proof.
  cbn [monitor_loop]. unfold bind at 1.
  destruct (poll_cycle st) as [[[|]|e|] st']; reflexivity.
Qed.

(** What a run of the loop publishes. *)
Lemma monitor_loop_events n : forall st,
  exists evs,
    published (world (monitor_loop n st).2) = published (world st) ++ evs
    /\ machine (self (monitor_loop n st).2) = machine (self st)
    /\ match (monitor_loop n st).1 with
       | Ret StillPolling => length evs = n /\ Forall with_data evs
       | Ret Stopped =>
           exists good,
             evs = good ++ [(m_host (machine (self st)), None)]
             /\ Forall with_data good
       | Raise _ => False
       | Blocked => (length evs < n)%nat /\ Forall with_data evs
       end.
Proof.
  induction n as [|n IH]; intros st.
  - exists []. cbn. rewrite app_nil_r. repeat split. constructor.
  - rewrite monitor_loop_step.
    destruct (silent_collect st) as (Hp & Hm & Hr).
    destruct (poll_cycle_cases st)
      as [(data & st1 & Hc & ->)|[(e & st1 & Hc & ->)|(st1 & Hc & ->)]];
      rewrite Hc in Hp, Hm, Hr; cbn [snd] in Hp, Hm, Hr.
    + destruct (published_after_put st1 (Some data)) as (Hq & Hqm & _).
      destruct (published_after_sleep (after_put st1 (Some data))) as (Hs & Hsm).
      destruct (IH (after_sleep (after_put st1 (Some data))))
        as (evs & He & Hem & Hcase).
      exists ((m_host (machine (self st)), Some data) :: evs).
      split; [|split].
      * rewrite He, Hs, Hq, Hp, Hm, <- app_assoc. reflexivity.
      * rewrite Hem, Hsm, Hqm, Hm. reflexivity.
      * destruct (monitor_loop n _).1 as [[|]| |].
        -- destruct Hcase as (good & -> & Hgood).
           exists ((m_host (machine (self st)), Some data) :: good).
           rewrite Hsm, Hqm, Hm. split; [reflexivity|].
           constructor; [intros H; discriminate H|exact Hgood].
        -- destruct Hcase as [Hlen Hall]. split; [simpl; lia|].
           constructor; [intros H; discriminate H|exact Hall].
        -- exact Hcase.
        -- destruct Hcase as [Hlen Hall]. split; [simpl; lia|].
           constructor; [intros H; discriminate H|exact Hall].
    + destruct (published_after_put st1 None) as (Hq & Hqm & _).
      exists [(m_host (machine (self st)), None)]. cbn [fst snd].
      split; [|split].
      * rewrite Hq, Hp, Hm. reflexivity.
      * rewrite Hqm, Hm. reflexivity.
      * exists []. split; [reflexivity|constructor].
    + exists []. cbn [fst snd]. rewrite app_nil_r.
      split; [exact Hp|split; [exact Hm|]].
      split; [simpl; lia|constructor].
Qed.

Lemma guarded_ret {A} (a : A) : guarded (ret a).
Proof. intros st e st' H. discriminate H. Qed.

Lemma guarded_bind {A B} (c : M A) (k : A -> M B) :
  guarded c -> (forall a, guarded (k a)) -> guarded (bind c k).
Proof.
  intros Hc Hk st e st'. unfold bind.
  destruct (c st) as [[a|e0|] st1] eqn:E.
  - apply Hk.
  - intros H. injection H as -> ->. eapply Hc, E.
  - intros H. discriminate H.
Qed.

Lemma guarded_try_command cmd : guarded (try_command cmd).
Proof.
  intros st e st'. unfold try_command, try_catch.
  destruct (command_body cmd st) as [[a|e0|] st1]; intros H; discriminate H.
Qed.

Lemma guarded_ssh_connect : guarded ssh_connect.
Proof. intros st e st' H. exists st. exact H. Qed.

Lemma guarded_get_remote_info cmd : guarded (get_remote_info cmd).
Proof.
  unfold get_remote_info.
  apply guarded_bind; [intros st e st' H; discriminate H|intros o].
  apply guarded_bind.
  - destruct (connected o); [apply guarded_ret|apply guarded_ssh_connect].
  - intros ok. destruct ok; cbn [negb];
      [apply guarded_try_command|apply guarded_ret].
Qed.

Lemma guarded_now : guarded now.
Proof.
  intros st e st'. unfold now. destruct (clock (world st)); intros H; discriminate H.
Qed.

Lemma guarded_print_all errs : guarded (print_all errs).
Proof.
  induction errs as [|x errs IH]; cbn [print_all]; [apply guarded_ret|].
  apply guarded_bind; [intros st e st' H; discriminate H|intros _; exact IH].
Qed.

Lemma guarded_collect : guarded collect.
Proof.
  unfold collect, get_cpu_info, get_mem_info, get_gpu_info, get_xpu_info,
    get_processes.
  repeat first
    [ apply guarded_ret
    | apply guarded_get_remote_info
    | apply guarded_now
    | apply guarded_print_all
    | apply guarded_bind; [|intros ?]
    | match goal with
      | |- guarded get_self => intros st e st' H; discriminate H
      | |- guarded (if ?b then _ else _) => destruct b
      | |- guarded (let '(_, _) := ?x in _) => destruct x
      end ].
Qed.

Lemma print_all_returns errs st :
  print_all errs st = (Ret tt, (print_all errs st).2).
Proof.
  revert st. induction errs as [|e errs IH]; intros st; [reflexivity|].
  cbn [print_all]. unfold bind at 1 2.
  destruct (emit (EvPrint (MsgXpuFailed e)) st) as [[[]|e0|] st1] eqn:E;
    try discriminate E.
  apply IH.
Qed.

(** The collection is made of its four calls of [get_remote_info] and a
    reading of the clock: when those return, whatever texts they return, it
    returns the snapshot that the parsers make of the texts. *)
Lemma collect_of_outputs st o1 st1 o2 st2 o3 st3 o4 st4 ts st5 :
  get_remote_info cpu_cmd st = (Ret o1, st1) ->
  get_remote_info mem_cmd st1 = (Ret o2, st2) ->
  get_remote_info (device_cmd (machine (self st))) st2 = (Ret o3, st3) ->
  get_remote_info ps_cmd (after_device_messages (machine (self st)) o3 st3)
  = (Ret o4, st4) ->
  now st4 = (Ret ts, st5) ->
  collect st
  = (Ret (snapshot_of_outputs (machine (self st)) o1 o2 o3 o4 ts), st5).
Proof.
  intros E1 E2 E3 E4 E5.
  destruct (silent_get_remote_info cpu_cmd st) as (_ & Hm1 & _).
  destruct (silent_get_remote_info mem_cmd st1) as (_ & Hm2 & _).
  rewrite E1 in Hm1. rewrite E2 in Hm2. cbn [snd] in Hm1, Hm2.
  unfold collect, get_cpu_info, get_mem_info.
  unfold bind at 1. unfold bind at 1. rewrite E1. unfold ret at 1.
  unfold bind at 1. unfold bind at 1. rewrite E2. unfold ret at 1.
  unfold bind at 1. unfold get_self at 1. cbv iota beta.
  rewrite Hm2, Hm1.
  unfold device_cmd, after_device_messages, snapshot_of_outputs in *.
  destruct (String.eqb (m_type (machine (self st))) "GPU").
  - unfold get_gpu_info, get_processes.
    unfold bind at 1. unfold bind at 1. rewrite E3. unfold ret at 1.
    unfold bind at 1. unfold bind at 1. rewrite E4. unfold ret at 1.
    unfold bind at 1. rewrite E5. reflexivity.
  - unfold get_xpu_info, get_processes.
    unfold bind at 1. unfold bind at 1. rewrite E3.
    destruct (parse_xpu o3) as [xpus errs]. cbn [fst snd] in *.
    unfold bind at 1. rewrite print_all_returns. unfold ret at 1.
    unfold bind at 1. unfold bind at 1. rewrite E4. unfold ret at 1.
    unfold bind at 1. rewrite E5. reflexivity.
Qed.

(** C3, as amended: a poll cycle ends in one of three ways.  When the
    collection returns, the cycle publishes its snapshot and the polling
    goes on after the sleep; the collection returns whenever its four calls
    of [get_remote_info] and the reading of the clock return, be it with
    output or with the empty string of a failed command, for which the
    parsers give their fallback values.  When an exception escapes the
    collection, which only a reconnect attempt can raise, the cycle
    publishes the absent event and the loop stops: that event is the last
    of the host.  When a read of the channel never returns, the cycle hangs:
    nothing is published, neither a snapshot nor the absent event, and the
    loop does not go on.  Over a run of the loop the events published are
    snapshots, but for the one absent event at the end of a run that has
    stopped, and the loop lets no exception out. *)
Theorem monitor_loop_absent_event_is_final :
  (forall n st,
      exists evs,
        published (world (monitor_loop n st).2) = published (world st) ++ evs
        /\ match (monitor_loop n st).1 with
           | Ret StillPolling => length evs = n /\ Forall with_data evs
           | Ret Stopped =>
               exists good,
                 evs = good ++ [(m_host (machine (self st)), None)]
                 /\ Forall with_data good
           | Raise _ => False
           | Blocked => (length evs < n)%nat /\ Forall with_data evs
           end)
  /\ (forall st st',
        poll_cycle st = (Ret false, st') <->
        exists e st1, collect st = (Raise e, st1) /\ st' = after_put st1 None)
  /\ (forall st e st1,
        collect st = (Raise e, st1) ->
        exists st0, ssh_connect st0 = (Raise e, st1))
  /\ (forall n st st',
        poll_cycle st = (Ret false, st') ->
        monitor_loop (S n) st = (Ret Stopped, st'))
  /\ (forall st data st1,
        collect st = (Ret data, st1) ->
        poll_cycle st = (Ret true, after_put st1 (Some data))
        /\ published (world (after_put st1 (Some data)))
           = published (world st) ++ [(m_host (machine (self st)), Some data)]
        /\ forall n,
             monitor_loop (S n) st
             = monitor_loop n (after_sleep (after_put st1 (Some data))))
  /\ (forall st st1,
        collect st = (Blocked, st1) ->
        poll_cycle st = (Blocked, st1)
        /\ published (world st1) = published (world st)
        /\ forall n, monitor_loop (S n) st = (Blocked, st1))
  /\ (forall st o1 st1 o2 st2 o3 st3 o4 st4 ts st5,
        get_remote_info cpu_cmd st = (Ret o1, st1) ->
        get_remote_info mem_cmd st1 = (Ret o2, st2) ->
        get_remote_info (device_cmd (machine (self st))) st2 = (Ret o3, st3) ->
        get_remote_info ps_cmd
          (after_device_messages (machine (self st)) o3 st3) = (Ret o4, st4) ->
        now st4 = (Ret ts, st5) ->
        collect st
        = (Ret (snapshot_of_outputs (machine (self st)) o1 o2 o3 o4 ts), st5))
  /\ (forall m ts, snapshot_of_outputs m "" "" "" "" ts = fallback_snapshot ts).
Proof.
  split; [|split; [|split; [|split; [|split; [|split; [|split]]]]]].
  - intros n st. destruct (monitor_loop_events n st) as (evs & H1 & _ & H3).
    exists evs. split; assumption.
  - intros st st'. split.
    + intros H.
      destruct (poll_cycle_cases st)
        as [(data & st1 & Hc & E)|[(e & st1 & Hc & E)|(st1 & Hc & E)]];
        rewrite E in H; try discriminate H.
      injection H as <-. exists e, st1. split; [exact Hc|reflexivity].
    + intros (e & st1 & Hc & ->).
      destruct (poll_cycle_cases st)
        as [(data & st2 & Hc2 & E)|[(e2 & st2 & Hc2 & E)|(st2 & Hc2 & E)]];
        rewrite Hc in Hc2; try discriminate Hc2.
      injection Hc2 as -> ->. exact E.
  - intros st e st1 H. exact (guarded_collect st e st1 H).
  - intros n st st' H. rewrite monitor_loop_step, H. reflexivity.
  - intros st data st1 Hc.
    destruct (poll_cycle_cases st)
      as [(data2 & st2 & Hc2 & E)|[(e2 & st2 & Hc2 & E)|(st2 & Hc2 & E)]];
      rewrite Hc in Hc2; try discriminate Hc2.
    injection Hc2 as <- <-.
    split; [exact E|]. split.
    + destruct (published_after_put st1 (Some data)) as (Hq & _).
      destruct (silent_collect st) as (Hs & Hm & _).
      rewrite Hc in Hs, Hm. cbn [snd] in Hs, Hm.
      rewrite Hq, Hs, Hm. reflexivity.
    + intros n. rewrite monitor_loop_step, E. reflexivity.
  - intros st st1 Hc.
    destruct (poll_cycle_cases st)
      as [(data2 & st2 & Hc2 & E)|[(e2 & st2 & Hc2 & E)|(st2 & Hc2 & E)]];
      rewrite Hc in Hc2; try discriminate Hc2.
    injection Hc2 as <-.
    split; [exact E|]. split.
    + destruct (silent_collect st) as (Hs & _).
      rewrite Hc in Hs. exact Hs.
    + intros n. rewrite monitor_loop_step, E. reflexivity.
  - intros. eapply collect_of_outputs; eassumption.
  - intros m ts. unfold snapshot_of_outputs, fallback_snapshot.
    destruct (String.eqb (m_type m) "GPU"); reflexivity.
Qed.

(** C3, as stated, fails: the host answered a full cycle, the connection
    dropped in the second one, the cycle published the absent event, and the
    loop stopped there although it was allowed five turns. *)
Lemma dropped_host_is_not_polled_again :
  (monitor_loop 5 dropped_session).1 = Ret Stopped
  /\ published (world (monitor_loop 5 dropped_session).2)
     = [("10.0.0.1", Some (healthy_snapshot 12)); ("10.0.0.1", None)]
  /\ (monitor_loop 5 dropped_session).1 <> Ret StillPolling.
Proof.
  vm_compute. repeat split. intros H. discriminate H.
Qed.

(** Commands that fail by their exit code do not end the polling: the cycle
    publishes a snapshot with the fallback values and the loop goes on. *)
Example failing_commands_are_absorbed :
  (monitor_loop 2 degraded_session).1 = Ret StillPolling
  /\ published (world (monitor_loop 2 degraded_session).2)
     = [("10.0.0.1", Some (healthy_snapshot 12));
        ("10.0.0.1", Some (fallback_snapshot 21))].
Proof. vm_compute. split; reflexivity. Qed.

(** A host that falls silent does not end the polling either, nor does it
    let it go on: the second cycle hangs in its first read, and the events
    published are those of the first cycle, for ever. *)
Example silent_host_hangs :
  (monitor_loop 5 silent_session).1 = Blocked
  /\ published (world (monitor_loop 5 silent_session).2)
     = [("10.0.0.1", Some (healthy_snapshot 12))].
Proof. vm_compute. split; reflexivity. Qed.

(** A cycle all of whose commands run out of time, the clock being read
    after the ten seconds, is absorbed like one whose commands fail. *)
Example timed_out_commands_are_absorbed :
  (monitor_loop 2 stalling_session).1 = Ret StillPolling
  /\ published (world (monitor_loop 2 stalling_session).2)
     = [("10.0.0.1", Some (healthy_snapshot 12));
        ("10.0.0.1", Some (fallback_snapshot 100))].
Proof. vm_compute. split; reflexivity. Qed.

(** *** Collecting twice *)

Lemma within_in_time base t0 t :
  within base t0 -> within base t -> in_time t0 10 t.
Proof.
  intros [H1 H2] [H3 H4]. unfold in_time, Qltb.
  apply negb_true_iff. destruct (Qle_bool 10 (t - t0)) eqn:E; [|reflexivity].
  apply Qle_bool_iff in E. lra.
Qed.

(** Readings that all fall in one window of ten seconds are in step with
    any replies they are enough for. *)
Lemma within_in_step base rs : forall c spare,
  Forall (within base) c ->
  (replies_ticks rs + spare <= length c)%nat ->
  exists rest, in_step rs c rest /\ (spare <= length rest)%nat.
Proof.
  induction rs as [|r rs IH]; intros c spare Hw Hlen.
  - exists c. split; [reflexivity|cbn in Hlen; lia].
  - change (replies_ticks (r :: rs))
      with (reply_ticks r + replies_ticks rs)%nat in Hlen.
    unfold reply_ticks in Hlen. set (n := length (reply_lines r)) in *.
    destruct c as [|t0 c]; [cbn in Hlen; lia|]. cbn [length] in Hlen.
    inversion Hw as [|? ? Hw0 Hw']; subst.
    destruct (skipn n c) as [|t c'] eqn:Hd.
    { apply (f_equal length) in Hd. rewrite length_drop in Hd.
      simpl in Hd. lia. }
    assert (Hsplit : c = firstn n c ++ t :: c').
    { rewrite <- Hd. symmetry. apply take_drop. }
    assert (Hwr : Forall (within base) (t :: c')).
    { rewrite <- Hd. apply Forall_drop, Hw'. }
    inversion Hwr as [|? ? Hwt Hwc]; subst.
    destruct (IH c' spare Hwc) as (rest & Hstep & Hsp).
    { apply (f_equal length) in Hsplit.
      rewrite length_app, length_take in Hsplit. cbn [length] in Hsplit.
      lia. }
    exists rest. split; [|exact Hsp].
    exists t0, (firstn n c), t, c'.
    split; [f_equal; exact Hsplit|].
    split; [rewrite length_take; fold n; lia|].
    split.
    + eapply Forall_impl; [apply Forall_take, Hw'|]. intros x Hx.
      apply (within_in_time base); assumption.
    + split; [apply (within_in_time base); assumption|exact Hstep].
Qed.

Lemma get_remote_info_reply cmd st r rs spare :
  well_formed_reply r ->
  serves st (r :: rs) spare ->
  exists st',
    get_remote_info cmd st = (Ret (reply_output r), st')
    /\ serves st' rs spare
    /\ self st' = self st.
Proof.
  intros [Hlines Hsent] (Hconn & [ins Hin] & [rest Ho] & [crest [Hstep Hsp]]).
  cbn [in_step] in Hstep.
  destruct Hstep as (t0 & ts & t & c' & Hc & Hlen & Hts & Ht & Hrest).
  assert (Hbody :
    command_body cmd st
    = if sentinel_code (reply_sentinel r) =? 0
      then (Ret (join NL (kept (reply_lines r))),
            with_io st c' (flat_map reply_reads rs ++ rest)
              (replicate (2 * length rs) None ++ ins)
              (trace (world st) ++ [EvWrite (full_command cmd); EvFlush]))
      else (Ret "",
            with_io st c' (flat_map reply_reads rs ++ rest)
              (replicate (2 * length rs) None ++ ins)
              (trace (world st) ++
               [EvWrite (full_command cmd); EvFlush;
                EvPrint (MsgCmdFailed (sentinel_code (reply_sentinel r))
                           cmd)]))).
  { apply (command_body_sentinel cmd st t0 ts t c').
    - rewrite Hin. cbn [length]. replace (2 * S (length rs))%nat
        with (S (S (2 * length rs))) by lia. reflexivity.
    - exact Hc.
    - exact Hlen.
    - exact Hts.
    - exact Ht.
    - exact Hlines.
    - rewrite Ho. cbn [flat_map]. unfold reply_reads at 1.
      rewrite <- !app_assoc. reflexivity.
    - exact Hsent. }
  rewrite get_remote_info_connected by exact Hconn.
  unfold reply_output.
  destruct (sentinel_code (reply_sentinel r) =? 0);
    (eexists; split; [apply try_command_returns, Hbody|]);
    (split; [|reflexivity]);
    (split; [exact Hconn|]);
    (split; [exists ins; reflexivity|]);
    (split; [exists rest; reflexivity|]);
    (exists crest; split; [exact Hrest|exact Hsp]).
Qed.

Lemma print_all_serves errs st rs spare :
  serves st rs spare ->
  exists st',
    print_all errs st = (Ret tt, st')
    /\ serves st' rs spare /\ self st' = self st.
Proof.
  revert st. induction errs as [|e errs IH]; intros st Hs.
  - exists st. split; [reflexivity|split; [exact Hs|reflexivity]].
  - cbn [print_all]. unfold bind at 1.
    destruct st as [[xm xs xc xr] [xn xcl xo xe xi xp xt]].
    cbv beta iota zeta delta [emit world self].
    apply IH. exact Hs.
Qed.

Lemma now_serves st spare :
  serves st [] (S spare) ->
  exists t st', now st = (Ret t, st') /\ self st' = self st.
Proof.
  intros (_ & _ & _ & [rest [Hstep Hlen]]). unfold now.
  cbn [in_step] in Hstep. rewrite Hstep.
  destruct rest as [|t c]; [cbn in Hlen; lia|].
  eexists _, _. split; reflexivity.
Qed.

(** One collection against the replies to its four commands. *)
Lemma collect_from_replies st r_cpu r_mem r_dev r_ps :
  Forall well_formed_reply [r_cpu; r_mem; r_dev; r_ps] ->
  serves st [r_cpu; r_mem; r_dev; r_ps] 1 ->
  exists ts st',
    collect st
    = (Ret (snapshot_from (machine (self st)) r_cpu r_mem r_dev r_ps ts), st')
    /\ self st' = self st.
Proof.
  intros Hwf Hs.
  inversion Hwf as [|? ? W1 Hwf1]; subst.
  inversion Hwf1 as [|? ? W2 Hwf2]; subst.
  inversion Hwf2 as [|? ? W3 Hwf3]; subst.
  inversion Hwf3 as [|? ? W4 _]; subst.
  destruct (get_remote_info_reply cpu_cmd st _ _ _ W1 Hs) as (st1 & E1 & S1 & F1).
  destruct (get_remote_info_reply mem_cmd st1 _ _ _ W2 S1) as (st2 & E2 & S2 & F2).
  unfold collect, get_cpu_info, get_mem_info.
  unfold bind at 1. unfold bind at 1. rewrite E1. unfold ret at 1.
  unfold bind at 1. unfold bind at 1. rewrite E2. unfold ret at 1.
  unfold bind at 1. unfold get_self at 1.
  assert (Hm : machine (self st2) = machine (self st)) by (rewrite F2, F1; reflexivity).
  rewrite Hm. unfold snapshot_from.
  destruct (String.eqb (m_type (machine (self st))) "GPU").
  - destruct (get_remote_info_reply gpu_cmd st2 _ _ _ W3 S2) as (st3 & E3 & S3 & F3).
    destruct (get_remote_info_reply ps_cmd st3 _ _ _ W4 S3) as (st4 & E4 & S4 & F4).
    destruct (now_serves st4 0 S4) as (ts & st5 & E5 & F5).
    exists ts, st5. split; [|rewrite F5, F4, F3, F2, F1; reflexivity].
    unfold get_gpu_info, get_processes.
    unfold bind at 1. unfold bind at 1. rewrite E3. unfold ret at 1.
    unfold bind at 1. unfold bind at 1. rewrite E4. unfold ret at 1.
    unfold bind at 1. rewrite E5. reflexivity.
  - destruct (get_remote_info_reply xpu_cmd st2 _ _ _ W3 S2) as (st3 & E3 & S3 & F3).
    destruct (parse_xpu (reply_output r_dev)) as [xpus errs] eqn:Ex.
    destruct (print_all_serves errs st3 _ _ S3) as (st3' & E3' & S3' & F3').
    destruct (get_remote_info_reply ps_cmd st3' _ _ _ W4 S3') as (st4 & E4 & S4 & F4).
    destruct (now_serves st4 0 S4) as (ts & st5 & E5 & F5).
    exists ts, st5. split; [|rewrite F5, F4, F3', F3, F2, F1; reflexivity].
    unfold get_xpu_info, get_processes.
    unfold bind at 1. unfold bind at 1. rewrite E3. rewrite Ex.
    unfold bind at 1. rewrite E3'. unfold ret at 1.
    unfold bind at 1. unfold bind at 1. rewrite E4. unfold ret at 1.
    unfold bind at 1. rewrite E5. reflexivity.
Qed.

(** C6, as amended: two collections, from connected sessions of the same
    host whose channel holds, from its first unread line on, the same
    replies to the four commands, each reply read to its sentinel within
    the ten seconds of its command, both return a snapshot, and the two
    snapshots agree on [cpu], [mem], [devices] and [processes]; only the
    time stamp may differ.  The cycles may take any time as a whole.  A
    collection leaves the session object as it found it, so the second one
    may start from the state the first one ends in. *)
Theorem collect_twice_same_fields st1 st2 r_cpu r_mem r_dev r_ps :
  Forall well_formed_reply [r_cpu; r_mem; r_dev; r_ps] ->
  machine (self st1) = machine (self st2) ->
  serves st1 [r_cpu; r_mem; r_dev; r_ps] 1 ->
  serves st2 [r_cpu; r_mem; r_dev; r_ps] 1 ->
  exists s1 s2 st1' st2',
    collect st1 = (Ret s1, st1')
    /\ collect st2 = (Ret s2, st2')
    /\ cpu s1 = cpu s2
    /\ mem s1 = mem s2
    /\ devices s1 = devices s2
    /\ processes s1 = processes s2
    /\ self st1' = self st1
    /\ self st2' = self st2.
Proof.
  intros Hwf Hm H1 H2.
  destruct (collect_from_replies st1 _ _ _ _ Hwf H1) as (ts1 & st1' & E1 & F1).
  destruct (collect_from_replies st2 _ _ _ _ Hwf H2) as (ts2 & st2' & E2 & F2).
  eexists _, _, st1', st2'. split; [exact E1|]. split; [exact E2|].
  unfold snapshot_from. cbn [cpu mem devices processes]. rewrite Hm.
  repeat split; assumption.
Qed.

Lemma healthy_replies_well_formed : Forall well_formed_reply healthy_replies.
Proof.
  repeat constructor; right; reflexivity.
Qed.

Lemma first_run_serves : serves first_run healthy_replies 1.
Proof.
  split; [reflexivity|]. split; [exists []; reflexivity|].
  split; [exists []; reflexivity|].
  apply (within_in_step 0%Q); [|vm_compute; lia].
  repeat constructor; vm_compute; congruence.
Qed.

Ltac reply_in_step :=
  cbn [in_step];
  match goal with
  | |- exists t0 ts t c', ?a :: ?b :: ?c :: ?r = _ /\ _ =>
      exists a, [b], c, r;
      split; [reflexivity|];
      split; [reflexivity|];
      split; [repeat constructor|];
      split; [reflexivity|]
  end.

Lemma second_run_serves : serves second_run healthy_replies 1.
Proof.
  split; [reflexivity|]. split; [exists []; reflexivity|].
  split; [exists []; reflexivity|].
  exists [136%Q]. split; [|cbn; lia].
  unfold second_run, connected_session, sample_world, slow_ticks,
    healthy_replies.
  cbn [clock world]. repeat reply_in_step. reflexivity.
Qed.

Lemma collect_twice_witness :
  exists s1 s2 st1' st2',
    collect first_run = (Ret s1, st1')
    /\ collect second_run = (Ret s2, st2')
    /\ cpu s1 = cpu s2
    /\ mem s1 = mem s2
    /\ devices s1 = devices s2
    /\ processes s1 = processes s2
    /\ self st1' = self first_run
    /\ self st2' = self second_run.
Proof.
  apply (collect_twice_same_fields first_run second_run
           (reply_of "12.5") (reply_of "16000000000 8000000000")
           (reply_of "0, 1024, 8192, 50, 60, 120.5")
           (reply_of "1 root 0.5 0.1 systemd")).
  - exact healthy_replies_well_formed.
  - reflexivity.
  - exact first_run_serves.
  - exact second_run_serves.
Defined.

(** The two runs, computed: same fields, other time stamps. *)
Example collect_twice_computed :
  (collect first_run).1 = Ret (healthy_snapshot 3)
  /\ (collect second_run).1 = Ret (healthy_snapshot 136).
Proof. vm_compute. split; reflexivity. Qed.

(** C6, as stated, fails: the same host sends the same lines, but the run
    that looks at the clock too late gives up its first command and from
    then on takes every reply for the answer to the next command; its
    snapshot differs from that of the run in time in all four fields. *)
Lemma same_lines_read_late_differ :
  stdout (world late_run) = stdout (world first_run)
  /\ self late_run = self first_run
  /\ exists s1 s2,
       (collect first_run).1 = Ret s1
       /\ (collect late_run).1 = Ret s2
       /\ cpu s1 <> cpu s2
       /\ mem s1 <> mem s2
       /\ devices s1 <> devices s2
       /\ processes s1 <> processes s2.
Proof.
  split; [reflexivity|]. split; [reflexivity|].
  eexists _, _. split; [vm_compute; reflexivity|].
  split; [vm_compute; reflexivity|].
  repeat split; intros H; discriminate H.
Qed.

(** What the late run returns: no CPU figure, no memory figures, no device,
    and the line of the GPU taken for a process. *)
Example late_run_computed :
  (collect late_run).1
  = Ret {| cpu := PyFloat.zero; mem := mem_fallback; devices := [];
           processes := [["0,"; "1024,"; "8192,"; "50,"; "60, 120.5"]];
           timestamp := 21 |}.
Proof. vm_compute. reflexivity. Qed.

(** The collection run again in the state the first run leaves. *)
Example collect_rerun_computed :
  (collect both_runs).1 = Ret (healthy_snapshot 3)
  /\ (collect (collect both_runs).2).1 = Ret (healthy_snapshot 103).
Proof. vm_compute. split; reflexivity. Qed.

(** *** The exit status of a command *)

(** X7: A command whose output and sentinel arrive in time: with exit status 0
    the call returns the output lines, stripped and joined by newlines, and
    prints nothing; with any other status it returns the empty string and the
    message carries that status. The session is left as it was. *)
Theorem get_remote_info_reads_exit_status
    cmd st t0 ts t crest pre status rest ins :
  connected (self st) = true ->
  stdin (world st) = None :: None :: ins ->
  clock (world st) = t0 :: ts ++ t :: crest ->
  length ts = length pre ->
  Forall (in_time t0 10) ts -> in_time t0 10 t ->
  Forall output_line pre ->
  stdout (world st) = map RdLine pre ++ RdLine (sentinel_line status) :: rest ->
  get_remote_info cmd st
  = (Ret (if status =? 0 then join NL (kept pre) else ""),
     with_io st crest rest ins
       (trace (world st) ++
        [EvWrite (full_command cmd); EvFlush] ++
        (if status =? 0 then [] else [EvPrint (MsgCmdFailed status cmd)]))).
Proof.
  intros Hconn Hin Hc Hlen Hts Ht Hpre Ho.
  rewrite get_remote_info_connected by exact Hconn.
  pose proof (command_body_sentinel cmd st t0 ts t crest pre
                (sentinel_line status) rest ins
                Hin Hc Hlen Hts Ht Hpre Ho (ParseFacts.sentinel_line_found status))
    as Hbody.
  unfold sentinel_line, SENTINEL in Hbody.
  rewrite ParseFacts.sentinel_code_echo in Hbody.
  apply try_command_returns. rewrite Hbody.
  destruct (status =? 0); reflexivity.
Qed.

Lemma get_remote_info_reads_exit_status_witness :
  get_remote_info "ls" succeeding_session
  = (Ret ("first" +:+ NL +:+ "second"),
     with_io succeeding_session [] [] []
       [EvWrite (full_command "ls"); EvFlush]).
Proof.
  apply (get_remote_info_reads_exit_status "ls" succeeding_session
           0%Q [1; 2]%Q 3%Q [] ["  first" +:+ NL; "second  " +:+ NL] 0 [] []).
  - reflexivity.
  - reflexivity.
  - reflexivity.
  - reflexivity.
  - repeat constructor.
  - reflexivity.
  - repeat constructor; right; reflexivity.
  - reflexivity.
Defined.

(** *** A pipe that breaks *)

(** X8: When the write to the ssh process raises, [get_remote_info] lets no
    exception out: it prints the message, marks the session as not connected
    and returns the empty string, having sent nothing. The next call on that
    session starts with [ssh_connect]. *)
Theorem get_remote_info_pipe_error_disconnects cmd st e ins :
  connected (self st) = true ->
  stdin (world st) = Some e :: ins ->
  get_remote_info cmd st = (Ret "", after_pipe_error st e ins)
  /\ connected (self (after_pipe_error st e ins)) = false
  /\ (forall next,
        get_remote_info next (after_pipe_error st e ins)
        = bind ssh_connect
            (fun ok => if negb ok then ret "" else try_command next)
            (after_pipe_error st e ins)).
Proof.
  intros Hconn Hin.
  destruct st as [[m s c r] [nm cl so se si p tr]].
  cbn [self world connected stdin] in Hconn, Hin. subst c si.
  split; [|split].
  - unfold get_remote_info, try_command, try_catch, command_body,
      command_failed, after_pipe_error.
    run_prims. reflexivity.
  - reflexivity.
  - intros next. reflexivity.
Qed.

Lemma get_remote_info_pipe_error_witness :
  get_remote_info "ls" broken_session
  = (Ret "", after_pipe_error broken_session OSError [])
  /\ connected (self (after_pipe_error broken_session OSError [])) = false
  /\ (forall next,
        get_remote_info next (after_pipe_error broken_session OSError [])
        = bind ssh_connect
            (fun ok => if negb ok then ret "" else try_command next)
            (after_pipe_error broken_session OSError [])).
Proof.
  apply (get_remote_info_pipe_error_disconnects "ls" broken_session OSError []).
  - reflexivity.
  - reflexivity.
Defined.

(** *** The handshake *)

Lemma wait_ready_prefix start pre :
  forall ts fuel st c2 o2,
    length ts = length pre ->
    Forall (in_time start 3) ts ->
    Forall not_ready pre ->
    clock (world st) = ts ++ c2 ->
    stdout (world st) = map RdLine pre ++ o2 ->
    wait_ready (length pre + fuel) start st
    = wait_ready fuel start
        (with_io st c2 o2 (stdin (world st)) (trace (world st))).
Proof.
  induction pre as [|l pre IH]; intros ts fuel st c2 o2 Hlen Ht Hl Hc Ho.
  - destruct ts; [|discriminate Hlen]. simpl in *.
    destruct st as [o [nm c so se si p tr]]; simpl in *; subst. reflexivity.
  - destruct ts as [|t ts]; [discriminate Hlen|].
    inversion Ht as [|? ? Ht1 Ht2]; subst.
    inversion Hl as [|? ? Hl1 Hl2]; subst.
    destruct st as [o [nm c so se si p tr]]; simpl in Hc, Ho; subst.
    change (length (l :: pre) + fuel)%nat with (S (length pre + fuel)).
    cbn [wait_ready]. run_prims. cbn [app map].
    unfold in_time in Ht1. rewrite Ht1. unfold not_ready in Hl1. rewrite Hl1.
    erewrite IH; [|injection Hlen; intros E; exact E|exact Ht2|exact Hl2
                  |reflexivity|reflexivity].
    reflexivity.
Qed.

Lemma wait_ready_ends start fuel st t c o o' r :
  clock (world st) = t :: c ->
  stdout (world st) = o ->
  wait_ends start t o o' r ->
  wait_ready (S fuel) start st
  = (r, with_io st c o' (stdin (world st)) (trace (world st))).
Proof.
  intros Hc Ho Hend.
  destruct st as [ob [nm c0 so se si p tr]]; simpl in Hc, Ho; subst.
  cbn [wait_ready]. run_prims.
  destruct Hend as [(Ht & -> & ->)
                   |(Ht & [(ready & -> & Hr & ->)
                          |[(e & -> & ->)|(-> & -> & ->)]])].
  - rewrite Ht. reflexivity.
  - unfold in_time in Ht. rewrite Ht. run_prims. rewrite Hr. reflexivity.
  - unfold in_time in Ht. rewrite Ht. run_prims. reflexivity.
  - unfold in_time in Ht. rewrite Ht. run_prims. reflexivity.
Qed.

(** X9: [_init_shell] sends its four commands and then waits for the marker,
    looking at the clock before every read.  After the lines [pre] without
    the marker, each read in time, the wait ends as [wait_ends] says.  It
    returns in the same way when the marker came and when the clock was read
    after the three seconds: the caller cannot tell a shell that is ready
    from one that was not.  While the three seconds are not over, a read
    that raises makes [_init_shell] raise, and a channel that has nothing to
    give blocks it: the three seconds do not bound a read. *)
Theorem init_shell_returns_ready_or_not st t0 ts t crest pre o o' r ins :
  stdin (world st) = replicate 8 None ++ ins ->
  clock (world st) = t0 :: ts ++ t :: crest ->
  length ts = length pre ->
  Forall (in_time t0 3) ts ->
  Forall not_ready pre ->
  stdout (world st) = map RdLine pre ++ o ->
  wait_ends t0 t o o' r ->
  _init_shell st
  = (r, with_io st crest o' ins (trace (world st) ++ init_writes)).
Proof.
  intros Hin Hc Hlen Hts Hpre Ho Hend.
  destruct st as [ob [nm c0 so se si p tr]]; simpl in Hin, Hc, Ho; subst.
  unfold _init_shell, init_commands. cbn [send_all replicate app].
  run_prims. cbn [app].
  replace (S (length (ts ++ t :: crest)))
    with (length pre + S (S (length crest)))%nat
    by (rewrite length_app; simpl; lia).
  erewrite wait_ready_prefix; [|exact Hlen|exact Hts|exact Hpre
                               |reflexivity|reflexivity].
  erewrite wait_ready_ends; [|reflexivity|reflexivity|exact Hend].
  unfold init_writes, init_commands. cbn [flat_map app].
  rewrite <- !app_assoc. reflexivity.
Qed.

Lemma init_shell_returns_witness :
  _init_shell mute_shell
  = (Ret tt, with_io mute_shell [] [] [] init_writes).
Proof.
  apply (init_shell_returns_ready_or_not mute_shell 0%Q [1%Q] 4%Q []
           ["Welcome" +:+ NL] [] [] (Ret tt) []).
  - reflexivity.
  - reflexivity.
  - reflexivity.
  - repeat constructor.
  - repeat constructor.
  - reflexivity.
  - left. repeat split; reflexivity.
Defined.

(** The shell that never answers: [_init_shell] does not return, although
    the clock would show a minute at its next reading. *)
Example init_shell_silent_shell :
  _init_shell silent_shell
  = (Blocked, with_io silent_shell [60%Q] [] [] init_writes).
Proof. vm_compute. reflexivity. Qed.

(** The shell without a readable output: [_init_shell] raises at its first
    read. *)
Example init_shell_unreadable_shell :
  (_init_shell unreadable_shell).1 = Raise AttributeError.
Proof. vm_compute. reflexivity. Qed.

(** *** Commands that fail *)

Lemma failed_reply_output r : failed_reply r -> reply_output r = "".
Proof.
  unfold failed_reply, reply_output. intros H.
  destruct (Z.eqb_spec (sentinel_code (reply_sentinel r)) 0); [contradiction|].
  reflexivity.
Qed.

(** X10: A cycle in which all four commands end with an exit code other than
    zero returns a snapshot all the same: CPU 0.0, memory zeros, no devices
    and no processes. A host whose commands fail looks like an idle host
    without devices. *)
Theorem collect_failed_commands_gives_zeros st r_cpu r_mem r_dev r_ps :
  Forall well_formed_reply [r_cpu; r_mem; r_dev; r_ps] ->
  Forall failed_reply [r_cpu; r_mem; r_dev; r_ps] ->
  serves st [r_cpu; r_mem; r_dev; r_ps] 1 ->
  exists ts st',
    collect st = (Ret (fallback_snapshot ts), st').
Proof.
  intros Hwf Hf Hs.
  destruct (collect_from_replies st _ _ _ _ Hwf Hs) as (ts & st' & E & _).
  exists ts, st'. rewrite E. f_equal. f_equal.
  inversion Hf as [|? ? F1 Hf1]; subst.
  inversion Hf1 as [|? ? F2 Hf2]; subst.
  inversion Hf2 as [|? ? F3 Hf3]; subst.
  inversion Hf3 as [|? ? F4 _]; subst.
  unfold snapshot_from, fallback_snapshot.
  rewrite !failed_reply_output by assumption.
  destruct (String.eqb (m_type (machine (self st))) "GPU"); reflexivity.
Qed.

Lemma collect_failed_commands_witness :
  exists ts st', collect failing_host = (Ret (fallback_snapshot ts), st').
Proof.
  apply (collect_failed_commands_gives_zeros failing_host
           {| reply_lines := ["No such file" +:+ NL];
              reply_sentinel := sentinel_line 127 |}
           {| reply_lines := ["No such file" +:+ NL];
              reply_sentinel := sentinel_line 127 |}
           {| reply_lines := ["No such file" +:+ NL];
              reply_sentinel := sentinel_line 127 |}
           {| reply_lines := ["No such file" +:+ NL];
              reply_sentinel := sentinel_line 127 |}).
  - repeat constructor; right; reflexivity.
  - repeat constructor; vm_compute; intros H; discriminate H.
  - split; [reflexivity|]. split; [exists []; reflexivity|].
    split; [exists []; reflexivity|].
    apply (within_in_step 0%Q); [|vm_compute; lia].
    repeat constructor; vm_compute; congruence.
Defined.

(** *** After a disconnect *)

(** X11: In the module as written, a poll cycle on a session that is marked as
    not connected cannot reconnect: the attempt stops at the name [os], the
    cycle publishes the absent event and the polling loop ends. *)
Theorem poll_cycle_after_disconnect_stops st :
  as_written (world st) ->
  connected (self st) = false ->
  (ssh (self st) = None \/ polls (world st) <> []) ->
  exists st',
    poll_cycle st = (Ret false, st')
    /\ published (world st')
       = published (world st) ++ [(m_host (machine (self st)), None)]
    /\ forall n, monitor_loop (S n) st = (Ret Stopped, st').
Proof.
  intros Hw Hconn Hp.
  assert (Hraise : exists st1, collect st = (Raise NameError, st1)).
  { destruct st as [[m s c r] [nm cl so se si p tr]].
    unfold as_written in Hw. cbn [self world names connected ssh polls] in *.
    subst nm c.
    unfold collect, get_cpu_info, get_remote_info, ssh_connect, global.
    run_prims.
    destruct s as [h|].
    - destruct Hp as [Hp|Hp]; [discriminate Hp|].
      unfold poll. run_prims. destruct p as [|[z|] p]; [congruence| |];
        cbn; eexists; reflexivity.
    - cbn. eexists. reflexivity. }
  destruct Hraise as (st1 & Hc).
  destruct (poll_cycle_cases st)
    as [(data & st2 & Hc2 & E)|[(e2 & st2 & Hc2 & E)|(st2 & Hc2 & E)]];
    rewrite Hc in Hc2; try discriminate Hc2.
  injection Hc2 as <- <-.
  exists (after_put st1 None). split; [exact E|]. split.
  - destruct (published_after_put st1 None) as (Hq & _).
    destruct (silent_collect st) as (Hs & Hm & _).
    rewrite Hc in Hs, Hm. cbn [snd] in Hs, Hm.
    rewrite Hq, Hs, Hm. reflexivity.
  - intros n. rewrite monitor_loop_step, E. reflexivity.
Qed.

Lemma poll_cycle_after_disconnect_witness :
  exists st',
    poll_cycle (after_pipe_error broken_session OSError [])
    = (Ret false, st')
    /\ published (world st')
       = published (world (after_pipe_error broken_session OSError []))
         ++ [(m_host (machine (self (after_pipe_error broken_session
                                       OSError []))), None)]
    /\ forall n,
         monitor_loop (S n) (after_pipe_error broken_session OSError [])
         = (Ret Stopped, st').
Proof.
  apply (poll_cycle_after_disconnect_stops
           (after_pipe_error broken_session OSError [])).
  - reflexivity.
  - reflexivity.
  - right. intros H. discriminate H.
Defined.

End MonitorFacts.

(** * The dashboard *)

Module DashFacts.
Import PyNum Dash MonitorSpec DashSpec.

(** *** Clipped writes *)

Lemma take_length n s : (String.length (PyStr.take n s) <= n)%nat.
Proof.
  revert s. induction n as [|n IH]; intros s; [destruct s; simpl; lia|].
  destruct s as [|c s]; simpl; [lia|]. specialize (IH s). lia.
Qed.

Lemma take_all n s : (String.length s <= n)%nat -> PyStr.take n s = s.
Proof.
  revert s. induction n as [|n IH]; intros s H.
  - destruct s; [reflexivity|simpl in H; lia].
  - destruct s as [|c s]; [reflexivity|]. simpl in *. rewrite IH by lia.
    reflexivity.
Qed.

(** What a call of [safe_addstr] does, whatever the position and the text. *)
Lemma safe_addstr_run d y x text a :
  safe_addstr y x text a d
  = (Ret tt,
     if in_window (stdscr d) y x
     then with_written d
            (written (stdscr d)
             ++ [(y, x, PyStr.take (Z.to_nat (max_x (stdscr d) - x)) text, a)])
     else d).
Proof.
  destruct d as [[my mx wr] ms iv dt rn mg lu lw mcw md].
  cbn [stdscr max_x max_y written] in *.
  cbv beta iota zeta delta
    [safe_addstr getmaxyx get bind ret in_window with_written try_catch_if
     addstr raise set_stdscr PyStr.slice_to stdscr max_x max_y written
     machines interval data running margin last_update last_win_size
     min_col_width max_devices].
  set (shown := PyStr.take (Z.to_nat (mx - x)) text).
  assert (Hcases : (my <= y \/ mx <= x) \/ (y < 0 \/ x < 0) /\ y < my /\ x < mx
                   \/ (0 <= y < my /\ 0 <= x < mx)) by lia.
  destruct Hcases as [Hout|[[Hneg [Hy Hx]]|[Hy Hx]]].
  - replace ((my <=? y) || (mx <=? x)) with true by (symmetry; apply orb_true_iff; lia).
    replace ((0 <=? y) && (y <? my) && (0 <=? x) && (x <? mx)) with false.
    2:{ symmetry. rewrite !andb_false_iff. lia. }
    reflexivity.
  - replace ((my <=? y) || (mx <=? x)) with false.
    2:{ symmetry. apply orb_false_iff. lia. }
    replace ((y <? 0) || (my <=? y) || (x <? 0) || (mx <=? x)) with true.
    2:{ symmetry. rewrite !orb_true_iff. lia. }
    replace ((0 <=? y) && (y <? my) && (0 <=? x) && (x <? mx)) with false.
    2:{ symmetry. rewrite !andb_false_iff. lia. }
    destruct (Z.ltb_spec (mx - x) 0); reflexivity.
  - replace ((my <=? y) || (mx <=? x)) with false.
    2:{ symmetry. apply orb_false_iff. lia. }
    replace ((y <? 0) || (my <=? y) || (x <? 0) || (mx <=? x)) with false.
    2:{ symmetry. rewrite !orb_false_iff. lia. }
    replace ((0 <=? y) && (y <? my) && (0 <=? x) && (x <? mx)) with true.
    2:{ symmetry. rewrite !andb_true_iff. lia. }
    destruct (Z.ltb_spec (mx - x) 0); [lia|].
    fold shown.
    assert (Hroom : (String.length shown
                     <= Z.to_nat ((my - 1 - y) * mx + (mx - x)))%nat).
    { pose proof (take_length (Z.to_nat (mx - x)) text) as Hl. fold shown in Hl.
      assert (0 <= (my - 1 - y) * mx) by nia. lia. }
    rewrite (take_all _ _ Hroom).
    destruct ((my - 1 - y) * mx + (mx - x) <=? PyStr.len shown);
      cbn [is_curses_error]; reflexivity.
Qed.


(** *** Hosts without data *)

Lemma steady_ret {A} (a : A) : steady (ret a).
Proof. intros d. split; reflexivity. Qed.

Lemma steady_lift {A} (r : outcome A) : steady (lift r).
Proof. intros d. split; reflexivity. Qed.

Lemma steady_bind {A B} (c : D A) (k : A -> D B) :
  steady c -> (forall a, steady (k a)) -> steady (bind c k).
Proof.
  intros Hc Hk d. unfold bind. specialize (Hc d).
  destruct (c d) as [[a|e|] d1]; cbn [snd] in *; try exact Hc.
  destruct (Hk a d1) as [H1 H2]. destruct Hc as [G1 G2].
  split; congruence.
Qed.

Lemma steady_safe_addstr y x text a : steady (safe_addstr y x text a).
Proof.
  intros d. rewrite safe_addstr_run.
  cbn [snd]. destruct (in_window (stdscr d) y x); split; reflexivity.
Qed.

Lemma steady_getmaxyx : steady getmaxyx.
Proof. intros d. split; reflexivity. Qed.

Ltac steady_step :=
  first
    [ apply steady_ret
    | apply steady_lift
    | apply steady_safe_addstr
    | apply steady_getmaxyx
    | apply steady_bind; [|intros ?]
    | match goal with
      | |- steady (if ?b then _ else _) => destruct b
      | |- steady (let '(_, _) := ?x in _) => destruct x
      | |- steady (match ?x with _ => _ end) => destruct x
      end ].

Lemma steady_draw_util_bar tx row col width u t ut :
  steady (draw_util_bar tx row col width u t ut).
Proof. unfold draw_util_bar. repeat steady_step. Qed.

Lemma steady_draw_devices tx devs : forall start_row start_col width max_y height,
  steady (draw_devices tx devs start_row start_col width max_y height).
Proof.
  induction devs as [|dev devs IH]; intros; cbn [draw_devices];
    repeat first [apply steady_draw_util_bar | apply IH | steady_step].
Qed.

Lemma steady_draw_machine_block tx row col width host info :
  steady (draw_machine_block tx row col width host info).
Proof.
  unfold draw_machine_block, draw_block_body.
  repeat first [apply steady_draw_devices | steady_step].
Qed.

Lemma steady_display_step tx my mx cols cw host c :
  steady (display_step tx my mx cols cw host c).
Proof.
  unfold display_step.
  apply steady_bind; [intros d; split; reflexivity|intros d0].
  repeat first [apply steady_draw_machine_block | steady_step].
Qed.

Lemma display_step_skip tx my mx cols cw host c d :
  data d !! host = Some None ->
  display_step tx my mx cols cw host c d
  = (Ret (if Z.of_nat (length (machines d)) <=? drawn_machines c
          then Break else Next, c), d).
Proof.
  intros H. unfold display_step, bind, get, ret. rewrite H.
  destruct (Z.of_nat (length (machines d)) <=? drawn_machines c); reflexivity.
Qed.

Lemma display_loop_cons tx my mx cols cw h hosts c d :
  display_loop tx my mx cols cw (h :: hosts) c d
  = match display_step tx my mx cols cw h c d with
    | (Ret (Next, c'), d') => display_loop tx my mx cols cw hosts c' d'
    | (Ret (Break, c'), d') => (Ret c', d')
    | (Raise e, d') => (Raise e, d')
    | (Blocked, d') => (Blocked, d')
    end.
Proof.
  cbn [display_loop]. unfold bind.
  destruct (display_step tx my mx cols cw h c d) as [[[[|] c']|e|] d'];
    reflexivity.
Qed.

Lemma display_loop_full tx my mx cols cw hosts c d :
  (Z.of_nat (length (machines d)) <=? drawn_machines c) = true ->
  display_loop tx my mx cols cw hosts c d = (Ret c, d).
Proof.
  intros H. destruct hosts as [|h hosts]; [reflexivity|].
  rewrite display_loop_cons.
  unfold display_step, bind, get, ret. rewrite H. reflexivity.
Qed.

Lemma display_loop_skip tx my mx cols cw host before after :
  forall c d,
    data d !! host = Some None ->
    display_loop tx my mx cols cw (before ++ host :: after) c d
    = display_loop tx my mx cols cw (before ++ after) c d.
Proof.
  induction before as [|h before IH]; intros c d H.
  - cbn [app]. rewrite display_loop_cons.
    rewrite (display_step_skip _ _ _ _ _ _ _ _ H).
    destruct (Z.of_nat (length (machines d)) <=? drawn_machines c) eqn:E.
    + rewrite display_loop_full by exact E. reflexivity.
    + reflexivity.
  - cbn [app]. rewrite !display_loop_cons.
    destruct (steady_display_step tx my mx cols cw h c d) as [Hd _].
    destruct (display_step tx my mx cols cw h c d) as [[[[|] c']|e|] d1];
      cbn [snd] in Hd; try reflexivity.
    apply IH. rewrite Hd. exact H.
Qed.

(** C10: for a host whose entry in the store is [None], a turn of the
    refresh loop draws nothing and raises nothing: the window, the drawing
    position and the count of drawn machines come out as they went in,
    [draw_machine_block] itself returns height 0 for it, and the whole loop
    runs as if the host were not in the list. *)
Theorem refresh_skips_host_without_data tx d my mx cols cw host :
  data d !! host = Some None ->
  (forall c, exists f,
      display_step tx my mx cols cw host c d = (Ret (f, c), d))
  /\ (forall row col width,
      draw_machine_block tx row col width host None d = (Ret 0, d))
  /\ (forall before after c,
      display_loop tx my mx cols cw (before ++ host :: after) c d
      = display_loop tx my mx cols cw (before ++ after) c d).
Proof.
  intros H. split; [|split].
  - intros c. eexists. apply display_step_skip, H.
  - intros. reflexivity.
  - intros before after c. apply display_loop_skip, H.
Qed.

(** *** Layout *)

Lemma fold_max_nonneg l a :
  0 <= a -> Forall (fun x => 0 <= x) l ->
  fold_left Z.max l a = Z.max a (foldr Z.max 0 l).
Proof.
  intros Ha Hl. revert a Ha. induction Hl as [|y l Hy _ IH]; intros a Ha.
  - simpl. lia.
  - cbn [fold_left foldr]. rewrite IH by lia. lia.
Qed.

Lemma py_max_longest m ms :
  py_max (map (fun m => PyStr.len (m_host m)) (m :: ms))
  = Ret (longest_host (m :: ms)).
Proof.
  unfold py_max, longest_host. cbn [map foldr]. f_equal.
  apply fold_max_nonneg.
  - unfold PyStr.len. lia.
  - induction ms as [|m' ms IH]; constructor; [unfold PyStr.len; lia|exact IH].
Qed.

Lemma longest_host_bound ms :
  forall m, m ∈ ms -> PyStr.len (m_host m) <= longest_host ms.
Proof.
  induction ms as [|m0 ms IH]; intros m Hm.
  - inversion Hm.
  - unfold longest_host in *. cbn [map foldr].
    apply elem_of_cons in Hm as [->|Hm]; [lia|].
    specialize (IH m Hm). lia.
Qed.

Lemma longest_host_attained ms :
  ms <> [] -> exists m, m ∈ ms /\ PyStr.len (m_host m) = longest_host ms.
Proof.
  induction ms as [|m0 ms IH]; intros Hne; [exfalso; apply Hne; reflexivity|].
  destruct ms as [|m1 ms].
  - exists m0. split; [apply list_elem_of_here|].
    unfold longest_host, PyStr.len. simpl. lia.
  - destruct IH as [m [Hm Hlen]]; [intros H; discriminate H|].
    unfold longest_host in *. cbn [map foldr] in *.
    destruct (Z.max_spec (PyStr.len (m_host m0))
                (Z.max (PyStr.len (m_host m1))
                   (foldr Z.max 0 (map (fun m => PyStr.len (m_host m)) ms))))
      as [[_ E]|[_ E]]; rewrite E.
    + exists m. split; [apply list_elem_of_further, Hm|exact Hlen].
    + exists m0. split; [apply list_elem_of_here|reflexivity].
Qed.

Lemma floor_div a b : b <> 0 -> is_floor a b (a / b).
Proof.
  intros Hb. pose proof (Z.div_mod a b Hb) as Hdm. split; intros Hs.
  - pose proof (Z.mod_pos_bound a b Hs). nia.
  - pose proof (Z.mod_neg_bound a b Hs). nia.
Qed.

(** C8: for a terminal width, a margin and a non-empty list of hosts, the
    layout takes as minimum column width the larger of the longest host
    name plus the padding of 6 and the baseline of 60, and as column count
    the larger of 1 and the floor of (width - margin) / (minimum column width
    + margin). *)
Theorem layout_follows_the_formula terminal_width margin ms :
  ms <> [] ->
  spec_min_col_width ms + margin <> 0 ->
  (exists col_width,
      layout terminal_width margin ms
      = Ret (spec_min_col_width ms, spec_columns terminal_width margin ms,
             col_width))
  /\ (exists m, m ∈ ms /\ PyStr.len (m_host m) = longest_host ms)
  /\ (forall m, m ∈ ms -> PyStr.len (m_host m) <= longest_host ms)
  /\ is_floor (terminal_width - margin) (spec_min_col_width ms + margin)
       ((terminal_width - margin) / (spec_min_col_width ms + margin)).
Proof.
  intros Hne Hdiv. split; [|split; [|split]].
  - destruct ms as [|m ms]; [exfalso; apply Hne; reflexivity|].
    unfold layout. rewrite py_max_longest. cbn [obind].
    fold host_padding baseline_width.
    change (Z.max (longest_host (m :: ms) + host_padding) baseline_width)
      with (spec_min_col_width (m :: ms)).
    unfold floordiv at 1.
    destruct (Z.eqb_spec (spec_min_col_width (m :: ms) + margin) 0) as [E|_];
      [contradiction|].
    cbn [obind]. fold (spec_columns terminal_width margin (m :: ms)).
    unfold floordiv.
    destruct (Z.eqb_spec (spec_columns terminal_width margin (m :: ms)) 0)
      as [E|_]; [unfold spec_columns in E; lia|].
    cbn [obind]. eexists. reflexivity.
  - apply longest_host_attained, Hne.
  - apply longest_host_bound.
  - apply floor_div, Hdiv.
Qed.

(** *** The store *)

Lemma drain_lookup events : forall d host,
  data (drain events d) !! host = entry_after host events (data d !! host).
Proof.
  induction events as [|[[h s] t] events IH]; intros d host; [reflexivity|].
  unfold drain, entry_after in *. cbn [fold_left fst snd].
  rewrite IH. f_equal.
  unfold absorb, set_data. cbn [data].
  destruct (String.eqb_spec h host) as [->|Hne].
  - apply lookup_insert_eq.
  - apply lookup_insert_ne, Hne.
Qed.

Lemma entry_after_last host events s t start :
  entry_after host (events ++ [(host, s, t)]) start = Some s.
Proof.
  unfold entry_after. rewrite fold_left_app. cbn [fold_left fst snd].
  rewrite String.eqb_refl. reflexivity.
Qed.

Lemma entry_after_others host events start :
  Forall (fun ev => ev.1.1 <> host) events ->
  entry_after host events start = start.
Proof.
  intros H. revert start. induction H as [|[[h s] t] events Hh _ IH]; intros start;
    [reflexivity|].
  unfold entry_after in *. cbn [fold_left fst snd] in *.
  destruct (String.eqb_spec h host) as [E|_]; [contradiction|]. apply IH.
Qed.

(** C7, as amended: the entry of a host in the store is the data of the last
    event drained for that host, absent data included.  An absent event from
    a failing poll cycle replaces the last good snapshot by [None]; a later
    snapshot replaces that in turn; the entry stays as it is only while the
    events drained are those of other hosts. *)
Theorem store_keeps_last_event_of_host d host :
  (forall events,
      data (drain events d) !! host
      = entry_after host events (data d !! host))
  /\ (forall events t,
      data (drain (events ++ [(host, None, t)]) d) !! host = Some None)
  /\ (forall events snap t,
      data (drain (events ++ [(host, Some snap, t)]) d) !! host
      = Some (Some snap))
  /\ (forall events,
      Forall (fun ev => ev.1.1 <> host) events ->
      data (drain events d) !! host = data d !! host).
Proof.
  split; [|split; [|split]].
  - intros events. apply drain_lookup.
  - intros events t. rewrite drain_lookup. apply entry_after_last.
  - intros events snap t. rewrite drain_lookup. apply entry_after_last.
  - intros events H. rewrite drain_lookup. apply entry_after_others, H.
Qed.

(** C7, as stated, fails: the host had a good snapshot in the store, the
    absent event of its failing poll cycle was drained, and the entry is
    [None], not the last good snapshot; the refresh then draws no panel for
    the host. *)
Lemma failed_poll_blanks_the_entry :
  data healthy_board !! "10.0.0.1" = Some (Some (healthy_snapshot 12))
  /\ data blanked_board !! "10.0.0.1" = Some None
  /\ data blanked_board !! "10.0.0.1" <> data healthy_board !! "10.0.0.1"
  /\ written (stdscr (update_display plain_texts blanked_board).2)
     = [(0, 47, " Cluster Monitor (Press Q to exit) ", color_pair CYAN);
        (39, 0, " Machines: 0/1 | Update: 12:00:00 ", color_pair CYAN)].
Proof.
  vm_compute. repeat split. intros H. discriminate H.
Qed.

(** The events of the host that dropped its connection, as the dashboard
    drains them: the store ends with [None]. *)
Example dropped_host_entry :
  let events :=
    map (fun ev => (ev, 20%Q))
        (Monitor.published (world (Monitor.monitor_loop 5 dropped_session).2)) in
  data (drain events
          (init {| max_y := 40; max_x := 130; written := [] |}
             [sample_host] 2)) !! "10.0.0.1"
  = Some None.
Proof. vm_compute. reflexivity. Qed.

Lemma layout_follows_the_formula_witness :
  (exists col_width,
      layout 130 2 [sample_host]
      = Ret (spec_min_col_width [sample_host],
             spec_columns 130 2 [sample_host], col_width))
  /\ (exists m, m ∈ [sample_host]
                /\ PyStr.len (m_host m) = longest_host [sample_host])
  /\ (forall m, m ∈ [sample_host] ->
                PyStr.len (m_host m) <= longest_host [sample_host])
  /\ is_floor (130 - 2) (spec_min_col_width [sample_host] + 2)
       ((130 - 2) / (spec_min_col_width [sample_host] + 2)).
Proof.
  apply (layout_follows_the_formula 130 2 [sample_host]).
  - intros H. discriminate H.
  - vm_compute. intros H. discriminate H.
Defined.

(** The layout for one host with an eight-character name on 130 columns:
    the baseline width of 60 and two columns. *)
Example layout_sample :
  layout 130 2 [sample_host] = Ret (60, 2, 60)
  /\ spec_min_col_width [sample_host] = 60
  /\ spec_columns 130 2 [sample_host] = 2.
Proof. vm_compute. repeat split. Qed.

(** With no host configured the layout raises: [max] has nothing to choose
    from. *)
Example layout_no_hosts : layout 130 2 [] = Raise ValueError.
Proof. reflexivity. Qed.

Lemma refresh_skips_host_without_data_witness :
  (forall c, exists f,
      display_step plain_texts 40 130 2 60 "10.0.0.1" c blanked_board
      = (Ret (f, c), blanked_board))
  /\ (forall row col width,
      draw_machine_block plain_texts row col width "10.0.0.1" None blanked_board
      = (Ret 0, blanked_board))
  /\ (forall before after c,
      display_loop plain_texts 40 130 2 60 (before ++ "10.0.0.1" :: after) c
        blanked_board
      = display_loop plain_texts 40 130 2 60 (before ++ after) c blanked_board).
Proof.
  apply (refresh_skips_host_without_data plain_texts blanked_board 40 130 2 60
           "10.0.0.1").
  vm_compute. reflexivity.
Defined.

(** A refresh with one host with data and one without: one panel, and the
    status bar counts one machine of two. *)
Example refresh_one_of_two :
  let d := drain [("10.0.0.1", Some (healthy_snapshot 12), 12%Q);
                  ("10.0.0.2", None, 13%Q)]
             (init {| max_y := 40; max_x := 130; written := [] |}
                [sample_host; sample_host] 2) in
  let r := update_display plain_texts d in
  r.1 = Ret tt
  /\ List.last (written (stdscr r.2)) (0, 0, "", A_NORMAL)
     = (39, 0, " Machines: 1/2 | Update: 12:00:00 ", color_pair CYAN)
  /\ length (written (stdscr r.2)) = 10%nat.
Proof. vm_compute. repeat split. Qed.

(** *** The bars of a device *)

Lemma safe_addstr_returns y x text a d :
  exists d', safe_addstr y x text a d = (Ret tt, d').
Proof. eexists. apply safe_addstr_run. Qed.













(** A device of 8 GiB half in use, at 50 percent: both bars are drawn, with
    ten of twenty and seven of fourteen cells filled. *)
Example draw_util_bar_figures :
  bar_figures plain_texts 56 4096 8192 50
  = Ret ("4G/8G", fmt_fixed plain_texts 0 0 (PyFloat.quotient 50 1) +:+ "%",
         21, 14, 10)
  /\ util_fill_of 14 50 = Ret 7.
Proof. vm_compute. split; reflexivity. Qed.

(** A device whose memory in use has four hundred digits: the division
    raises [OverflowError], and nothing is written. *)
Example draw_util_bar_overflow :
  draw_util_bar plain_texts 1 14 56 (10 ^ 400) 1 50 healthy_board
  = (Raise OverflowError, healthy_board).
Proof. vm_compute. reflexivity. Qed.

(** A wide bar and a use near the largest float: the memory bar is written,
    then the fill of the second bar raises [OverflowError]. *)
Example draw_util_bar_overflow_late :
  exists d',
    draw_util_bar plain_texts 1 14 534 4096 8192 (3 * 2 ^ 1022) healthy_board
    = (Raise OverflowError, d')
    /\ length (written (stdscr d'))
       = S (length (written (stdscr healthy_board))).
Proof. eexists. split; vm_compute; reflexivity. Qed.

(** A bar of no width and a share beyond the largest float: zero times
    infinity is not a number, and [int] raises [ValueError]. *)
Example draw_util_bar_not_a_number :
  draw_util_bar plain_texts 1 14 20 (10 ^ 307) 1 50 healthy_board
  = (Raise ValueError, healthy_board).
Proof. vm_compute. reflexivity. Qed.

(** *** The height of a block *)










(** *** Writes stay inside the window *)

Lemma orderly_ret {A} (a : A) : orderly (ret a).
Proof. intros d. repeat split. intros H; exact H. Qed.

Lemma orderly_lift {A} (r : outcome A) : orderly (lift r).
Proof. intros d. repeat split. intros H; exact H. Qed.

Lemma orderly_get : orderly get.
Proof. intros d. repeat split. intros H; exact H. Qed.

Lemma orderly_getmaxyx : orderly getmaxyx.
Proof. intros d. repeat split. intros H; exact H. Qed.

Lemma orderly_bind {A B} (c : D A) (k : A -> D B) :
  orderly c -> (forall a, orderly (k a)) -> orderly (bind c k).
Proof.
  intros Hc Hk d. unfold bind. specialize (Hc d).
  destruct (c d) as [[a|e|] d1]; cbn [snd] in *; try exact Hc.
  destruct (Hk a d1) as (H1 & H2 & H3 & H4).
  destruct Hc as (G1 & G2 & G3 & G4).
  split; [congruence|]. split; [congruence|]. split; [congruence|].
  intros H. apply H4, G4, H.
Qed.

Lemma orderly_safe_addstr y x text a : orderly (safe_addstr y x text a).
Proof.
  intros d. rewrite safe_addstr_run. cbn [snd].
  destruct (in_window (stdscr d) y x) eqn:E.
  - split; [reflexivity|]. split; [reflexivity|]. split; [reflexivity|].
    unfold clipped, with_written. cbn [stdscr max_y max_x written].
    intros H. apply Forall_app. split; [exact H|].
    constructor; [|constructor].
    unfold in_window in E. rewrite !andb_true_iff in E.
    destruct E as [[[E1 E2] E3] E4].
    apply Z.leb_le in E1, E3. apply Z.ltb_lt in E2, E4.
    unfold fits, PyStr.len.
    pose proof (take_length (Z.to_nat (max_x (stdscr d) - x)) text). lia.
  - repeat split. intros H; exact H.
Qed.

Lemma erase_run d : erase d = (Ret tt, with_written d []).
Proof. reflexivity. Qed.

Lemma orderly_erase : orderly erase.
Proof.
  intros d. rewrite erase_run. cbn [snd]. repeat split.
  intros _. constructor.
Qed.

Lemma orderly_set_last_win_size sz : orderly (set_last_win_size sz).
Proof. intros d. repeat split. intros H; exact H. Qed.

Ltac orderly_step :=
  first
    [ apply orderly_ret
    | apply orderly_lift
    | apply orderly_get
    | apply orderly_getmaxyx
    | apply orderly_erase
    | apply orderly_set_last_win_size
    | apply orderly_safe_addstr
    | apply orderly_bind; [|intros ?]
    | match goal with
      | |- orderly (if ?b then _ else _) => destruct b
      | |- orderly (let '(_, _) := ?x in _) => destruct x
      | |- orderly (match ?x with _ => _ end) => destruct x
      end ].

Lemma orderly_draw_util_bar tx row col width u t ut :
  orderly (draw_util_bar tx row col width u t ut).
Proof. unfold draw_util_bar. repeat orderly_step. Qed.

Lemma orderly_draw_devices tx devs :
  forall start_row start_col width max_y height,
    orderly (draw_devices tx devs start_row start_col width max_y height).
Proof.
  induction devs as [|dev devs IH]; intros; cbn [draw_devices];
    repeat first [apply orderly_draw_util_bar | apply IH | orderly_step].
Qed.

Lemma orderly_draw_machine_block tx row col width host info :
  orderly (draw_machine_block tx row col width host info).
Proof.
  unfold draw_machine_block, draw_block_body.
  repeat first [apply orderly_draw_devices | orderly_step].
Qed.

Lemma orderly_display_step tx my mx cols cw host c :
  orderly (display_step tx my mx cols cw host c).
Proof.
  unfold display_step.
  repeat first [apply orderly_draw_machine_block | orderly_step].
Qed.

Lemma orderly_display_loop tx my mx cols cw hosts : forall c,
  orderly (display_loop tx my mx cols cw hosts c).
Proof.
  induction hosts as [|h hosts IH]; intros c; cbn [display_loop].
  - apply orderly_ret.
  - apply orderly_bind; [apply orderly_display_step|].
    intros [[|] c']; [apply IH|apply orderly_ret].
Qed.

Lemma orderly_update_display tx : orderly (update_display tx).
Proof.
  unfold update_display.
  repeat first [apply orderly_display_loop | orderly_step].
Qed.

Lemma update_display_erased tx d :
  update_display tx d = update_display tx (with_written d []).
Proof. unfold update_display. unfold bind at 1 3. reflexivity. Qed.

(** X15: Whatever was in the window before, and whether the refresh returns or
    raises, after [update_display] every text in the window lies inside it,
    from its first to its last character, and the window has kept its size. *)
Theorem update_display_stays_in_window tx d :
  clipped (update_display tx d).2
  /\ max_y (stdscr (update_display tx d).2) = max_y (stdscr d)
  /\ max_x (stdscr (update_display tx d).2) = max_x (stdscr d).
Proof.
  destruct (orderly_update_display tx (with_written d []))
    as (H1 & H2 & _ & H4).
  rewrite update_display_erased.
  split; [|split; [exact H1|exact H2]].
  apply H4. constructor.
Qed.

(** *** The main loop and the quit key *)

Lemma drain_running events : forall d, running (drain events d) = running d.
Proof.
  induction events as [|[[h s] t] events IH]; intros d; [reflexivity|].
  unfold drain in *. cbn [fold_left]. rewrite IH. reflexivity.
Qed.

Lemma run_step_running tx events t key d d' :
  run_step tx events t key d = (Ret tt, d') ->
  running d' = if quits key then false else running d.
Proof.
  unfold run_step. unfold bind at 1. unfold bind at 1. unfold get at 1.
  cbv iota beta.
  set (d1 := drain events d).
  assert (Hd1 : running d1 = running d) by apply drain_running.
  set (refresh := if negb (bool_decide (events = []))
                     || Qle_bool (inject_Z (interval d1)) (t - last_update d1)
                  then _ else _).
  assert (Hr : running (refresh d1).2 = running d1).
  { unfold refresh.
    destruct (negb (bool_decide (events = []))
              || Qle_bool (inject_Z (interval d1)) (t - last_update d1));
      [|reflexivity].
    unfold bind.
    destruct (orderly_update_display tx d1) as (_ & _ & H3 & _).
    destruct (update_display tx d1) as [[[]|e|] d2]; cbn [snd] in *;
      exact H3. }
  unfold bind at 1.
  destruct (refresh d1) as [[[]|e|] d2]; cbn [snd] in Hr;
    [|intros H; discriminate H|intros H; discriminate H].
  destruct key as [k|]; cbn [quits].
  - destruct (Ascii.eqb k "q").
    + intros H. injection H as <-. reflexivity.
    + intros H. injection H as <-. congruence.
  - intros H. injection H as <-. congruence.
Qed.

Lemma run_loop_not_running tx turns d :
  running d = false -> run_loop tx turns d = (Ret tt, d).
Proof.
  intros H. destruct turns as [|[[ev t] key] rest]; [reflexivity|].
  cbn [run_loop]. unfold bind, get. rewrite H. reflexivity.
Qed.

Lemma run_loop_cons tx ev t key rest d :
  run_loop tx ((ev, t, key) :: rest) d
  = if running d
    then match run_step tx ev t key d with
         | (Ret _, d') => run_loop tx rest d'
         | (Raise e, d') => (Raise e, d')
         | (Blocked, d') => (Blocked, d')
         end
    else (Ret tt, d).
Proof.
  cbn [run_loop]. unfold bind at 1. unfold get at 1. cbv iota beta.
  destruct (running d); [|reflexivity].
  unfold bind. destruct (run_step tx ev t key d) as [[[]|e|] d']; reflexivity.
Qed.

(** X16: The main loop ends with the turn in which the key [q] is read: the
    turns after it are not run. No other key, and no refresh, touches the
    [running] flag; the capital [Q] of the title line does not quit. *)
Theorem run_loop_ends_on_q_only tx :
  (forall before ev t after d,
      run_loop tx (before ++ (ev, t, Some "q"%char) :: after) d
      = run_loop tx (before ++ [(ev, t, Some "q"%char)]) d)
  /\ (forall ev t key d d',
        quits key = false ->
        run_step tx ev t key d = (Ret tt, d') ->
        running d' = running d)
  /\ quits (Some "Q"%char) = false.
Proof.
  split; [|split; [|reflexivity]].
  - intros before ev t after.
    induction before as [|[[ev0 t0] key0] before IH]; intros d; cbn [app].
    + rewrite !run_loop_cons. destruct (running d); [|reflexivity].
      destruct (run_step tx ev t (Some "q"%char) d) as [[[]|e|] d'] eqn:E;
        try reflexivity.
      pose proof (run_step_running _ _ _ _ _ _ E) as Hq. cbn in Hq.
      rewrite !run_loop_not_running by exact Hq. reflexivity.
    + rewrite !run_loop_cons. destruct (running d); [|reflexivity].
      destruct (run_step tx ev0 t0 key0 d) as [[[]|e|] d']; try reflexivity.
      apply IH.
  - intros ev t key d d' Hk H.
    rewrite (run_step_running _ _ _ _ _ _ H), Hk. reflexivity.
Qed.

(** *** The width of a column *)

(** X17: With at least one machine and a margin that is not negative, the
    layout is defined. The minimum column width is at least 60 and there is at
    least one column. When the terminal holds one column of the minimum width
    between two margins, every column has exactly that width; otherwise the
    single column takes what the two margins leave, which on a very narrow
    terminal is nothing or less. In both cases the columns with the margins
    around them fit the terminal. *)
Theorem layout_column_width terminal_width margin ms :
  ms <> [] ->
  0 <= margin ->
  exists mcw cols cw,
    layout terminal_width margin ms = Ret (mcw, cols, cw)
    /\ 60 <= mcw
    /\ 1 <= cols
    /\ cw = (if mcw + 2 * margin <=? terminal_width then mcw
             else terminal_width - 2 * margin)
    /\ (terminal_width < mcw + 2 * margin -> cols = 1)
    /\ cols * cw + margin * (cols + 1) <= terminal_width.
Proof.
  intros Hne Hm. destruct ms as [|m ms]; [congruence|].
  unfold layout. rewrite py_max_longest. cbn [obind].
  set (mcw := Z.max (longest_host (m :: ms) + 6) 60).
  assert (Hmcw : 60 <= mcw) by (unfold mcw; lia).
  unfold floordiv at 1.
  destruct (Z.eqb_spec (mcw + margin) 0) as [E|_]; [lia|]. cbn [obind].
  set (q := (terminal_width - margin) / (mcw + margin)).
  set (cols := Z.max 1 q).
  assert (Hcols : 1 <= cols) by (unfold cols; lia).
  unfold floordiv.
  destruct (Z.eqb_spec cols 0) as [E|_]; [lia|]. cbn [obind].
  exists mcw, cols, (Z.min mcw ((terminal_width - margin * (cols + 1)) / cols)).
  split; [reflexivity|]. split; [exact Hmcw|]. split; [exact Hcols|].
  destruct (Z.leb_spec (mcw + 2 * margin) terminal_width) as [Hwide|Hnarrow].
  - assert (Hq : 1 <= q).
    { unfold q. apply Z.div_le_lower_bound; lia. }
    assert (Hqm : (mcw + margin) * q <= terminal_width - margin).
    { unfold q. apply Z.mul_div_le. lia. }
    assert (Ec : cols = q) by (unfold cols; lia).
    assert (Hw : mcw <= (terminal_width - margin * (cols + 1)) / cols).
    { apply Z.div_le_lower_bound; [lia|]. rewrite Ec. nia. }
    split; [lia|]. split; [lia|].
    replace (Z.min mcw ((terminal_width - margin * (cols + 1)) / cols))
      with mcw by lia.
    rewrite Ec. nia.
  - assert (Hq : q < 1).
    { unfold q. apply Z.div_lt_upper_bound; lia. }
    assert (Ec : cols = 1) by (unfold cols; lia).
    rewrite Ec. rewrite Z.div_1_r. repeat split; lia.
Qed.

Lemma layout_column_width_witness :
  exists mcw cols cw,
    layout 50 2 [sample_host] = Ret (mcw, cols, cw)
    /\ 60 <= mcw
    /\ 1 <= cols
    /\ cw = (if mcw + 2 * 2 <=? 50 then mcw else 50 - 2 * 2)
    /\ (50 < mcw + 2 * 2 -> cols = 1)
    /\ cols * cw + 2 * (cols + 1) <= 50.
Proof.
  apply (layout_column_width 50 2 [sample_host]).
  - intros H. discriminate H.
  - lia.
Defined.

(** A terminal of three columns leaves a column of width [-1]. *)
Example layout_very_narrow : layout 3 2 [sample_host] = Ret (60, 1, -1).
Proof. reflexivity. Qed.

(** *** A dashboard without machines *)

(** X18: With an empty list of machines every refresh raises [ValueError]: the
    longest host name is asked of an empty sequence. *)
Theorem update_display_without_machines tx d :
  machines d = [] ->
  exists d', update_display tx d = (Raise ValueError, d').
Proof.
  intros Hm. unfold update_display.
  unfold bind at 1. rewrite erase_run. cbv iota beta.
  unfold bind at 1. unfold getmaxyx at 1. unfold bind at 1, get at 1, ret at 1.
  cbv iota beta.
  unfold bind at 1. unfold get at 1. cbv iota beta.
  set (d0 := with_written d []).
  assert (Hstep : exists d1,
    (if bool_decide
          ((max_y (stdscr d0), max_x (stdscr d0)) = last_win_size d0)
     then ret tt
     else bind erase
            (fun _ => set_last_win_size
                        (max_y (stdscr d0), max_x (stdscr d0)))) d0
    = (Ret tt, d1) /\ machines d1 = []).
  { destruct (bool_decide _).
    - exists d0. split; [reflexivity|exact Hm].
    - eexists. split; [reflexivity|exact Hm]. }
  destruct Hstep as (d1 & Hs & Hm1).
  unfold bind at 1. rewrite Hs. unfold bind at 1.
  match goal with
  | |- context [safe_addstr ?y ?x ?t ?a d1] =>
      destruct (safe_addstr_returns y x t a d1) as [d2 E];
      destruct (steady_safe_addstr y x t a d1) as [_ Hk];
      rewrite E in Hk |- *; cbn [snd] in Hk
  end.
  unfold bind at 1. unfold get at 1. cbv iota beta.
  unfold bind at 1. rewrite Hk, Hm1. cbn [layout map py_max obind lift].
  exists d2. reflexivity.
Qed.

Lemma update_display_without_machines_witness :
  exists d',
    update_display plain_texts
      (init {| max_y := 40; max_x := 130; written := [] |} [] 2)
    = (Raise ValueError, d').
Proof.
  apply (update_display_without_machines plain_texts
           (init {| max_y := 40; max_x := 130; written := [] |} [] 2)).
  reflexivity.
Defined.

(** *** How many blocks are drawn *)

Lemma display_step_drawn tx my mx cols cw host c d f c' d' :
  display_step tx my mx cols cw host c d = (Ret (f, c'), d') ->
  drawn_machines c' = drawn_machines c
  \/ (drawn_machines c' = drawn_machines c + 1
      /\ drawn_machines c < Z.of_nat (length (machines d))
      /\ has_snapshot d host = true).
Proof.
  unfold display_step, has_snapshot. unfold bind at 1. unfold get at 1.
  cbv iota beta.
  destruct (Z.leb_spec (Z.of_nat (length (machines d))) (drawn_machines c))
    as [Hfull|Hfree].
  { intros H. injection H as <- <- <-. left. reflexivity. }
  destruct (data d !! host) as [[info|]|].
  2,3: intros H; injection H as <- <- <-; left; reflexivity.
  match goal with
  | |- context [if ?b then ret (Break, ?here) else _] => destruct b
  end.
  { intros H. injection H as <- <- <-. left. reflexivity. }
  unfold bind at 1.
  match goal with
  | |- context [draw_machine_block ?a ?b ?r ?k ?h ?i d] =>
      destruct (draw_machine_block a b r k h i d) as [[height|e|] d1]
  end.
  2,3: intros H; discriminate H.
  unfold bind at 1. unfold lift at 1.
  destruct (cols =? 0); [intros H; discriminate H|].
  cbv iota beta.
  match goal with
  | |- context [if ?b then _ else _] => destruct b
  end; intros H; injection H as <- <- <-; right; cbn [drawn_machines];
    repeat split; lia.
Qed.

Lemma has_snapshot_steady d d1 host :
  data d1 = data d -> has_snapshot d1 host = has_snapshot d host.
Proof. intros H. unfold has_snapshot. rewrite H. reflexivity. Qed.

Lemma display_loop_drawn tx my mx cols cw hosts : forall c d c' d',
  display_loop tx my mx cols cw hosts c d = (Ret c', d') ->
  drawn_machines c <= Z.of_nat (length (machines d)) ->
  drawn_machines c <= drawn_machines c'
  /\ drawn_machines c' <= Z.of_nat (length (machines d))
  /\ drawn_machines c'
     <= drawn_machines c
        + Z.of_nat (length (List.filter (has_snapshot d) hosts)).
Proof.
  induction hosts as [|h hosts IH]; intros c d c' d' H Hc.
  - injection H as <- <-. cbn. lia.
  - rewrite display_loop_cons in H. cbn [List.filter].
    destruct (steady_display_step tx my mx cols cw h c d) as [Hd Hm].
    destruct (display_step tx my mx cols cw h c d) as [[[f c1]|e|] d1] eqn:E;
      [|discriminate H|discriminate H].
    cbn [snd] in Hd, Hm.
    pose proof (display_step_drawn _ _ _ _ _ _ _ _ _ _ _ E) as Hstep.
    assert (Hlen : forall k,
      (k = 0 \/ (k = 1 /\ has_snapshot d h = true)) ->
      k + Z.of_nat (length (List.filter (has_snapshot d) hosts))
      <= Z.of_nat (length (if has_snapshot d h
                           then h :: List.filter (has_snapshot d) hosts
                           else List.filter (has_snapshot d) hosts))).
    { intros k [->|[-> ->]]; [|cbn [length]; lia].
      destruct (has_snapshot d h); cbn [length]; lia. }
    destruct f.
    + specialize (IH c1 d1 c' d' H). rewrite Hm in IH.
      assert (Hext : List.filter (has_snapshot d1) hosts
                     = List.filter (has_snapshot d) hosts).
      { apply List.filter_ext. intros x. apply has_snapshot_steady, Hd. }
      rewrite Hext in IH.
      destruct Hstep as [E1|(E1 & E2 & E3)].
      * specialize (IH ltac:(lia)). specialize (Hlen 0 ltac:(auto)). lia.
      * specialize (IH ltac:(lia)).
        specialize (Hlen 1 ltac:(right; split; [reflexivity|exact E3])). lia.
    + injection H as <- <-.
      destruct Hstep as [E1|(E1 & E2 & E3)].
      * specialize (Hlen 0 ltac:(auto)). lia.
      * specialize (Hlen 1 ltac:(right; split; [reflexivity|exact E3])). lia.
Qed.

(** X19: The loop over the hosts never counts more blocks than there are
    machines configured, nor more than there are hosts with a snapshot in the
    store: the status bar cannot show more machines drawn than listed. *)
Theorem display_loop_draws_no_more tx my mx cols cw hosts c d :
  drawn_machines c <= Z.of_nat (length (machines d)) ->
  match (display_loop tx my mx cols cw hosts c d).1 with
  | Ret c' =>
      drawn_machines c <= drawn_machines c'
      /\ drawn_machines c' <= Z.of_nat (length (machines d))
      /\ drawn_machines c'
         <= drawn_machines c
            + Z.of_nat (length (List.filter (has_snapshot d) hosts))
  | _ => True
  end.
Proof.
  intros Hc.
  destruct (display_loop tx my mx cols cw hosts c d) as [[c'|e|] d'] eqn:E;
    cbn [fst]; [|exact I|exact I].
  apply (display_loop_drawn _ _ _ _ _ _ _ _ _ _ E Hc).
Qed.

Lemma display_loop_draws_no_more_witness :
  match (display_loop plain_texts 40 130 2 60 ["10.0.0.1"; "10.0.0.2"]
           {| current_row := 1; current_col := 2; drawn_machines := 0 |}
           healthy_board).1 with
  | Ret c' =>
      0 <= drawn_machines c'
      /\ drawn_machines c' <= Z.of_nat (length (machines healthy_board))
      /\ drawn_machines c'
         <= 0 + Z.of_nat (length (List.filter (has_snapshot healthy_board)
                                    ["10.0.0.1"; "10.0.0.2"]))
  | _ => True
  end.
Proof.
  apply (display_loop_draws_no_more plain_texts 40 130 2 60
           ["10.0.0.1"; "10.0.0.2"]
           {| current_row := 1; current_col := 2; drawn_machines := 0 |}
           healthy_board).
  vm_compute. intros H. discriminate H.
Defined.

(** *** The status bar *)

Lemma steady_display_loop tx my mx cols cw hosts : forall c,
  steady (display_loop tx my mx cols cw hosts c).
Proof.
  induction hosts as [|h hosts IH]; intros c; cbn [display_loop].
  - apply steady_ret.
  - apply steady_bind; [apply steady_display_step|].
    intros [[|] c']; [apply IH|apply steady_ret].
Qed.

(** X20: A refresh that returns, on a window of at least two rows and one
    column, ends with the status bar: the last write goes to the first
    column of the last row and shows how many machines were drawn, a number
    between zero and the number of machines configured, cut so that the
    last cell of the row stays free. *)
Theorem update_display_ends_with_status tx d d' :
  update_display tx d = (Ret tt, d') ->
  1 < max_y (stdscr d) ->
  0 < max_x (stdscr d) ->
  exists ws n,
    0 <= n <= Z.of_nat (length (machines d))
    /\ written (stdscr d')
       = ws ++ [(max_y (stdscr d) - 1, 0,
                 PyStr.slice_to (max_x (stdscr d) - 1)
                   (status_text tx n (Z.of_nat (length (machines d)))),
                 color_pair CYAN)].
Proof.
  intros H Hy Hx. unfold update_display in H.
  unfold bind at 1 in H. rewrite erase_run in H. cbv iota beta in H.
  unfold bind at 1 in H. unfold getmaxyx at 1 in H.
  unfold bind at 1, get at 1, ret at 1 in H. cbv iota beta in H.
  unfold bind at 1 in H. unfold get at 1 in H. cbv iota beta in H.
  set (d0 := with_written d []) in H.
  change (max_y (stdscr d0)) with (max_y (stdscr d)) in H.
  change (max_x (stdscr d0)) with (max_x (stdscr d)) in H.
  set (my := max_y (stdscr d)) in *. set (mx := max_x (stdscr d)) in *.
  assert (Hstep : exists d1,
    (if bool_decide ((my, mx) = last_win_size d0)
     then ret tt
     else bind erase (fun _ => set_last_win_size (my, mx))) d0
    = (Ret tt, d1)
    /\ machines d1 = machines d
    /\ max_y (stdscr d1) = my /\ max_x (stdscr d1) = mx).
  { destruct (bool_decide _).
    - exists d0. repeat split.
    - eexists. repeat split. }
  destruct Hstep as (d1 & Hs & Hm1 & Hy1 & Hx1).
  unfold bind at 1 in H. rewrite Hs in H. unfold bind at 1 in H.
  match type of H with
  | context [safe_addstr ?y ?x ?t ?a d1] =>
      destruct (safe_addstr_returns y x t a d1) as [d2 E];
      destruct (steady_safe_addstr y x t a d1) as [_ Hm2];
      destruct (orderly_safe_addstr y x t a d1) as (Hy2 & Hx2 & _);
      rewrite E in H, Hm2, Hy2, Hx2; cbn [snd] in Hm2, Hy2, Hx2
  end.
  unfold bind at 1 in H. unfold get at 1 in H. cbv iota beta in H.
  unfold bind at 1 in H. unfold lift at 1 in H.
  destruct (layout mx (margin d2) (machines d2)) as [[[mcw cols] cw]|e|];
    [|discriminate H|discriminate H].
  cbv iota beta in H. unfold bind at 1 in H.
  set (c0 := {| current_row := 1; current_col := margin d2;
                drawn_machines := 0 |}) in H.
  destruct (steady_display_loop tx my mx cols cw (sorted_hosts (data d2))
              c0 d2) as [_ Hm3].
  destruct (orderly_display_loop tx my mx cols cw (sorted_hosts (data d2))
              c0 d2) as (Hy3 & Hx3 & _).
  destruct (display_loop tx my mx cols cw (sorted_hosts (data d2)) c0 d2)
    as [[c3|e|] d3] eqn:El; [|discriminate H|discriminate H].
  cbn [snd] in Hm3, Hy3, Hx3.
  destruct (display_loop_drawn _ _ _ _ _ _ _ _ _ _ El) as (Hn1 & Hn2 & _).
  { cbn [c0 drawn_machines]. lia. }
  cbn [c0 drawn_machines] in Hn1.
  destruct (Z.ltb_spec 1 my) as [_|Hle]; [|lia].
  rewrite safe_addstr_run in H.
  assert (Hwin : in_window (stdscr d3) (my - 1) 0 = true).
  { unfold in_window. rewrite Hy3, Hx3, Hy2, Hx2, Hy1, Hx1.
    rewrite !andb_true_iff. repeat split;
      first [apply Z.leb_le; lia | apply Z.ltb_lt; lia]. }
  rewrite Hwin in H. injection H as <-.
  exists (written (stdscr d3)), (drawn_machines c3).
  rewrite Hm2, Hm1 in *. split; [lia|].
  unfold with_written. cbn [stdscr written]. f_equal. f_equal. f_equal.
  f_equal. rewrite Hx3, Hx2, Hx1, Z.sub_0_r.
  apply take_all. unfold PyStr.slice_to.
  destruct (Z.ltb_spec (mx - 1) 0) as [Hneg|_]; [lia|].
  pose proof (take_length (Z.to_nat (mx - 1))
                (status_text tx (drawn_machines c3)
                   (Z.of_nat (length (machines d))))). lia.
Qed.

Lemma update_display_ends_with_status_witness :
  exists ws n,
    0 <= n <= Z.of_nat (length (machines healthy_board))
    /\ written (stdscr (update_display plain_texts healthy_board).2)
       = ws ++ [(max_y (stdscr healthy_board) - 1, 0,
                 PyStr.slice_to (max_x (stdscr healthy_board) - 1)
                   (status_text plain_texts n
                      (Z.of_nat (length (machines healthy_board)))),
                 color_pair CYAN)].
Proof.
  apply (update_display_ends_with_status plain_texts healthy_board
           (update_display plain_texts healthy_board).2).
  - vm_compute. reflexivity.
  - vm_compute. reflexivity.
  - vm_compute. reflexivity.
Defined.

End DashFacts.
